(** * AI Study Buddy: the request-orchestration layer of [aiService.ts]

    A shallow embedding of the service module that calls the generative
    language API: the retry wrapper [withRetry], the candidate list
    [MODELS], and the three operations [sendMessage], [generateQuiz] and
    [generateFlashcards].

    Modelling conventions.
    - JavaScript numbers that the code uses as counters, delays and HTTP
      status codes are integers ([Z]); [Math.pow(2, i)] is [2 ^ i].
    - The texts that the code handles (messages, prompts, responses) are
      [string]s: sequences of code units below 256.  A thrown object's
      [message], when present, is such a text.  The strings inside a value
      produced by [JSON.parse] may hold any 16-bit code unit, since an
      escape [\uXXXX] can denote each of them: they are lists of code
      units ([JsString]).
    - A promise that rejects and a [throw] are the same outcome, [Throw];
      [await] is sequencing.
    - The external service is an abstract state [W] together with a
      transition function; every theorem quantifies over both, so any
      sequence of responses of the real service is covered.  A response
      carries what [response.text()] does: return the text, or throw
      (the SDK throws when the answer was blocked).
    - Of the SDK, the two checks that run on this side of the network are
      modelled: [startChat] rejects a history whose first turn is not of
      role [user], and [response.text()] may throw.
    - What the code does locally (timers, console output) is recorded in a
      chronological trace of [Event]s. *)

From Stdlib Require Import ZArith List String Ascii Bool Lia Arith DecimalString.
Import ListNotations.

Local Open Scope string_scope.
Local Open Scope Z_scope.

(** ** JavaScript values that the code inspects *)

(** The fields of a thrown object that the code reads: [error.status],
    [error.response.status] and [error.message]; each may be undefined. *)
Record ErrorObj : Type := mkErrorObj {
  status : option Z;
  response_status : option Z;
  message : option string
}.

(** A caught value has type [any]: it may be [undefined]. *)
Inductive JsVal : Type :=
| JsUndefined
| JsError (e : ErrorObj).

(** [new Error(msg)]. *)
Definition Error (msg : string) : JsVal :=
  JsError {| status := None; response_status := None; message := Some msg |}.

(** [String.prototype.includes]. *)
Fixpoint includes (s sub : string) : bool :=
  String.prefix sub s ||
  match s with
  | EmptyString => false
  | String _ rest => includes rest sub
  end.

(** [error?.status]. *)
Definition get_status (error : JsVal) : option Z :=
  match error with
  | JsUndefined => None
  | JsError e => status e
  end.

(** [error?.response?.status]. *)
Definition get_response_status (error : JsVal) : option Z :=
  match error with
  | JsUndefined => None
  | JsError e => response_status e
  end.

(** [error?.message]. *)
Definition get_message (error : JsVal) : option string :=
  match error with
  | JsUndefined => None
  | JsError e => message e
  end.

(** [error?.message?.includes(sub)], read as a condition: [undefined] is
    falsy. *)
Definition message_includes (error : JsVal) (sub : string) : bool :=
  match get_message error with
  | Some m => includes m sub
  | None => false
  end.

(** [a || b] on optional numbers: [undefined] and [0] are falsy. *)
Definition or_status (a b : option Z) : option Z :=
  match a with
  | Some x => if x =? 0 then b else Some x
  | None => b
  end.

(** [status === n]. *)
Definition status_is (st : option Z) (n : Z) : bool :=
  match st with
  | Some x => x =? n
  | None => false
  end.

(** [x || dflt] on optional strings: [undefined] and the empty string are
    falsy. *)
Definition or_string (x : option string) (dflt : string) : string :=
  match x with
  | Some EmptyString => dflt
  | Some m => m
  | None => dflt
  end.

(** ** Effects: outcomes, the trace and the monad *)

Inductive Outcome (A : Type) : Type :=
| Return (a : A)
| Throw (e : JsVal).
Arguments Return {A} a.
Arguments Throw {A} e.

Inductive Event : Type :=
| Invoke                                   (* [fn()] inside [withRetry] *)
| Warn (attempt maxRetries delay : Z) (msg : option string)
                                           (* [console.warn] of [withRetry] *)
| Sleep (ms : Z)                           (* [setTimeout(resolve, ms)] awaited *)
| Log (text : string)                      (* [console.log] *)
| LogError (text : string) (error : JsVal) (* [console.error] *).

Definition is_invoke (ev : Event) : bool :=
  match ev with Invoke => true | _ => false end.

Definition sleep_of (ev : Event) : option Z :=
  match ev with Sleep ms => Some ms | _ => None end.

(** Number of invocations of the wrapped operation recorded in a trace. *)
Definition invocations (tr : list Event) : nat :=
  List.length (filter is_invoke tr).

(** The delays awaited, in order. *)
Fixpoint delays (tr : list Event) : list Z :=
  match tr with
  | [] => []
  | ev :: tr' =>
      match sleep_of ev with
      | Some ms => ms :: delays tr'
      | None => delays tr'
      end
  end.

Section Effects.

(** State of the external world (the remote service). *)
Context {W : Type}.

Record Sys : Type := mkSys {
  world : W;
  trace : list Event
}.

Definition M (A : Type) : Type := Sys -> Outcome A * Sys.

(** A zero-argument asynchronous operation: it acts on the world and
    resolves or rejects. *)
Definition Op (A : Type) : Type := W -> Outcome A * W.

Definition ret {A} (a : A) : M A := fun s => (Return a, s).

Definition throw {A} (e : JsVal) : M A := fun s => (Throw e, s).

Definition bind {A B} (m : M A) (k : A -> M B) : M B :=
  fun s =>
    match m s with
    | (Return a, s') => k a s'
    | (Throw e, s') => (Throw e, s')
    end.

(** [try { m } catch (error) { handler }]. *)
Definition try_catch {A} (m : M A) (handler : JsVal -> M A) : M A :=
  fun s =>
    match m s with
    | (Return a, s') => (Return a, s')
    | (Throw e, s') => handler e s'
    end.

(** The state after one more event. *)
Definition log_event (ev : Event) (s : Sys) : Sys :=
  {| world := world s; trace := trace s ++ [ev] |}.

Definition emit (ev : Event) : M unit :=
  fun s => (Return tt, log_event ev s).

(** A step that returns or throws without touching the state. *)
Definition of_outcome {A} (r : Outcome A) : M A := fun s => (r, s).

(** [await fn()]: the invocation is recorded, then the operation runs
    against the world. *)
Definition invoke {A} (fn : Op A) : M A :=
  fun s =>
    let '(r, w') := fn (world s) in
    (r, {| world := w'; trace := trace s ++ [Invoke] |}).

End Effects.

Arguments Sys W : clear implicits.
Arguments M W A : clear implicits.
Arguments Op W A : clear implicits.

Declare Scope js_scope.
Delimit Scope js_scope with js.
Notation "x <- m ;; k" := (bind m (fun x => k))
  (at level 61, m at next level, right associativity) : js_scope.
Notation "m ;;; k" := (bind m (fun _ => k))
  (at level 61, right associativity) : js_scope.
Local Open Scope js_scope.

(** ** The Resilience Wrapper: [withRetry] *)

(** The retry condition of [withRetry]:
    [status === 429 || status === 503 || error?.message?.includes('quota')
     || error?.message?.includes('fetch')]
    with [status = error?.status || error?.response?.status]. *)
Definition error_status (error : JsVal) : option Z :=
  or_status (get_status error) (get_response_status error).

Definition retryable (error : JsVal) : bool :=
  let status := error_status error in
  status_is status 429 || status_is status 503 ||
  message_includes error "quota" || message_includes error "fetch".

Section WithRetry.

Context {W T : Type}.
Variable fn : Op W T.
Variables maxRetries initialDelay : Z.

(** The body of [for (let i = 0; i < maxRetries; i++)].  The counter [i]
    is kept as in the source; [remaining] is the number of iterations
    still allowed by the test [i < maxRetries], i.e.
    [Z.to_nat (maxRetries - i)]. *)
Fixpoint withRetry_loop (remaining : nat) (i : Z) (lastError : JsVal)
  : M W T :=
  match remaining with
  | O => throw lastError
  | S remaining' =>
      try_catch (invoke fn)
        (fun error =>
           if retryable error then
             let delay := initialDelay * 2 ^ i in
             emit (Warn (i + 1) maxRetries delay (get_message error)) ;;;
             emit (Sleep delay) ;;;
             withRetry_loop remaining' (i + 1) error
           else throw error)
  end.

Definition withRetry : M W T :=
  withRetry_loop (Z.to_nat maxRetries) 0 JsUndefined.

End WithRetry.

(** The defaults of the signature: [maxRetries = 3], [initialDelay = 1000]. *)
Definition withRetry_default {W T} (fn : Op W T) : M W T :=
  withRetry fn 3 1000.

(** *** Runs of an operation *)

Section Runs.

Context {W T : Type}.
Variable fn : Op W T.

(** The world after [k] invocations of [fn] starting in [w]. *)
Fixpoint world_after (k : nat) (w : W) : W :=
  match k with
  | O => w
  | S k' => world_after k' (snd (fn w))
  end.

(** The outcome of the invocation number [k] (from 0) starting in [w]. *)
Definition outcome_at (k : nat) (w : W) : Outcome T :=
  fst (fn (world_after k w)).

(** The value thrown by the invocation number [k], if it fails. *)
Definition failure_at (k : nat) (w : W) : JsVal :=
  match outcome_at k w with
  | Throw e => e
  | Return _ => JsUndefined
  end.

Definition fails_retryably (k : nat) (w : W) : Prop :=
  exists e, outcome_at k w = Throw e /\ retryable e = true.

End Runs.

(** What [withRetry] records around the failed attempt number [i]: the
    invocation, the warning and the wait of [initialDelay * 2 ^ i]. *)
Definition failed_attempt_events {W T} (fn : Op W T) (w : W)
  (maxRetries initialDelay : Z) (k : nat) : list Event :=
  let i := Z.of_nat k in
  [ Invoke;
    Warn (i + 1) maxRetries (initialDelay * 2 ^ i)
         (get_message (failure_at fn k w));
    Sleep (initialDelay * 2 ^ i) ].


(** ** Data model of the service module *)

(** ['user' | 'model']. *)
Inductive Role : Type :=
| role_user
| role_model.

Record InlineData : Type := mkInlineData {
  data : string;
  mimeType : string
}.

Record FileData : Type := mkFileData {
  inlineData : InlineData;
  name : option string
}.

Record ChatMessage : Type := mkChatMessage {
  role : Role;
  content : string;
  files : option (list FileData)
}.

(** *** What is handed to the SDK *)

(** A part object of the SDK: [{ text }] or [{ inlineData }]. *)
Inductive Part : Type :=
| TextPart (text : string)
| InlineDataPart (inlineData : InlineData).

(** An element of [(string | Part)[]]. *)
Inductive PromptPart : Type :=
| PromptString (s : string)
| PromptObject (p : Part).

(** A turn of the upstream history: [{ role, parts }]. *)
Record Content : Type := mkContent {
  content_role : Role;
  parts : list Part
}.

(** [new GoogleGenerativeAI(key)]. *)
Record GoogleGenerativeAI : Type := mkGoogleGenerativeAI {
  apiKey : string
}.

(** [genAI.getGenerativeModel({ model, systemInstruction })]. *)
Record GenerativeModel : Type := mkGenerativeModel {
  model_client : GoogleGenerativeAI;
  model_name : string;
  systemInstruction : option string
}.

(** [model.startChat({ history })]. *)
Record ChatSession : Type := mkChatSession {
  chat_model : GenerativeModel;
  chat_history : list Content
}.

Definition getGenerativeModel (genAI : GoogleGenerativeAI) (modelName : string)
  (instruction : option string) : GenerativeModel :=
  {| model_client := genAI; model_name := modelName;
     systemInstruction := instruction |}.

(** The message of the error that the SDK throws for a history that
    starts with a turn of the model. *)
Definition FIRST_CONTENT_MESSAGE : string :=
  "[GoogleGenerativeAI Error]: First content should be with role 'user', got model".

(** The check that the SDK makes on the history when a chat session is
    built: the first turn must be of role [user].  (Its other checks, that
    every turn has parts and that these are of a kind allowed for the role,
    hold for every turn made of one text part.) *)
Definition validateChatHistory (history : list Content) : option JsVal :=
  match history with
  | first :: _ =>
      match content_role first with
      | role_user => None
      | role_model => Some (Error FIRST_CONTENT_MESSAGE)
      end
  | [] => None
  end.

(** [model.startChat({ history })] throws what the check finds. *)
Definition startChat (m : GenerativeModel) (history : list Content)
  : Outcome ChatSession :=
  match validateChatHistory history with
  | Some e => Throw e
  | None => Return {| chat_model := m; chat_history := history |}
  end.

(** The two network calls of the SDK that the module makes. *)
Inductive Request : Type :=
| ChatSendMessage (chat : ChatSession) (promptParts : list PromptPart)
| GenerateContent (m : GenerativeModel) (promptParts : list PromptPart).

Definition request_model (req : Request) : GenerativeModel :=
  match req with
  | ChatSendMessage chat _ => chat_model chat
  | GenerateContent m _ => m
  end.

(** The resolved value of a network call, as far as the code reads it:
    what [result.response.text()] does.  It returns the text of the answer,
    or throws the error that the SDK builds for an answer that was
    blocked. *)
Record GenerateContentResult : Type := mkResult {
  response_text : Outcome string
}.

(** *** Configuration *)

(** The two places where [VITE_GEMINI_API_KEY] is looked up:
    [import.meta.env] and [process.env]. *)
Record Env : Type := mkEnv {
  import_meta_env_key : option string;
  process_env_key : option string
}.

(** [import.meta.env?.VITE_GEMINI_API_KEY ||
     process?.env?.VITE_GEMINI_API_KEY || ""]. *)
Definition getApiKey (env : Env) : string :=
  or_string (import_meta_env_key env) (or_string (process_env_key env) "").

Definition getGenAI (env : Env) : GoogleGenerativeAI :=
  let key := getApiKey env in
  {| apiKey := key |}.

(** [!apiKey] on a string. *)
Definition falsy_string (s : string) : bool :=
  match s with
  | EmptyString => true
  | _ => false
  end.

(** *** Characters and text constants *)

Definition dq : string := String (ascii_of_nat 34) EmptyString.
Definition nl : string := String (ascii_of_nat 10) EmptyString.
Definition backslash : string := String (ascii_of_nat 92) EmptyString.

(** The em dash of the persona text, as its three UTF-8 bytes. *)
Definition emdash : string :=
  String (ascii_of_nat 226)
    (String (ascii_of_nat 128) (String (ascii_of_nat 148) EmptyString)).

Definition SYSTEM_PROMPT : string :=
  String.concat "" [
    "You are a highly advanced AI Study Buddy, meticulously "; dq; "trained";
    dq; " on pedagogy and student engagement. "; nl;
    "Your core mission is to empower students through clarity, encouragement, and accuracy.";
    nl; nl;
    "BEHAVIORAL "; dq; "WEIGHTS"; dq; ":"; nl;
    "1. INTERACTION: Always greet students warmly. Respond to "; dq; "hi"; dq;
    ", "; dq; "hii"; dq; ", "; dq; "hello"; dq;
    ", etc., with a helpful attitude."; nl;
    "2. EXPERTIZE: You excel at breaking down syllabus topics into bite-sized, understandable concepts. ";
    nl;
    "3. GUARDRAILS: Strictly prioritize academic content. If a user drifts into non-study topics, politely steer them back: ";
    dq;
    "I'd love to help with that, but I'm specialized in your studies! What subject are we tackling today?";
    dq; nl;
    "4. MULTI-MODAL: Analyze PDFs and ALL formats of images (PNG, JPG, WEBP, etc.) with deep precision. Extract key formulas, dates, diagrams, and definitions.";
    nl;
    "5. EXPLANATION: Use the "; dq; "Feynman Technique"; dq; emdash;
    "explain complex ideas as if to a child, using simple metaphors and zero jargon.";
    nl;
    "6. OUTPUT: Quizzes and Flashcards must be perfectly structured for the interactive UI.";
    nl; nl;
    "Your "; dq; "epochs"; dq;
    " are represented by your ongoing commitment to being the most supportive and accurate study companion possible. You have been ";
    dq; "trained"; dq;
    " to handle a wide variety of educational inputs including handwritten notes, textbook pages, and digital syllabi."
  ].

Definition MODELS : list string :=
  ["gemini-flash-latest"; "gemini-2.0-flash";
   "gemini-2.0-flash-lite-preview-09-2025"; "gemini-1.5-pro"].

(** Messages of the errors that the module constructs. *)
Definition MISSING_KEY_MESSAGE : string :=
  "Gemini API Key is missing. Please add VITE_GEMINI_API_KEY to your environment variables.".

Definition QUOTA_MESSAGE : string :=
  "API Quota Exceeded across all available models. Please check your Google AI Studio billing or wait a few minutes.".

Definition NOT_FOUND_MESSAGE : string :=
  "Gemini models not found for this API key. Please verify your key in Google AI Studio.".

Definition GENERIC_CHAT_PREFIX : string :=
  "Failed to get AI response after trying multiple models. ".

Definition GENERIC_QUIZ_PREFIX : string :=
  "Failed to generate quiz after trying multiple models. ".

Definition GENERIC_FLASHCARDS_PREFIX : string :=
  "Failed to generate flashcards after trying multiple models. ".

(** ** Output parsing: fence stripping, trimming, [JSON.parse] *)

Definition is_backtick (c : ascii) : bool := Ascii.eqb c "`".

(** [text.replace(/```json|```/g, "")]: the text is scanned from the left;
    at each position the alternatives are tried in order, a match is
    dropped and the scan resumes after it, any other character is kept. *)
Fixpoint strip_fences (s : string) : string :=
  match s with
  | EmptyString => EmptyString
  | String c1 r1 =>
      match r1 with
      | String c2 (String c3 r3) =>
          if is_backtick c1 && is_backtick c2 && is_backtick c3 then
            match r3 with
            | String c4 (String c5 (String c6 (String c7 r7))) =>
                if Ascii.eqb c4 "j" && Ascii.eqb c5 "s" &&
                   Ascii.eqb c6 "o" && Ascii.eqb c7 "n"
                then strip_fences r7
                else strip_fences r3
            | _ => strip_fences r3
            end
          else String c1 (strip_fences r1)
      | _ => String c1 (strip_fences r1)
      end
  end.

(** White space of [String.prototype.trim] within the 8-bit alphabet:
    TAB, LF, VT, FF, CR, SP and NBSP. *)
Definition is_trim_space (c : ascii) : bool :=
  let n := N_of_ascii c in
  ((9 <=? n) && (n <=? 13) || (n =? 32) || (n =? 160))%N.

Fixpoint trimStart (s : string) : string :=
  match s with
  | EmptyString => EmptyString
  | String c rest => if is_trim_space c then trimStart rest else s
  end.

Fixpoint trimEnd (s : string) : string :=
  match s with
  | EmptyString => EmptyString
  | String c rest =>
      match trimEnd rest with
      | EmptyString => if is_trim_space c then EmptyString
                       else String c EmptyString
      | rest' => String c rest'
      end
  end.

Definition trim (s : string) : string := trimEnd (trimStart s).

(** *** JSON values *)

Local Set Warnings "-register-all".

(** A string of a parsed value: the sequence of its UTF-16 code units. *)
Definition JsString : Type := list N.

(** The code units of a text. *)
Fixpoint units (s : string) : JsString :=
  match s with
  | EmptyString => []
  | String c rest => N_of_ascii c :: units rest
  end.

(** [a === b] on strings. *)
Fixpoint units_eqb (a b : JsString) : bool :=
  match a, b with
  | [], [] => true
  | x :: a', y :: b' => (x =? y)%N && units_eqb a' b'
  | _, _ => false
  end.

(** A number is kept as its literal; an object is the list of its members
    in insertion order, a repeated key keeping its first position and its
    last value. *)
Inductive JSON : Type :=
| JNull
| JBool (b : bool)
| JNumber (literal : string)
| JString (s : JsString)
| JArray (items : list JSON)
| JObject (members : list (JsString * JSON)).

(** The string value and the object whose strings and names are the given
    texts. *)
Definition JText (s : string) : JSON := JString (units s).

Definition JRecord (members : list (string * JSON)) : JSON :=
  JObject (map (fun m => (units (fst m), snd m)) members).

Fixpoint set_member (k : JsString) (v : JSON) (ms : list (JsString * JSON))
  : list (JsString * JSON) :=
  match ms with
  | [] => [(k, v)]
  | (k', v') :: ms' =>
      if units_eqb k k' then (k, v) :: ms'
      else (k', v') :: set_member k v ms'
  end.

(** *** Lexer *)

Inductive Token : Type :=
| TLBrace | TRBrace | TLBracket | TRBracket | TComma | TColon
| TString (s : JsString)
| TNumber (literal : string)
| TTrue | TFalse | TNull.

Definition is_digit (c : ascii) : bool :=
  let n := N_of_ascii c in ((48 <=? n) && (n <=? 57))%N.

Fixpoint all_digits (s : string) : bool :=
  match s with
  | EmptyString => true
  | String c rest => is_digit c && all_digits rest
  end.

Definition nonempty_digits (s : string) : bool :=
  match s with
  | EmptyString => false
  | _ => all_digits s
  end.

(** Splits [s] at the first character satisfying [p]. *)
Fixpoint break_at (p : ascii -> bool) (s : string) : string * string :=
  match s with
  | EmptyString => (EmptyString, EmptyString)
  | String c rest =>
      if p c then (EmptyString, s)
      else let '(a, b) := break_at p rest in (String c a, b)
  end.

(** The exponent part after [e] or [E]: an optional sign and digits. *)
Definition valid_exponent (s : string) : bool :=
  match s with
  | String c rest =>
      if Ascii.eqb c "+" || Ascii.eqb c "-" then nonempty_digits rest
      else nonempty_digits s
  | EmptyString => false
  end.

(** The integer part: [0] or a digit sequence without leading zero. *)
Definition valid_int (s : string) : bool :=
  match s with
  | String c EmptyString => is_digit c
  | String c rest => is_digit c && negb (Ascii.eqb c "0") && all_digits rest
  | EmptyString => false
  end.

(** The JSON number grammar: an optional minus sign, the integer part, an
    optional fraction (a dot and digits) and an optional exponent. *)
Definition valid_number (s : string) : bool :=
  let unsigned :=
    match s with
    | String c rest => if Ascii.eqb c "-" then rest else s
    | EmptyString => s
    end in
  let '(mantissa, expo) :=
    break_at (fun c => Ascii.eqb c "e" || Ascii.eqb c "E") unsigned in
  let '(int_part, frac) := break_at (fun c => Ascii.eqb c ".") mantissa in
  valid_int int_part &&
  match frac with
  | EmptyString => true
  | String _ digits => nonempty_digits digits
  end &&
  match expo with
  | EmptyString => true
  | String _ e => valid_exponent e
  end.

Definition hex_value (c : ascii) : option N :=
  let n := N_of_ascii c in
  (if (48 <=? n) && (n <=? 57) then Some (n - 48)
   else if (65 <=? n) && (n <=? 70) then Some (n - 55)
   else if (97 <=? n) && (n <=? 102) then Some (n - 87)
   else None)%N.

(** The code unit of a one-letter escape. *)
Definition simple_escape (c : ascii) : option N :=
  if Ascii.eqb c (ascii_of_nat 34) then Some 34%N
  else if Ascii.eqb c "\" then Some 92%N
  else if Ascii.eqb c "/" then Some 47%N
  else if Ascii.eqb c "b" then Some 8%N
  else if Ascii.eqb c "f" then Some 12%N
  else if Ascii.eqb c "n" then Some 10%N
  else if Ascii.eqb c "r" then Some 13%N
  else if Ascii.eqb c "t" then Some 9%N
  else None.

(** What the lexer is in the middle of.  What has been read of the
    current token is kept reversed. *)
Inductive LexMode : Type :=
| Idle
| InString (acc : JsString)
| InEscape (acc : JsString)
| InUnicode (acc : JsString) (digits : list N)
| InNumber (acc : string)
| InWord (acc : string).

Fixpoint rev_string (s acc : string) : string :=
  match s with
  | EmptyString => acc
  | String c rest => rev_string rest (String c acc)
  end.

Definition is_json_space (c : ascii) : bool :=
  let n := N_of_ascii c in ((n =? 9) || (n =? 10) || (n =? 13) || (n =? 32))%N.

Definition is_number_char (c : ascii) : bool :=
  is_digit c || Ascii.eqb c "-" || Ascii.eqb c "+" || Ascii.eqb c "." ||
  Ascii.eqb c "e" || Ascii.eqb c "E".

Definition is_letter (c : ascii) : bool :=
  let n := N_of_ascii c in ((97 <=? n) && (n <=? 122))%N.

Definition finish_number (acc : string) : option Token :=
  let literal := rev_string acc EmptyString in
  if valid_number literal then Some (TNumber literal) else None.

Definition finish_word (acc : string) : option Token :=
  let w := rev_string acc EmptyString in
  if String.eqb w "true" then Some TTrue
  else if String.eqb w "false" then Some TFalse
  else if String.eqb w "null" then Some TNull
  else None.

(** A character read between tokens. *)
Definition lex_idle (c : ascii) : option (LexMode * list Token) :=
  if is_json_space c then Some (Idle, [])
  else if Ascii.eqb c "{" then Some (Idle, [TLBrace])
  else if Ascii.eqb c "}" then Some (Idle, [TRBrace])
  else if Ascii.eqb c "[" then Some (Idle, [TLBracket])
  else if Ascii.eqb c "]" then Some (Idle, [TRBracket])
  else if Ascii.eqb c "," then Some (Idle, [TComma])
  else if Ascii.eqb c ":" then Some (Idle, [TColon])
  else if Ascii.eqb c (ascii_of_nat 34) then Some (InString [], [])
  else if is_digit c || Ascii.eqb c "-" then
    Some (InNumber (String c EmptyString), [])
  else if is_letter c then Some (InWord (String c EmptyString), [])
  else None.

(** A token that ends because [c] does not continue it, followed by [c]
    read between tokens. *)
Definition lex_after (tok : option Token) (c : ascii)
  : option (LexMode * list Token) :=
  match tok, lex_idle c with
  | Some t, Some (mode, ts) => Some (mode, t :: ts)
  | _, _ => None
  end.

(** One character of input.  Inside a string a character stands for its
    code unit, and [\uXXXX] for the code unit with that hexadecimal
    number. *)
Definition lex_step (mode : LexMode) (c : ascii)
  : option (LexMode * list Token) :=
  match mode with
  | Idle => lex_idle c
  | InString acc =>
      if Ascii.eqb c (ascii_of_nat 34) then
        Some (Idle, [TString (rev acc)])
      else if Ascii.eqb c "\" then Some (InEscape acc, [])
      else if (N_of_ascii c <? 32)%N then None
      else Some (InString (N_of_ascii c :: acc), [])
  | InEscape acc =>
      if Ascii.eqb c "u" then Some (InUnicode acc [], [])
      else match simple_escape c with
           | Some u => Some (InString (u :: acc), [])
           | None => None
           end
  | InUnicode acc digits =>
      match hex_value c, digits with
      | Some d, [d3; d2; d1] =>
          let code := (((d1 * 16 + d2) * 16 + d3) * 16 + d)%N in
          Some (InString (code :: acc), [])
      | Some d, _ => Some (InUnicode acc (d :: digits), [])
      | None, _ => None
      end
  | InNumber acc =>
      if is_number_char c then Some (InNumber (String c acc), [])
      else lex_after (finish_number acc) c
  | InWord acc =>
      if is_letter c then Some (InWord (String c acc), [])
      else lex_after (finish_word acc) c
  end.

(** At the end of the input. *)
Definition lex_end (mode : LexMode) : option (list Token) :=
  match mode with
  | Idle => Some []
  | InNumber acc => option_map (fun t => [t]) (finish_number acc)
  | InWord acc => option_map (fun t => [t]) (finish_word acc)
  | InString _ | InEscape _ | InUnicode _ _ => None
  end.

Fixpoint lex (mode : LexMode) (s : string) : option (list Token) :=
  match s with
  | EmptyString => lex_end mode
  | String c rest =>
      match lex_step mode c with
      | Some (mode', ts) =>
          match lex mode' rest with
          | Some ts' => Some (ts ++ ts')%list
          | None => None
          end
      | None => None
      end
  end.

(** *** Parser *)

(** What is open around the current position. *)
Inductive Frame : Type :=
| FArray (items_rev : list JSON)
| FObject (members : list (JsString * JSON))
| FKey (key : JsString).

Inductive ParseState : Type :=
| WantValue
| WantValueOrClose       (* just after an opening bracket *)
| WantKeyOrClose         (* just after an opening brace *)
| WantKey                (* after a comma inside an object *)
| WantColon (key : JsString)
| Have (v : JSON)        (* a value is complete *).

Definition scalar_of (tok : Token) : option JSON :=
  match tok with
  | TString s => Some (JString s)
  | TNumber n => Some (JNumber n)
  | TTrue => Some (JBool true)
  | TFalse => Some (JBool false)
  | TNull => Some JNull
  | _ => None
  end.

Definition parse_value_start (close_ok : bool) (stack : list Frame)
  (tok : Token) : option (ParseState * list Frame) :=
  match tok with
  | TLBracket => Some (WantValueOrClose, FArray [] :: stack)
  | TLBrace => Some (WantKeyOrClose, FObject [] :: stack)
  | TRBracket =>
      match close_ok, stack with
      | true, FArray acc :: stack' => Some (Have (JArray (rev acc)), stack')
      | _, _ => None
      end
  | _ =>
      match scalar_of tok with
      | Some v => Some (Have v, stack)
      | None => None
      end
  end.

Definition parse_key_start (close_ok : bool) (stack : list Frame)
  (tok : Token) : option (ParseState * list Frame) :=
  match tok with
  | TString k => Some (WantColon k, stack)
  | TRBrace =>
      match close_ok, stack with
      | true, FObject ms :: stack' => Some (Have (JObject ms), stack')
      | _, _ => None
      end
  | _ => None
  end.

Definition parse_after_value (v : JSON) (stack : list Frame) (tok : Token)
  : option (ParseState * list Frame) :=
  match stack with
  | FArray acc :: stack' =>
      match tok with
      | TComma => Some (WantValue, FArray (v :: acc) :: stack')
      | TRBracket => Some (Have (JArray (rev (v :: acc))), stack')
      | _ => None
      end
  | FKey k :: FObject ms :: stack' =>
      match tok with
      | TComma => Some (WantKey, FObject (set_member k v ms) :: stack')
      | TRBrace => Some (Have (JObject (set_member k v ms)), stack')
      | _ => None
      end
  | _ => None
  end.

Definition parse_step (st : ParseState) (stack : list Frame) (tok : Token)
  : option (ParseState * list Frame) :=
  match st with
  | WantValue => parse_value_start false stack tok
  | WantValueOrClose => parse_value_start true stack tok
  | WantKeyOrClose => parse_key_start true stack tok
  | WantKey => parse_key_start false stack tok
  | WantColon k =>
      match tok with
      | TColon => Some (WantValue, FKey k :: stack)
      | _ => None
      end
  | Have v => parse_after_value v stack tok
  end.

Fixpoint parse_tokens (st : ParseState) (stack : list Frame)
  (toks : list Token) : option JSON :=
  match toks with
  | [] =>
      match st, stack with
      | Have v, [] => Some v
      | _, _ => None
      end
  | tok :: toks' =>
      match parse_step st stack tok with
      | Some (st', stack') => parse_tokens st' stack' toks'
      | None => None
      end
  end.

(** [JSON.parse]: [None] stands for the [SyntaxError] it throws. *)
Definition JSON_parse (s : string) : option JSON :=
  match lex Idle s with
  | Some toks => parse_tokens WantValue [] toks
  | None => None
  end.

(** [text.replace(/```json|```/g, "").trim()]. *)
Definition clean_response (text : string) : string :=
  trim (strip_fences text).

(** The parsing step of [generateQuiz] and [generateFlashcards]. *)
Definition parse_response (text : string) : option JSON :=
  JSON_parse (clean_response text).

(** ** The remote service *)

(** The world of the three operations: the state of the remote service
    and the requests it has received, in order. *)
Record Net (St : Type) : Type := mkNet {
  service_state : St;
  requests : list Request
}.
Arguments mkNet {St} _ _.
Arguments service_state {St} _.
Arguments requests {St} _.

(** [`${count}`] for an integer. *)
Definition number_to_string (n : Z) : string :=
  NilZero.string_of_int (Z.to_int n).

Section Service.

Context {St : Type}.

(** The behaviour of the remote service: how it answers a request in a
    given state. *)
Variable service : Request -> St -> Outcome GenerateContentResult * St.

(** The text of the [SyntaxError] that [JSON.parse] throws on a given
    input (it depends on the engine). *)
Variable syntaxErrorMessage : string -> string.

Variable env : Env.

(** One network call. *)
Definition call (req : Request) : Op (Net St) GenerateContentResult :=
  fun w =>
    let '(r, st') := service req (service_state w) in
    (r, {| service_state := st'; requests := requests w ++ [req] |}).

(** [JSON.parse(text)] as a computation. *)
Definition JSON_parse_or_throw {W} (text : string) : M W JSON :=
  match JSON_parse text with
  | Some v => ret v
  | None => throw (Error (syntaxErrorMessage text))
  end.

(** *** [sendMessage] *)

(** [history[0]?.role === 'model' ? history.slice(1) : history]. *)
Definition apiHistory (history : list ChatMessage) : list ChatMessage :=
  match history with
  | first :: rest =>
      match role first with
      | role_model => rest
      | role_user => history
      end
  | [] => history
  end.

(** [msg => ({ role: msg.role, parts: [{ text: msg.content }] })]. *)
Definition to_content (msg : ChatMessage) : Content :=
  {| content_role := role msg; parts := [TextPart (content msg)] |}.

(** [[currentMessage, ...files.map(file => ({ inlineData }))]]. *)
Definition chat_promptParts (currentMessage : string)
  (files : list FileData) : list PromptPart :=
  PromptString currentMessage ::
  map (fun file => PromptObject (InlineDataPart (inlineData file))) files.

(** The request that [sendMessage] issues for a candidate, once the chat
    session has been built. *)
Definition chat_request (genAI : GoogleGenerativeAI) (modelName : string)
  (history : list ChatMessage) (currentMessage : string)
  (files : list FileData) : Request :=
  let model := getGenerativeModel genAI modelName (Some SYSTEM_PROMPT) in
  let chat := {| chat_model := model;
                 chat_history := map to_content (apiHistory history) |} in
  ChatSendMessage chat (chat_promptParts currentMessage files).

Section SendMessage.

Variable history : list ChatMessage.
Variable currentMessage : string.
Variable files : list FileData.
Variable genAI : GoogleGenerativeAI.

(** The body of the [try] block for one candidate, up to the value it
    returns.  It can throw in three places: [startChat], the wrapped call
    and [response.text()]. *)
Definition sendMessage_attempt (modelName : string) : M (Net St) string :=
  emit (Log ("Attempting message with model: " ++ modelName)) ;;;
  let model := getGenerativeModel genAI modelName (Some SYSTEM_PROMPT) in
  chat <- of_outcome (startChat model (map to_content (apiHistory history))) ;;
  let promptParts := chat_promptParts currentMessage files in
  result <- withRetry_default (call (ChatSendMessage chat promptParts)) ;;
  of_outcome (response_text result).

(** [console.error(`Error with model ${modelName}:`, error)]. *)
Definition sendMessage_report (modelName : string) (error : JsVal) : Event :=
  LogError ("Error with model " ++ modelName ++ ":") error.

(** [for (const modelName of MODELS) { try { ...; return text }
    catch (error) { lastError = error; ...; continue } }].  The result
    is [inl text] when the function returns from inside the loop and
    [inr lastError] when the loop ends. *)
Fixpoint sendMessage_loop (models : list string) (lastError : JsVal)
  : M (Net St) (string + JsVal) :=
  match models with
  | [] => ret (inr lastError)
  | modelName :: models' =>
      try_catch
        (text <- sendMessage_attempt modelName ;;
         ret (inl text))
        (fun error =>
           emit (sendMessage_report modelName error) ;;;
           let continue := sendMessage_loop models' error in
           if status_is (get_status error) 404 ||
              message_includes error "404" ||
              message_includes error "not found"
           then continue
           else if status_is (get_status error) 429 ||
                   message_includes error "429" ||
                   message_includes error "quota"
           then continue
           else continue)
  end.

End SendMessage.

(** The failure thrown once every candidate has failed. *)
Definition sendMessage_failure (lastError : JsVal) : JsVal :=
  if message_includes lastError "quota" then Error QUOTA_MESSAGE
  else if status_is (get_status lastError) 404 ||
          message_includes lastError "not found"
  then Error NOT_FOUND_MESSAGE
  else Error (GENERIC_CHAT_PREFIX ++
              or_string (get_message lastError)
                "Please check your connection.").

Definition sendMessage (history : list ChatMessage)
  (currentMessage : string) (files : list FileData) : M (Net St) string :=
  let apiKey := getApiKey env in
  if falsy_string apiKey then throw (Error MISSING_KEY_MESSAGE)
  else
    let genAI := getGenAI env in
    r <- sendMessage_loop history currentMessage files genAI MODELS
           JsUndefined ;;
    match r with
    | inl text => ret text
    | inr lastError =>
        emit (LogError "All models failed in sendMessage:" lastError) ;;;
        throw (sendMessage_failure lastError)
    end.

(** *** [generateQuiz] *)

Definition quiz_prompt (topic : string) (fileData : option FileData)
  (difficulty : string) (count : Z) : string :=
  String.concat "" [
    "Generate a "; number_to_string count;
    "-question multiple choice quiz about "; dq; topic; dq;
    " with a difficulty level of "; dq; difficulty; dq; ". "; nl;
    "  Provide the output in JSON format: { "; dq; "questions"; dq;
    ": [{ "; dq; "question"; dq; ": "; dq; "..."; dq; ", "; dq; "options";
    dq; ": ["; dq; "..."; dq; ", "; dq; "..."; dq; "], "; dq; "answer"; dq;
    ": "; dq; "..."; dq; " }] }"; nl;
    "  ";
    match fileData with
    | Some _ => "Base the quiz on the provided file content."
    | None => ""
    end
  ].

(** [[prompt]], followed by [{ inlineData }] when a file is given. *)
Definition content_parts (prompt : string) (fileData : option FileData)
  : list PromptPart :=
  PromptString prompt ::
  match fileData with
  | Some file => [PromptObject (InlineDataPart (inlineData file))]
  | None => []
  end.

(** The request that [generateQuiz] and [generateFlashcards] issue for a
    candidate; the client is built inside the loop. *)
Definition content_request (modelName : string) (prompt : string)
  (fileData : option FileData) : Request :=
  let genAI := getGenAI env in
  let model := getGenerativeModel genAI modelName None in
  GenerateContent model (content_parts prompt fileData).

Section GenerateQuiz.

Variable prompt : string.
Variable fileData : option FileData.

(** The body of the [try] block for one candidate.  It can throw in
    three places: the wrapped call, [response.text()] and [JSON.parse]. *)
Definition generateQuiz_attempt (modelName : string) : M (Net St) JSON :=
  emit (Log ("Attempting quiz generation with model: " ++ modelName)) ;;;
  result <- withRetry_default
              (call (content_request modelName prompt fileData)) ;;
  text <- of_outcome (response_text result) ;;
  JSON_parse_or_throw (clean_response text).

Definition generateQuiz_report (modelName : string) (error : JsVal)
  : Event :=
  LogError ("Error with model " ++ modelName ++ " in generateQuiz:") error.

Fixpoint generateQuiz_loop (models : list string) (lastError : JsVal)
  : M (Net St) (JSON + JsVal) :=
  match models with
  | [] => ret (inr lastError)
  | modelName :: models' =>
      try_catch
        (v <- generateQuiz_attempt modelName ;;
         ret (inl v))
        (fun error =>
           emit (generateQuiz_report modelName error) ;;;
           let continue := generateQuiz_loop models' error in
           if status_is (get_status error) 404 ||
              message_includes error "404" ||
              message_includes error "not found" ||
              status_is (get_status error) 429 ||
              message_includes error "quota"
           then continue
           else continue)
  end.

End GenerateQuiz.

Definition generateQuiz (topic : string) (fileData : option FileData)
  (difficulty : string) (count : Z) : M (Net St) JSON :=
  let prompt := quiz_prompt topic fileData difficulty count in
  r <- generateQuiz_loop prompt fileData MODELS JsUndefined ;;
  match r with
  | inl v => ret v
  | inr lastError =>
      emit (LogError "All models failed in generateQuiz:" lastError) ;;;
      throw (Error (GENERIC_QUIZ_PREFIX ++
                    or_string (get_message lastError) ""))
  end.

(** *** [generateFlashcards] *)

Definition flashcards_prompt (topic : string) (fileData : option FileData)
  (count : Z) : string :=
  String.concat "" [
    "Generate "; number_to_string count; " flashcards about "; dq; topic;
    dq; ". "; nl;
    "  Provide the output in JSON format: { "; dq; "flashcards"; dq;
    ": [{ "; dq; "front"; dq; ": "; dq; "..."; dq; ", "; dq; "back"; dq;
    ": "; dq; "..."; dq; " }] }"; nl;
    "  ";
    match fileData with
    | Some _ => "Base the flashcards on the provided file content."
    | None => ""
    end
  ].

Section GenerateFlashcards.

Variable prompt : string.
Variable fileData : option FileData.

Definition generateFlashcards_attempt (modelName : string) : M (Net St) JSON :=
  emit (Log ("Attempting flashcard generation with model: " ++ modelName)) ;;;
  result <- withRetry_default
              (call (content_request modelName prompt fileData)) ;;
  text <- of_outcome (response_text result) ;;
  JSON_parse_or_throw (clean_response text).

Definition generateFlashcards_report (modelName : string) (error : JsVal)
  : Event :=
  LogError ("Error with model " ++ modelName ++ " in generateFlashcards:") error.

Fixpoint generateFlashcards_loop (models : list string) (lastError : JsVal)
  : M (Net St) (JSON + JsVal) :=
  match models with
  | [] => ret (inr lastError)
  | modelName :: models' =>
      try_catch
        (v <- generateFlashcards_attempt modelName ;;
         ret (inl v))
        (fun error =>
           emit (generateFlashcards_report modelName error) ;;;
           let continue := generateFlashcards_loop models' error in
           if status_is (get_status error) 404 ||
              message_includes error "404" ||
              message_includes error "not found" ||
              status_is (get_status error) 429 ||
              message_includes error "quota"
           then continue
           else continue)
  end.

End GenerateFlashcards.

Definition generateFlashcards (topic : string) (fileData : option FileData)
  (count : Z) : M (Net St) JSON :=
  let prompt := flashcards_prompt topic fileData count in
  r <- generateFlashcards_loop prompt fileData MODELS JsUndefined ;;
  match r with
  | inl v => ret v
  | inr lastError =>
      emit (LogError "All models failed in generateFlashcards:" lastError) ;;;
      throw (Error (GENERIC_FLASHCARDS_PREFIX ++
                    or_string (get_message lastError) ""))
  end.

End Service.

(** ** Runs of the fallback loop *)

Section Fallback.

Context {W A : Type}.

(** The body of the [try] block for a candidate, and the event logged by
    the [catch] block. *)
Variable attempt : string -> M W A.
Variable report : string -> JsVal -> Event.

(** [candidates_fail ms s e0 s' e]: started in [s] with [lastError = e0],
    the candidates [ms] are attempted in order and every one fails,
    whatever the failure; the run is then in [s'] with [lastError = e]. *)
Inductive candidates_fail
  : list string -> Sys W -> JsVal -> Sys W -> JsVal -> Prop :=
| candidates_fail_nil (s : Sys W) (e0 : JsVal) :
    candidates_fail [] s e0 s e0
| candidates_fail_cons (m : string) (ms : list string) (s s1 s' : Sys W)
    (e0 e1 e : JsVal) :
    attempt m s = (Throw e1, s1) ->
    candidates_fail ms (log_event (report m e1) s1) e1 s' e ->
    candidates_fail (m :: ms) s e0 s' e.

End Fallback.

(** The requests of a run in which the candidates [ms] are attempted in
    order, the candidate number [j] with [nth j ks] network calls; the run
    covers as many candidates as [ks] has entries. *)
Definition requests_of_run (req : string -> Request) (ms : list string)
  (ks : list nat) : list Request :=
  List.concat (map (fun mk => repeat (req (fst mk)) (snd mk)) (combine ms ks)).

(** ** Sample operations and services *)

(** An operation whose successive invocations produce the outcomes of
    [script], then [fallback]; its world is the number of invocations made
    so far. *)
Definition scripted {T} (script : list (Outcome T)) (fallback : Outcome T)
  : Op nat T :=
  fun k => (nth k script fallback, S k).

Definition failure (st rst : option Z) (msg : option string) : JsVal :=
  JsError {| status := st; response_status := rst; message := msg |}.

Definition rate_limited : JsVal :=
  failure (Some 429) None (Some "Too Many Requests").

Definition unavailable : JsVal :=
  failure None (Some 503) (Some "Service Unavailable").

Definition network_down : JsVal :=
  failure None None (Some "Failed to fetch").

Definition bad_request : JsVal :=
  failure (Some 400) None (Some "Bad Request").

Definition quota_exhausted : JsVal :=
  failure (Some 429) None (Some "You exceeded your current quota").

Definition model_missing : JsVal :=
  failure (Some 404) None (Some "models/x is not found").

Definition flaky : Op nat string :=
  scripted [Throw rate_limited; Throw unavailable; Throw network_down]
           (Return "ok").

Definition rejecting : Op nat string :=
  scripted [Throw bad_request] (Return "ok").

Definition start {W} (w : W) : Sys W := {| world := w; trace := [] |}.

(** A service that counts its calls: it does not know the first candidate,
    is over quota for the second, and answers for the others. *)
Definition patchy_service (req : Request) (calls : nat)
  : Outcome GenerateContentResult * nat :=
  let m := model_name (request_model req) in
  (if String.eqb m "gemini-flash-latest" then Throw model_missing
   else if String.eqb m "gemini-2.0-flash" then Throw quota_exhausted
   else Return {| response_text :=
                    Return "Osmosis is the movement of water." |},
   S calls).

(** The error that [response.text()] throws for an answer that was
    blocked. *)
Definition blocked_answer : JsVal :=
  Error "[GoogleGenerativeAI Error]: Candidate was blocked due to SAFETY".

(** A service whose answer for the first candidate is blocked and that
    answers for the others. *)
Definition blocking_first_service (req : Request) (calls : nat)
  : Outcome GenerateContentResult * nat :=
  (Return {| response_text :=
               if String.eqb (model_name (request_model req))
                    "gemini-flash-latest"
               then Throw blocked_answer
               else Return "Hello! What are we studying today?" |},
   S calls).

(** A service that fails every call in the same way. *)
Definition failing_service (e : JsVal) (req : Request) (calls : nat)
  : Outcome GenerateContentResult * nat :=
  (Throw e, S calls).

(** A service that answers every call with the same text. *)
Definition answering_service (text : string) (req : Request) (calls : nat)
  : Outcome GenerateContentResult * nat :=
  (Return {| response_text := Return text |}, S calls).

Definition engine_message (text : string) : string :=
  "Unexpected token in JSON".

Definition keyed_env : Env :=
  {| import_meta_env_key := Some "test-key"; process_env_key := None |}.

Definition keyless_env : Env :=
  {| import_meta_env_key := None; process_env_key := Some "" |}.

Definition fresh_net : Sys (Net nat) :=
  start {| service_state := 0%nat; requests := [] |}.

Definition greeting : ChatMessage :=
  {| role := role_model; content := "Hi! I'm your AI Study Buddy.";
     files := None |}.

Definition question : ChatMessage :=
  {| role := role_user; content := "What is diffusion?"; files := None |}.

Definition answer : ChatMessage :=
  {| role := role_model; content := "Diffusion is the spreading of particles.";
     files := None |}.

(** The candidates named by the requests of a log. *)
Definition requested_models (reqs : list Request) : list string :=
  map (fun req => model_name (request_model req)) reqs.

Definition quota_and_missing : JsVal :=
  failure (Some 404) None (Some "quota project not found").

Definition missing_by_text : JsVal :=
  failure None None (Some "[404] no such model").

Definition invalid_key : JsVal :=
  failure (Some 400) None
    (Some "API key not valid. Please pass a valid API key.").

(** The history carried by a chat request. *)
Definition request_history (req : Request) : option (list Content) :=
  match req with
  | ChatSendMessage chat _ => Some (chat_history chat)
  | GenerateContent _ _ => None
  end.

(** A character that no fence contains: matches of the fence pattern do
    not extend across it. *)
Definition barrier (c : ascii) : Prop :=
  is_backtick c = false /\ Ascii.eqb c "j" = false /\
  Ascii.eqb c "s" = false /\ Ascii.eqb c "o" = false /\
  Ascii.eqb c "n" = false.

(** The response text [t] wrapped in a code fence. *)
Definition fenced (t : string) : string :=
  "```json" ++ nl ++ t ++ nl ++ "```".

(** Whether a text starts with one, two backticks. *)
Definition starts_with_tick (u : string) : bool :=
  match u with
  | String a _ => is_backtick a
  | EmptyString => false
  end.

Definition starts_with_two_ticks (u : string) : bool :=
  match u with
  | String a rest => is_backtick a && starts_with_tick rest
  | EmptyString => false
  end.

(** A response whose JSON strings contain a fence. *)
Definition markdown_quiz : string :=
  String.concat "" [
    "{"; dq; "questions"; dq; ":[{"; dq; "question"; dq; ":"; dq;
    "Which marker opens a code block in Markdown?"; dq; ","; dq; "options";
    dq; ":["; dq; "```"; dq; ","; dq; "~~~"; dq; "],"; dq; "answer"; dq; ":";
    dq; "```"; dq; "}]}"
  ].

Definition markdown_quiz_parsed (marker : string) : JSON :=
  JRecord
    [("questions",
      JArray
        [JRecord
           [("question",
             JText "Which marker opens a code block in Markdown?");
            ("options", JArray [JText marker; JText "~~~"]);
            ("answer", JText marker)]])].

(** The response of the quiz scenario. *)
Definition photosynthesis_quiz : string :=
  String.concat "" [
    "{"; dq; "questions"; dq; ":[{"; dq; "question"; dq; ":"; dq;
    "What pigment absorbs light?"; dq; ","; dq; "options"; dq; ":["; dq;
    "Chlorophyll"; dq; ","; dq; "Keratin"; dq; ","; dq; "Melanin"; dq; "],";
    dq; "answer"; dq; ":"; dq; "Chlorophyll"; dq; "}]}"
  ].

(** ** Requests of an attempt *)

(** The least number of requests of an attempt of [sendMessage]: none
    when [startChat] rejects the history. *)
Definition least_chat_requests (history : list ChatMessage) : nat :=
  match validateChatHistory (map to_content (apiHistory history)) with
  | None => 1
  | Some _ => 0
  end.

(** ** Measures of a trace *)

(** The time spent waiting: the sum of the delays awaited. *)
Definition total_delay (tr : list Event) : Z :=
  fold_right Z.add 0 (delays tr).

(** The delay awaited after the failed attempt number [k]. *)
Definition backoff (initialDelay : Z) (k : nat) : Z :=
  initialDelay * 2 ^ Z.of_nat k.

(** An outcome on which [withRetry] stops: a result, or a failure that is
    not retryable. *)
Definition decisive {T} (r : Outcome T) : Prop :=
  match r with
  | Return _ => True
  | Throw e => retryable e = false
  end.

(** A property of the value thrown, if the outcome is a failure. *)
Definition thrown_satisfies {A} (P : JsVal -> Prop) (r : Outcome A) : Prop :=
  match r with
  | Return _ => True
  | Throw v => P v
  end.

(** The failures that [sendMessage] constructs once a key is present. *)
Definition chat_failure_message (msg : string) : Prop :=
  msg = QUOTA_MESSAGE \/ msg = NOT_FOUND_MESSAGE \/
  exists text, msg = GENERIC_CHAT_PREFIX ++ text.

(** A flashcard response. *)
Definition osmosis_cards : string :=
  String.concat "" [
    "{"; dq; "flashcards"; dq; ":[{"; dq; "front"; dq; ":"; dq; "Osmosis"; dq;
    ","; dq; "back"; dq; ":"; dq; "Movement of water across a membrane"; dq;
    "}]}"
  ].

(** A service that answers the first candidate with text that is not JSON
    and the others with [text]. *)
Definition chatty_first_service (text : string) (req : Request) (calls : nat)
  : Outcome GenerateContentResult * nat :=
  (Return {| response_text :=
               Return (if String.eqb (model_name (request_model req))
                            "gemini-flash-latest"
                       then "Sure! Here are your cards."
                       else text) |},
   S calls).

(** A service that does not know the first candidate, whose answer for the
    second is blocked, and that answers the others with [text]. *)
Definition reluctant_service (text : string) (req : Request) (calls : nat)
  : Outcome GenerateContentResult * nat :=
  let m := model_name (request_model req) in
  (if String.eqb m "gemini-flash-latest" then Throw model_missing
   else Return {| response_text :=
                    if String.eqb m "gemini-2.0-flash"
                    then Throw blocked_answer
                    else Return text |},
   S calls).

(** * The components that call the service *)

(** One handler runs at a time, and the state updates of a handler are
    applied in the order in which it makes them; a handler is therefore a
    function from the state of the component to its next state.  The state
    holds values of the types that the components declare.  The code does
    not check what it receives from the service against these types: where
    it stores a value that is not of the declared type, the model says so
    and gives the value ([StoredUnchecked]). *)

(** ** Browser values *)

(** A file chosen by the user: its name, its media type, and the data URL
    that [FileReader.readAsDataURL] yields for it. *)
Record File : Type := mkFile {
  file_name : string;
  file_type : string;
  file_dataURL : string
}.

(** [{ file, preview }]. *)
Record AttachedFile : Type := mkAttachedFile {
  file : File;
  preview : string
}.

(** [xs[i]] for a number [i] that is an integer: [None] is [undefined]. *)
Definition at_index {A : Type} (xs : list A) (i : Z) : option A :=
  if i <? 0 then None else nth_error xs (Z.to_nat i).

Definition is_comma (c : ascii) : bool := Ascii.eqb c ",".

(** The text before the first comma. *)
Fixpoint until_comma (s : string) : string :=
  match s with
  | EmptyString => EmptyString
  | String c rest =>
      if is_comma c then EmptyString else String c (until_comma rest)
  end.

(** The text after the first comma, if there is one. *)
Fixpoint after_comma (s : string) : option string :=
  match s with
  | EmptyString => None
  | String c rest => if is_comma c then Some rest else after_comma rest
  end.

(** [s.split(',')[1]]: [None] is [undefined]. *)
Definition second_segment (s : string) : option string :=
  option_map until_comma (after_comma s).

(** The attachment built from a data URL:
    [{ inlineData: { data: url.split(',')[1], mimeType: file.type },
       name: file.name }].
    [None] when the URL has no comma: [data] would be [undefined], which
    the type [FileData] excludes. *)
Definition toFileData (f : File) (url : string) : option FileData :=
  match second_segment url with
  | Some base64Data =>
      Some {| inlineData := {| data := base64Data; mimeType := file_type f |};
              name := Some (file_name f) |}
  | None => None
  end.

(** [topic || "the uploaded content"]. *)
Definition topic_or_placeholder (topic : string) : string :=
  or_string (Some topic) "the uploaded content".

(** [!topic.trim()]. *)
Definition blank (text : string) : bool := falsy_string (trim text).

(** ** Values of the service read at the declared types *)

Definition as_string (v : JSON) : option JsString :=
  match v with
  | JString s => Some s
  | _ => None
  end.

Fixpoint lookup_member (k : string) (ms : list (JsString * JSON))
  : option JSON :=
  match ms with
  | [] => None
  | (k', v) :: ms' =>
      if units_eqb (units k) k' then Some v else lookup_member k ms'
  end.

(** [v.k] for the names [k] that the components read ([questions],
    [question], [options], [answer], [flashcards], [front], [back]), on a
    value [v] other than [null]: the member of an object, and [undefined]
    ([None]) when the object has no such member or [v] is an array, a
    string, a number or a boolean, none of which has a property of these
    names. *)
Definition member (k : string) (v : JSON) : option JSON :=
  match v with
  | JObject ms => lookup_member k ms
  | _ => None
  end.

(** All the elements read by [f], or nothing. *)
Fixpoint read_all {A : Type} (f : JSON -> option A) (vs : list JSON)
  : option (list A) :=
  match vs with
  | [] => Some []
  | v :: vs' =>
      match f v, read_all f vs' with
      | Some a, Some rest => Some (a :: rest)
      | _, _ => None
      end
  end.

Definition as_array {A : Type} (f : JSON -> option A) (v : JSON)
  : option (list A) :=
  match v with
  | JArray items => read_all f items
  | _ => None
  end.

(** What reading a member of the parsed response gives. *)
Inductive Decoded (A : Type) : Type :=
| Typed (a : A)             (* a value of the declared type *)
| NullAccess                (* the response is [null]: the access throws *)
| Untyped (v : option JSON) (* the member as it is, [None] being
                               [undefined]: not of the declared type *).
Arguments Typed {A} a.
Arguments NullAccess {A}.
Arguments Untyped {A} v.

Definition decode_member {A : Type} (k : string) (f : JSON -> option A)
  (data : JSON) : Decoded A :=
  match data with
  | JNull => NullAccess
  | _ =>
      match member k data with
      | Some v =>
          match f v with
          | Some a => Typed a
          | None => Untyped (Some v)
          end
      | None => Untyped None
      end
  end.

(** What a run of [handleGenerate] leaves, [State] being the state of the
    component. *)
Inductive Generated (State : Type) : Type :=
| Done (st' : State)
    (* the handler has ended in [st'] *)
| StoredUnchecked (v : option JSON) (st' : State)
    (* the handler has stored [v], the member read from the response, as
       the list of the component, and [v] is not such a list; the other
       fields are those of [st'] *)
| UntypedAttachment
    (* the data URL of the attachment has no comma, so that its [data] is
       [undefined]: not a [FileData]; [FileReader.readAsDataURL] yields no
       such URL *).
Arguments Done {State} st'.
Arguments StoredUnchecked {State} v st'.
Arguments UntypedAttachment {State}.

(** ** [QuizGenerator] *)

Module QuizGenerator.

Record Question : Type := mkQuestion {
  question : JsString;
  options : list JsString;
  answer : JsString
}.

Record State : Type := mkState {
  topic : string;
  difficulty : string;
  questionCount : Z;
  isLoading : bool;
  questions : list Question;
  currentQuestionIndex : Z;
  score : Z;
  selectedOption : option JsString;
  isFinished : bool;
  attachedFile : option AttachedFile
}.

(** The values given to [useState]. *)
Definition initial : State :=
  {| topic := ""; difficulty := "medium"; questionCount := 5;
     isLoading := false; questions := []; currentQuestionIndex := 0;
     score := 0; selectedOption := None; isFinished := false;
     attachedFile := None |}.

Definition setTopic (t : string) (st : State) : State :=
  {| topic := t; difficulty := difficulty st;
     questionCount := questionCount st; isLoading := isLoading st;
     questions := questions st;
     currentQuestionIndex := currentQuestionIndex st; score := score st;
     selectedOption := selectedOption st; isFinished := isFinished st;
     attachedFile := attachedFile st |}.

Definition setIsLoading (b : bool) (st : State) : State :=
  {| topic := topic st; difficulty := difficulty st;
     questionCount := questionCount st; isLoading := b;
     questions := questions st;
     currentQuestionIndex := currentQuestionIndex st; score := score st;
     selectedOption := selectedOption st; isFinished := isFinished st;
     attachedFile := attachedFile st |}.

Definition setQuestions (qs : list Question) (st : State) : State :=
  {| topic := topic st; difficulty := difficulty st;
     questionCount := questionCount st; isLoading := isLoading st;
     questions := qs;
     currentQuestionIndex := currentQuestionIndex st; score := score st;
     selectedOption := selectedOption st; isFinished := isFinished st;
     attachedFile := attachedFile st |}.

Definition setCurrentQuestionIndex (i : Z) (st : State) : State :=
  {| topic := topic st; difficulty := difficulty st;
     questionCount := questionCount st; isLoading := isLoading st;
     questions := questions st;
     currentQuestionIndex := i; score := score st;
     selectedOption := selectedOption st; isFinished := isFinished st;
     attachedFile := attachedFile st |}.

Definition setScore (n : Z) (st : State) : State :=
  {| topic := topic st; difficulty := difficulty st;
     questionCount := questionCount st; isLoading := isLoading st;
     questions := questions st;
     currentQuestionIndex := currentQuestionIndex st; score := n;
     selectedOption := selectedOption st; isFinished := isFinished st;
     attachedFile := attachedFile st |}.

Definition setSelectedOption (o : option JsString) (st : State) : State :=
  {| topic := topic st; difficulty := difficulty st;
     questionCount := questionCount st; isLoading := isLoading st;
     questions := questions st;
     currentQuestionIndex := currentQuestionIndex st; score := score st;
     selectedOption := o; isFinished := isFinished st;
     attachedFile := attachedFile st |}.

Definition setIsFinished (b : bool) (st : State) : State :=
  {| topic := topic st; difficulty := difficulty st;
     questionCount := questionCount st; isLoading := isLoading st;
     questions := questions st;
     currentQuestionIndex := currentQuestionIndex st; score := score st;
     selectedOption := selectedOption st; isFinished := b;
     attachedFile := attachedFile st |}.

Definition setAttachedFile (a : option AttachedFile) (st : State) : State :=
  {| topic := topic st; difficulty := difficulty st;
     questionCount := questionCount st; isLoading := isLoading st;
     questions := questions st;
     currentQuestionIndex := currentQuestionIndex st; score := score st;
     selectedOption := selectedOption st; isFinished := isFinished st;
     attachedFile := a |}.

(** [handleFileUpload]: the first file chosen, if any, is read and kept
    with its data URL. *)
Definition handleFileUpload (chosen : list File) (st : State) : State :=
  match chosen with
  | f :: _ => setAttachedFile (Some {| file := f; preview := file_dataURL f |}) st
  | [] => st
  end.

Definition removeFile (st : State) : State := setAttachedFile None st.

(** [handleOptionSelect].  [None]: [questions[currentQuestionIndex]] is
    [undefined] and reading its [answer] throws. *)
Definition handleOptionSelect (choice : JsString) (st : State)
  : option State :=
  match selectedOption st with
  | Some _ => Some st
  | None =>
      let st1 := setSelectedOption (Some choice) st in
      match at_index (questions st) (currentQuestionIndex st) with
      | Some q =>
          if units_eqb choice (answer q)
          then Some (setScore (score st + 1) st1)
          else Some st1
      | None => None
      end
  end.

Definition handleNext (st : State) : State :=
  if currentQuestionIndex st <? Z.of_nat (List.length (questions st)) - 1
  then setSelectedOption None
         (setCurrentQuestionIndex (currentQuestionIndex st + 1) st)
  else setIsFinished true st.

(** The button of the results panel: [setQuestions([]);
    setAttachedFile(null)]. *)
Definition tryAnotherTopic (st : State) : State :=
  setAttachedFile None (setQuestions [] st).

(** A value of type [Question]. *)
Definition as_question (v : JSON) : option Question :=
  match member "question" v, member "options" v, member "answer" v with
  | Some q, Some os, Some a =>
      match as_string q, as_array as_string os, as_string a with
      | Some q', Some os', Some a' =>
          Some {| question := q'; options := os'; answer := a' |}
      | _, _, _ => None
      end
  | _, _, _ => None
  end.

(** The [fileData] argument: [Some None] without attachment, [None] when
    the attachment cannot be given the type [FileData]. *)
Definition fileData_of (a : option AttachedFile) : option (option FileData) :=
  match a with
  | Some att => option_map Some (toFileData (file att) (preview att))
  | None => Some None
  end.

(** The state updates made before the [try] block. *)
Definition reset (st : State) : State :=
  setIsFinished false
    (setScore 0 (setCurrentQuestionIndex 0 (setQuestions []
       (setIsLoading true st)))).

Section Handlers.

Context {St : Type}.
Variable service : Request -> St -> Outcome GenerateContentResult * St.
Variable syntaxErrorMessage : string -> string.
Variable env : Env.

(** The [TypeError] thrown by reading a member of [null]. *)
Variable nullAccessError : JsVal.

(** [handleGenerate].  [setQuestions(data.questions)] stores whatever
    the member is. *)
Definition handleGenerate (st : State) : M (Net St) (Generated State) :=
  if blank (topic st) &&
     match attachedFile st with Some _ => false | None => true end
  then ret (Done st)
  else if isLoading st then ret (Done st)
  else
    let st1 := reset st in
    match fileData_of (attachedFile st) with
    | None => ret UntypedAttachment
    | Some fileData =>
        try_catch
          (data <- generateQuiz service syntaxErrorMessage env
                     (topic_or_placeholder (topic st)) fileData
                     (difficulty st) (questionCount st) ;;
           match decode_member "questions" (as_array as_question) data with
           | Typed qs => ret (Done (setIsLoading false (setQuestions qs st1)))
           | NullAccess => throw nullAccessError
           | Untyped v => ret (StoredUnchecked v (setIsLoading false st1))
           end)
          (fun error =>
             emit (LogError "Failed to generate quiz" error) ;;;
             ret (Done (setIsLoading false st1)))
    end.

End Handlers.

(** The state is consistent: when there are questions the current index
    points at one of them, and the score counts at most the questions
    passed and the one being answered. *)
Definition consistent (st : State) : Prop :=
  (questions st <> [] ->
   0 <= currentQuestionIndex st < Z.of_nat (List.length (questions st))) /\
  0 <= score st <=
    currentQuestionIndex st +
    match selectedOption st with Some _ => 1 | None => 0 end.

(** Whether the first option clicked for a question is its answer. *)
Definition first_click_correct (q : Question) (clicks : list JsString)
  : bool :=
  match clicks with
  | o :: _ => units_eqb o (answer q)
  | [] => false
  end.

(** The user clicks the options [clicks] one after the other. *)
Fixpoint click_options (clicks : list JsString) (st : State)
  : option State :=
  match clicks with
  | [] => Some st
  | o :: clicks' =>
      match handleOptionSelect o st with
      | Some st' => click_options clicks' st'
      | None => None
      end
  end.

(** The user goes through the quiz: for each question, some clicks on
    options, then the button to go on. *)
Fixpoint play (rounds : list (list JsString)) (st : State)
  : option State :=
  match rounds with
  | [] => Some st
  | clicks :: rounds' =>
      match click_options clicks st with
      | Some st' => play rounds' (handleNext st')
      | None => None
      end
  end.

(** The number of questions answered correctly at the first click. *)
Fixpoint correct_answers (qs : list Question)
  (rounds : list (list JsString)) : Z :=
  match qs, rounds with
  | q :: qs', clicks :: rounds' =>
      (if first_click_correct q clicks then 1 else 0) +
      correct_answers qs' rounds'
  | _, _ => 0
  end.

End QuizGenerator.

(** Sample questions. *)
Definition pigment_question : QuizGenerator.Question :=
  {| QuizGenerator.question := units "What pigment absorbs light?";
     QuizGenerator.options :=
       [units "Chlorophyll"; units "Keratin"; units "Melanin"];
     QuizGenerator.answer := units "Chlorophyll" |}.

Definition gas_question : QuizGenerator.Question :=
  {| QuizGenerator.question := units "Which gas is released?";
     QuizGenerator.options := [units "Oxygen"; units "Nitrogen"];
     QuizGenerator.answer := units "Oxygen" |}.

(** A quiz that has been answered to the end. *)
Definition finished_quiz : QuizGenerator.State :=
  {| QuizGenerator.topic := "Photosynthesis";
     QuizGenerator.difficulty := "easy";
     QuizGenerator.questionCount := 1;
     QuizGenerator.isLoading := false;
     QuizGenerator.questions := [pigment_question];
     QuizGenerator.currentQuestionIndex := 0;
     QuizGenerator.score := 0;
     QuizGenerator.selectedOption := Some (units "Keratin");
     QuizGenerator.isFinished := true;
     QuizGenerator.attachedFile := None |}.

Definition null_access : JsVal :=
  Error "Cannot read properties of null (reading 'questions')".

(** ** [Flashcards] *)

Module Flashcards.

Record Flashcard : Type := mkFlashcard {
  front : JsString;
  back : JsString
}.

Record State : Type := mkState {
  topic : string;
  cardCount : Z;
  isLoading : bool;
  cards : list Flashcard;
  currentCardIndex : Z;
  isFlipped : bool;
  attachedFile : option AttachedFile
}.

Definition initial : State :=
  {| topic := ""; cardCount := 5; isLoading := false; cards := [];
     currentCardIndex := 0; isFlipped := false; attachedFile := None |}.

Definition setTopic (t : string) (st : State) : State :=
  {| topic := t; cardCount := cardCount st; isLoading := isLoading st;
     cards := cards st; currentCardIndex := currentCardIndex st;
     isFlipped := isFlipped st; attachedFile := attachedFile st |}.

Definition setIsLoading (b : bool) (st : State) : State :=
  {| topic := topic st; cardCount := cardCount st; isLoading := b;
     cards := cards st; currentCardIndex := currentCardIndex st;
     isFlipped := isFlipped st; attachedFile := attachedFile st |}.

Definition setCards (cs : list Flashcard) (st : State) : State :=
  {| topic := topic st; cardCount := cardCount st; isLoading := isLoading st;
     cards := cs; currentCardIndex := currentCardIndex st;
     isFlipped := isFlipped st; attachedFile := attachedFile st |}.

Definition setCurrentCardIndex (i : Z) (st : State) : State :=
  {| topic := topic st; cardCount := cardCount st; isLoading := isLoading st;
     cards := cards st; currentCardIndex := i;
     isFlipped := isFlipped st; attachedFile := attachedFile st |}.

Definition setIsFlipped (b : bool) (st : State) : State :=
  {| topic := topic st; cardCount := cardCount st; isLoading := isLoading st;
     cards := cards st; currentCardIndex := currentCardIndex st;
     isFlipped := b; attachedFile := attachedFile st |}.

Definition setAttachedFile (a : option AttachedFile) (st : State) : State :=
  {| topic := topic st; cardCount := cardCount st; isLoading := isLoading st;
     cards := cards st; currentCardIndex := currentCardIndex st;
     isFlipped := isFlipped st; attachedFile := a |}.

(** [handleFileUpload]: the first file chosen, if any, is read and kept
    with its data URL. *)
Definition handleFileUpload (chosen : list File) (st : State) : State :=
  match chosen with
  | f :: _ => setAttachedFile (Some {| file := f; preview := file_dataURL f |}) st
  | [] => st
  end.

Definition removeFile (st : State) : State := setAttachedFile None st.

Definition nextCard (st : State) : State :=
  if currentCardIndex st <? Z.of_nat (List.length (cards st)) - 1
  then setIsFlipped false (setCurrentCardIndex (currentCardIndex st + 1) st)
  else st.

Definition prevCard (st : State) : State :=
  if 0 <? currentCardIndex st
  then setIsFlipped false (setCurrentCardIndex (currentCardIndex st - 1) st)
  else st.

(** The click on the card: [setIsFlipped(!isFlipped)]. *)
Definition flip (st : State) : State := setIsFlipped (negb (isFlipped st)) st.

(** The button under the deck: [setCards([])]. *)
Definition clear (st : State) : State := setCards [] st.

(** A value of type [Flashcard]. *)
Definition as_flashcard (v : JSON) : option Flashcard :=
  match member "front" v, member "back" v with
  | Some f, Some b =>
      match as_string f, as_string b with
      | Some f', Some b' => Some {| front := f'; back := b' |}
      | _, _ => None
      end
  | _, _ => None
  end.

(** The state updates made before the [try] block. *)
Definition reset (st : State) : State :=
  setIsFlipped false (setCurrentCardIndex 0 (setCards []
    (setIsLoading true st))).

Section Handlers.

Context {St : Type}.
Variable service : Request -> St -> Outcome GenerateContentResult * St.
Variable syntaxErrorMessage : string -> string.
Variable env : Env.
Variable nullAccessError : JsVal.

(** [handleGenerate].  [setCards(data.flashcards)] stores whatever the
    member is. *)
Definition handleGenerate (st : State) : M (Net St) (Generated State) :=
  if blank (topic st) &&
     match attachedFile st with Some _ => false | None => true end
  then ret (Done st)
  else if isLoading st then ret (Done st)
  else
    let st1 := reset st in
    match QuizGenerator.fileData_of (attachedFile st) with
    | None => ret UntypedAttachment
    | Some fileData =>
        try_catch
          (data <- generateFlashcards service syntaxErrorMessage env
                     (topic_or_placeholder (topic st)) fileData
                     (cardCount st) ;;
           match decode_member "flashcards" (as_array as_flashcard) data with
           | Typed cs => ret (Done (setIsLoading false (setCards cs st1)))
           | NullAccess => throw nullAccessError
           | Untyped v => ret (StoredUnchecked v (setIsLoading false st1))
           end)
          (fun error =>
             emit (LogError "Failed to generate flashcards" error) ;;;
             ret (Done (setIsLoading false st1)))
    end.

End Handlers.

(** While there are cards the current index points at one of them. *)
Definition in_range (st : State) : Prop :=
  cards st <> [] ->
  0 <= currentCardIndex st < Z.of_nat (List.length (cards st)).

End Flashcards.

(** ** [ChatInterface] *)

Module ChatInterface.

Record State : Type := mkState {
  messages : list ChatMessage;
  input : string;
  isLoading : bool;
  attachedFiles : list AttachedFile
}.

Definition welcome : ChatMessage :=
  {| role := role_model;
     content := "Hi! I'm your AI Study Buddy. Upload your syllabus, notes, or just ask me a question to get started!";
     files := None |}.

Definition initial : State :=
  {| messages := [welcome]; input := ""; isLoading := false;
     attachedFiles := [] |}.

(** [xs.filter((_, i) => keep(i))], the positions counted from [i]. *)
Fixpoint filter_by_index {A : Type} (keep : Z -> bool) (i : Z) (xs : list A)
  : list A :=
  match xs with
  | [] => []
  | x :: xs' =>
      if keep i then x :: filter_by_index keep (i + 1) xs'
      else filter_by_index keep (i + 1) xs'
  end.

Definition removeFile (index : Z) (st : State) : State :=
  {| messages := messages st; input := input st; isLoading := isLoading st;
     attachedFiles :=
       filter_by_index (fun i => negb (i =? index)) 0 (attachedFiles st) |}.

(** [formatFileData]: every attached file is read again and turned into
    an attachment; [None] when one of them cannot be given the type
    [FileData]. *)
Fixpoint formatFileData (attached : list AttachedFile)
  : option (list FileData) :=
  match attached with
  | [] => Some []
  | a :: attached' =>
      match toFileData (file a) (file_dataURL (file a)),
            formatFileData attached' with
      | Some fd, Some rest => Some (fd :: rest)
      | _, _ => None
      end
  end.

Definition userMessage_of (text : string) : ChatMessage :=
  {| role := role_user; content := text; files := None |}.

Definition modelMessage_of (text : string) : ChatMessage :=
  {| role := role_model; content := text; files := None |}.

Section Handlers.

Context {St : Type}.
Variable service : Request -> St -> Outcome GenerateContentResult * St.
Variable env : Env.

(** The [TypeError] thrown by reading [message] of [undefined]. *)
Variable undefinedAccessError : JsVal.

(** [handleSend].  [None]: an attachment is outside the declared type. *)
Definition handleSend (st : State) : M (Net St) (option State) :=
  if (blank (input st) && (Z.of_nat (List.length (attachedFiles st)) =? 0))
     || isLoading st
  then ret (Some st)
  else
    let userMessage := input st in
    let newUserMsg := userMessage_of userMessage in
    let sent := (messages st ++ [newUserMsg])%list in
    match formatFileData (attachedFiles st) with
    | None => ret None
    | Some fileData =>
        try_catch
          (response <- sendMessage service env (messages st) userMessage
                         fileData ;;
           ret (Some {| messages := (sent ++ [modelMessage_of response])%list;
                        input := ""; isLoading := false;
                        attachedFiles := [] |}))
          (fun error =>
             match error with
             | JsError e =>
                 ret (Some {| messages :=
                                (sent ++
                                 [modelMessage_of
                                    ("Error: " ++
                                     or_string (message e)
                                       "Failed to get response from AI.")])%list;
                              input := ""; isLoading := false;
                              attachedFiles := [] |})
             | JsUndefined => throw undefinedAccessError
             end)
    end.

End Handlers.

Definition role_eqb (a b : Role) : bool :=
  match a, b with
  | role_user, role_user => true
  | role_model, role_model => true
  | _, _ => false
  end.

Definition other_role (r : Role) : Role :=
  match r with
  | role_user => role_model
  | role_model => role_user
  end.

(** The turns alternate, starting with [first] and ending with the other
    role. *)
Fixpoint alternates {A : Type} (role_of : A -> Role) (first : Role)
  (turns : list A) : bool :=
  match turns with
  | [] => true
  | a :: b :: turns' =>
      role_eqb (role_of a) first && role_eqb (role_of b) (other_role first) &&
      alternates role_of first turns'
  | _ => false
  end.

(** The transcript is the greeting of the model followed by exchanges:
    a message of the user, then one of the model. *)
Definition well_formed (st : State) : Prop :=
  match messages st with
  | first :: exchanges =>
      role first = role_model /\ alternates role role_user exchanges = true
  | [] => False
  end.

End ChatInterface.

(** Whether a text has no comma. *)
Fixpoint comma_free (s : string) : bool :=
  match s with
  | EmptyString => true
  | String c rest => negb (is_comma c) && comma_free rest
  end.

Definition sample_deck : Flashcards.State :=
  {| Flashcards.topic := "Osmosis"; Flashcards.cardCount := 2;
     Flashcards.isLoading := false;
     Flashcards.cards :=
       [ {| Flashcards.front := units "Osmosis";
            Flashcards.back := units "Movement of water across a membrane" |};
         {| Flashcards.front := units "Diffusion";
            Flashcards.back := units "Spreading of particles" |} ];
     Flashcards.currentCardIndex := 0; Flashcards.isFlipped := true;
     Flashcards.attachedFile := None |}.

Definition notes_pdf : File :=
  {| file_name := "notes.pdf"; file_type := "application/pdf";
     file_dataURL := "data:application/pdf;base64,JVBERi0xLjQK" |}.

Definition diagram_png : File :=
  {| file_name := "diagram.png"; file_type := "image/png";
     file_dataURL := "data:image/png;base64,iVBORw0KGgo=" |}.

Definition attach (f : File) : AttachedFile :=
  {| file := f; preview := file_dataURL f |}.

(** ** What a request carries *)

Definition request_key (req : Request) : string :=
  apiKey (model_client (request_model req)).

Definition request_instruction (req : Request) : option string :=
  systemInstruction (request_model req).

Definition request_parts (req : Request) : list PromptPart :=
  match req with
  | ChatSendMessage _ ps => ps
  | GenerateContent _ ps => ps
  end.

(** The attachments among the parts of a request, in order. *)
Fixpoint inline_parts (ps : list PromptPart) : list InlineData :=
  match ps with
  | [] => []
  | PromptObject (InlineDataPart d) :: ps' => d :: inline_parts ps'
  | _ :: ps' => inline_parts ps'
  end.

(** * Properties *)

(** ** [withRetry] *)

(** The counter [remaining] of [withRetry_loop] against the test
    [i < maxRetries] of the source. *)
Remark remaining_iterations (maxRetries i : Z) :
  (Z.to_nat (maxRetries - i) = 0%nat <-> ~ i < maxRetries) /\
  (forall r, Z.to_nat (maxRetries - i) = S r ->
             i < maxRetries /\ r = Z.to_nat (maxRetries - (i + 1))).
Proof. split; [|intros r Hr]; lia. Qed.

Example retryable_samples :
  retryable rate_limited = true /\ retryable unavailable = true /\
  retryable network_down = true /\ retryable quota_exhausted = true /\
  retryable bad_request = false /\ retryable model_missing = false /\
  retryable JsUndefined = false.
Proof. repeat split. Qed.

Section WithRetryFacts.

Context {W T : Type}.
Variable fn : Op W T.
Variables maxRetries initialDelay : Z.

Lemma world_after_S (k : nat) (w : W) :
  world_after fn (S k) w = snd (fn (world_after fn k w)).
Proof.
  revert w; induction k as [|k IH]; intro w; [reflexivity|].
  change (world_after fn (S (S k)) w)
    with (world_after fn (S k) (snd (fn w))).
  rewrite IH; reflexivity.
Qed.

Lemma invoke_run (s : Sys W) :
  invoke fn s =
  (fst (fn (world s)),
   {| world := snd (fn (world s)); trace := trace s ++ [Invoke] |}).
Proof. unfold invoke; destruct (fn (world s)); reflexivity. Qed.

(** The loop started at attempt [k0] of a run whose attempts
    [k0 .. k0 + n - 1] all fail retryably. *)
Lemma withRetry_loop_retryable (w0 : W) :
  forall (n k0 : nat) (lastError : JsVal) (s : Sys W),
    world s = world_after fn k0 w0 ->
    (forall k, (k0 <= k < k0 + n)%nat -> fails_retryably fn k w0) ->
    withRetry_loop fn maxRetries initialDelay n (Z.of_nat k0) lastError s =
    (Throw (match n with
            | O => lastError
            | S n' => failure_at fn (k0 + n') w0
            end),
     {| world := world_after fn (k0 + n) w0;
        trace := trace s ++
                 flat_map (failed_attempt_events fn w0 maxRetries initialDelay)
                          (seq k0 n) |}).
Proof.
  induction n as [|n IH]; intros k0 lastError s Hw Hfail.
  - cbn. rewrite Nat.add_0_r, app_nil_r, <- Hw. destruct s; reflexivity.
  - destruct (Hfail k0 ltac:(lia)) as [e [Hout Hre]].
    assert (Hfa : failure_at fn k0 w0 = e)
      by (unfold failure_at; rewrite Hout; reflexivity).
    unfold outcome_at in Hout. rewrite <- Hw in Hout.
    cbn [withRetry_loop]. unfold try_catch at 1.
    rewrite invoke_run, Hout, Hre.
    unfold bind at 1, emit at 1. unfold bind at 1, emit at 1.
    unfold log_event. cbn [world trace].
    replace (Z.of_nat k0 + 1) with (Z.of_nat (S k0)) by lia.
    rewrite IH.
    + f_equal.
      * destruct n as [|n']; [|do 2 f_equal; lia].
        rewrite Nat.add_0_r; congruence.
      * cbn [world trace seq flat_map]. f_equal; [f_equal; lia|].
        unfold failed_attempt_events at 2. rewrite Hfa.
        rewrite <- !app_assoc. cbn [app].
        replace (Z.of_nat k0 + 1) with (Z.of_nat (S k0)) by lia.
        reflexivity.
    + cbn [world]. rewrite world_after_S, Hw. reflexivity.
    + intros k Hk. apply Hfail. lia.
Qed.

End WithRetryFacts.

Lemma status_is_true (st : option Z) (n : Z) :
  status_is st n = true <-> st = Some n.
Proof.
  destruct st as [x|]; cbn; [|split; discriminate].
  rewrite Z.eqb_eq. split; congruence.
Qed.

Lemma status_is_false (st : option Z) (n : Z) :
  status_is st n = false <-> st <> Some n.
Proof.
  rewrite <- status_is_true. destruct (status_is st n); split; congruence.
Qed.

(** The retry predicate, spelled out. *)
Lemma retryable_iff (error : JsVal) :
  retryable error = true <->
  error_status error = Some 429 \/ error_status error = Some 503 \/
  message_includes error "quota" = true \/
  message_includes error "fetch" = true.
Proof.
  unfold retryable. rewrite !orb_true_iff, !status_is_true. tauto.
Qed.

Lemma invocations_app (a b : list Event) :
  invocations (a ++ b) = (invocations a + invocations b)%nat.
Proof. unfold invocations. rewrite filter_app, length_app. reflexivity. Qed.

Lemma delays_app (a b : list Event) : delays (a ++ b) = (delays a ++ delays b)%list.
Proof.
  induction a as [|ev a IH]; [reflexivity|].
  cbn. destruct (sleep_of ev); cbn; rewrite IH; reflexivity.
Qed.

Lemma failed_attempts_invocations {W T} (fn : Op W T) (w : W) (m d : Z) :
  forall n k0,
    invocations (flat_map (failed_attempt_events fn w m d) (seq k0 n)) = n.
Proof.
  induction n as [|n IH]; intro k0; [reflexivity|].
  cbn [seq flat_map]. rewrite invocations_app, IH. reflexivity.
Qed.

Lemma failed_attempts_delays {W T} (fn : Op W T) (w : W) (m d : Z) :
  forall n k0,
    delays (flat_map (failed_attempt_events fn w m d) (seq k0 n)) =
    map (fun k => d * 2 ^ Z.of_nat k) (seq k0 n).
Proof.
  induction n as [|n IH]; intro k0; [reflexivity|].
  cbn [seq flat_map map]. rewrite delays_app, IH. reflexivity.
Qed.

(** C1.  When every attempt of the run fails with a retryable failure,
    [withRetry] invokes the operation exactly [maxRetries] times, awaits
    [initialDelay * 2 ^ i] after the failed attempt number [i] (from 0),
    and then throws the failure of the last attempt unchanged.  The trace
    is exactly the [maxRetries] rounds of invocation, warning and wait; the
    defaults are 3 attempts and 1000 time units. *)
Theorem withRetry_retryable_exhausts :
  forall (W T : Type) (fn : Op W T) (maxRetries initialDelay : Z) (s : Sys W),
    1 <= maxRetries ->
    (forall k, (k < Z.to_nat maxRetries)%nat ->
               fails_retryably fn k (world s)) ->
    let n := Z.to_nat maxRetries in
    let rounds :=
      flat_map (failed_attempt_events fn (world s) maxRetries initialDelay)
               (seq 0 n) in
    withRetry fn maxRetries initialDelay s =
      (Throw (failure_at fn (n - 1) (world s)),
       {| world := world_after fn n (world s);
          trace := trace s ++ rounds |}) /\
    Z.of_nat (invocations rounds) = maxRetries /\
    delays rounds = map (fun i => initialDelay * 2 ^ Z.of_nat i) (seq 0 n) /\
    withRetry_default fn = withRetry fn 3 1000.
Proof.
  intros W T fn maxRetries initialDelay s Hpos Hfail n rounds.
  split; [|split; [|split]].
  - unfold withRetry. fold n.
    pose proof (withRetry_loop_retryable fn maxRetries initialDelay (world s)
                  n 0 JsUndefined s eq_refl) as Hloop.
    cbn [Z.of_nat] in Hloop. rewrite Hloop.
    + subst rounds. destruct n as [|n'] eqn:En; [lia|].
      cbn [Nat.add]. replace (S n' - 1)%nat with n' by lia. reflexivity.
    + intros k Hk. apply Hfail. fold n. lia.
  - subst rounds. rewrite failed_attempts_invocations. subst n. lia.
  - apply failed_attempts_delays.
  - reflexivity.
Qed.

(** C5.  When the first attempt fails with a failure that is not
    retryable, [withRetry] throws that failure at once: the operation has
    been invoked once and nothing has been awaited. *)
Theorem withRetry_non_retryable_immediate :
  forall (W T : Type) (fn : Op W T) (maxRetries initialDelay : Z) (s : Sys W)
         (error : JsVal),
    1 <= maxRetries ->
    fst (fn (world s)) = Throw error ->
    error_status error <> Some 429 ->
    error_status error <> Some 503 ->
    message_includes error "quota" = false ->
    message_includes error "fetch" = false ->
    withRetry fn maxRetries initialDelay s =
      (Throw error,
       {| world := snd (fn (world s)); trace := trace s ++ [Invoke] |}).
Proof.
  intros W T fn maxRetries initialDelay s error Hpos Hout H429 H503 Hq Hf.
  assert (Hre : retryable error = false).
  { unfold retryable.
    apply status_is_false in H429, H503.
    rewrite H429, H503, Hq, Hf. reflexivity. }
  unfold withRetry.
  destruct (Z.to_nat maxRetries) as [|n] eqn:En; [lia|].
  cbn [withRetry_loop]. unfold try_catch.
  rewrite invoke_run, Hout, Hre. reflexivity.
Qed.

(** C9.  With [maxRetries] zero or negative the loop body never runs: the
    operation is not invoked, nothing is logged or awaited, and the value
    thrown is the never-assigned [lastError], that is [undefined]. *)
Theorem withRetry_nonpositive_throws_undefined :
  forall (W T : Type) (fn : Op W T) (maxRetries initialDelay : Z) (s : Sys W),
    maxRetries <= 0 ->
    withRetry fn maxRetries initialDelay s = (Throw JsUndefined, s).
Proof.
  intros W T fn maxRetries initialDelay s Hle.
  unfold withRetry.
  replace (Z.to_nat maxRetries) with O by lia.
  reflexivity.
Qed.

Lemma withRetry_retryable_exhausts_witness :
  1 <= 3 /\
  (forall k, (k < Z.to_nat 3)%nat -> fails_retryably flaky k 0%nat) /\
  withRetry flaky 3 1000 (start 0%nat) =
    (Throw network_down,
     {| world := 3%nat;
        trace := [Invoke; Warn 1 3 1000 (Some "Too Many Requests"); Sleep 1000;
                  Invoke; Warn 2 3 2000 (Some "Service Unavailable"); Sleep 2000;
                  Invoke; Warn 3 3 4000 (Some "Failed to fetch"); Sleep 4000]
     |}).
Proof.
  assert (Hpos : 1 <= 3) by lia.
  assert (Hfail : forall k, (k < Z.to_nat 3)%nat ->
                            fails_retryably flaky k (world (start 0%nat))).
  { intros k Hk.
    assert (Hcases : k = 0%nat \/ k = 1%nat \/ k = 2%nat) by lia.
    destruct Hcases as [-> | [-> | ->]]; eexists; split; reflexivity. }
  split; [exact Hpos|]. split; [exact Hfail|].
  exact (proj1 (withRetry_retryable_exhausts nat string flaky 3 1000
                  (start 0%nat) Hpos Hfail)).
Defined.

Lemma withRetry_non_retryable_immediate_witness :
  1 <= 3 /\
  fst (rejecting (world (start 0%nat))) = Throw bad_request /\
  withRetry rejecting 3 1000 (start 0%nat) =
    (Throw bad_request, {| world := 1%nat; trace := [Invoke] |}).
Proof.
  split; [lia|]. split; [reflexivity|].
  apply (withRetry_non_retryable_immediate nat string rejecting 3 1000
           (start 0%nat) bad_request).
  - lia.
  - reflexivity.
  - discriminate.
  - discriminate.
  - reflexivity.
  - reflexivity.
Defined.

Lemma withRetry_nonpositive_throws_undefined_witness :
  0 <= 0 /\
  withRetry flaky 0 1000 (start 0%nat) = (Throw JsUndefined, start 0%nat).
Proof.
  split; [lia|].
  apply (withRetry_nonpositive_throws_undefined nat string flaky 0 1000
           (start 0%nat)).
  lia.
Defined.

(** ** The fallback loop, for any attempt body *)

Section FallbackFacts.

Context {W A : Type}.
Variable attempt : string -> M W A.
Variable report : string -> JsVal -> Event.
Variable loop : list string -> JsVal -> M W (A + JsVal).

Hypothesis loop_nil :
  forall e s, loop [] e s = (Return (inr e), s).

Hypothesis loop_cons :
  forall m ms e0 s,
    loop (m :: ms) e0 s =
    match attempt m s with
    | (Return a, s1) => (Return (inl a), s1)
    | (Throw e, s1) => loop ms e (log_event (report m e) s1)
    end.

Lemma loop_after_failures (rest : list string) :
  forall pre s e0 s1 e,
    candidates_fail attempt report pre s e0 s1 e ->
    loop (pre ++ rest) e0 s = loop rest e s1.
Proof.
  intros pre s e0 s1 e Hrun.
  induction Hrun as [s e0 | m ms s s1 s' e0 e1 e Hm _ IH]; [reflexivity|].
  cbn [app]. rewrite loop_cons, Hm. exact IH.
Qed.

Lemma loop_exhausted :
  forall ms s e0 s' e,
    candidates_fail attempt report ms s e0 s' e ->
    loop ms e0 s = (Return (inr e), s').
Proof.
  intros ms s e0 s' e Hrun.
  rewrite <- (app_nil_r ms), (loop_after_failures [] _ _ _ _ _ Hrun).
  apply loop_nil.
Qed.

Lemma loop_first_success :
  forall pre m post s e0 s1 e a s2,
    candidates_fail attempt report pre s e0 s1 e ->
    attempt m s1 = (Return a, s2) ->
    loop (pre ++ m :: post) e0 s = (Return (inl a), s2).
Proof.
  intros pre m post s e0 s1 e a s2 Hrun Hm.
  rewrite (loop_after_failures _ _ _ _ _ _ Hrun), loop_cons, Hm.
  reflexivity.
Qed.

(** The loop itself never throws: it returns from inside or runs out of
    candidates. *)
Lemma loop_returns :
  forall ms e0 s, exists r, fst (loop ms e0 s) = Return r.
Proof.
  induction ms as [|m ms IH]; intros e0 s.
  - rewrite loop_nil. eexists; reflexivity.
  - rewrite loop_cons. destruct (attempt m s) as [[a|e] s1].
    + eexists; reflexivity.
    + apply IH.
Qed.

(** The loop runs out of candidates only when every one of them failed. *)
Lemma loop_exhausted_inv :
  forall ms s e0 s' e,
    loop ms e0 s = (Return (inr e), s') ->
    candidates_fail attempt report ms s e0 s' e.
Proof.
  induction ms as [|m ms IH]; intros s e0 s' e Hloop.
  - rewrite loop_nil in Hloop. inversion Hloop; subst. constructor.
  - rewrite loop_cons in Hloop.
    destruct (attempt m s) as [[a|e1] s1] eqn:Hm; [discriminate|].
    econstructor; [exact Hm|]. apply IH. exact Hloop.
Qed.

End FallbackFacts.

(** The three loops are instances. *)

Section LoopEquations.

Context {St : Type}.
Variable service : Request -> St -> Outcome GenerateContentResult * St.
Variable syntaxErrorMessage : string -> string.
Variable env : Env.

Lemma sendMessage_loop_cons history currentMessage files genAI :
  forall m ms e0 (s : Sys (Net St)),
    sendMessage_loop service history currentMessage files genAI (m :: ms) e0 s =
    match sendMessage_attempt service history currentMessage files genAI m s with
    | (Return a, s1) => (Return (inl a), s1)
    | (Throw e, s1) =>
        sendMessage_loop service history currentMessage files genAI ms e
          (log_event (sendMessage_report m e) s1)
    end.
Proof.
  intros m ms e0 s. cbn [sendMessage_loop]. unfold try_catch, bind at 1.
  destruct (sendMessage_attempt _ _ _ _ _ m s) as [[a|e] s1]; [reflexivity|].
  unfold bind, emit.
  repeat match goal with |- context [if ?c then _ else _] => destruct c end;
    reflexivity.
Qed.

Lemma generateQuiz_loop_cons prompt fileData :
  forall m ms e0 (s : Sys (Net St)),
    generateQuiz_loop service syntaxErrorMessage env prompt fileData
      (m :: ms) e0 s =
    match generateQuiz_attempt service syntaxErrorMessage env prompt fileData
            m s with
    | (Return a, s1) => (Return (inl a), s1)
    | (Throw e, s1) =>
        generateQuiz_loop service syntaxErrorMessage env prompt fileData ms e
          (log_event (generateQuiz_report m e) s1)
    end.
Proof.
  intros m ms e0 s. cbn [generateQuiz_loop]. unfold try_catch, bind at 1.
  destruct (generateQuiz_attempt _ _ _ _ _ m s) as [[a|e] s1]; [reflexivity|].
  unfold bind, emit.
  repeat match goal with |- context [if ?c then _ else _] => destruct c end;
    reflexivity.
Qed.

Lemma generateFlashcards_loop_cons prompt fileData :
  forall m ms e0 (s : Sys (Net St)),
    generateFlashcards_loop service syntaxErrorMessage env prompt fileData
      (m :: ms) e0 s =
    match generateFlashcards_attempt service syntaxErrorMessage env prompt
            fileData m s with
    | (Return a, s1) => (Return (inl a), s1)
    | (Throw e, s1) =>
        generateFlashcards_loop service syntaxErrorMessage env prompt fileData
          ms e (log_event (generateFlashcards_report m e) s1)
    end.
Proof.
  intros m ms e0 s. cbn [generateFlashcards_loop]. unfold try_catch, bind at 1.
  destruct (generateFlashcards_attempt _ _ _ _ _ m s) as [[a|e] s1];
    [reflexivity|].
  unfold bind, emit.
  repeat match goal with |- context [if ?c then _ else _] => destruct c end;
    reflexivity.
Qed.

(** A loop that runs out of candidates has seen every one of them fail. *)
Lemma sendMessage_loop_exhausted_inv history currentMessage files genAI :
  forall ms (s s' : Sys (Net St)) e0 e,
    sendMessage_loop service history currentMessage files genAI ms e0 s =
      (Return (inr e), s') ->
    candidates_fail
      (sendMessage_attempt service history currentMessage files genAI)
      sendMessage_report ms s e0 s' e.
Proof.
  intros ms s s' e0 e.
  exact (loop_exhausted_inv
           (sendMessage_attempt service history currentMessage files genAI)
           sendMessage_report
           (sendMessage_loop service history currentMessage files genAI)
           (fun e1 s1 => eq_refl)
           (sendMessage_loop_cons history currentMessage files genAI)
           ms s e0 s' e).
Qed.

Lemma generateQuiz_loop_exhausted_inv prompt fileData :
  forall ms (s s' : Sys (Net St)) e0 e,
    generateQuiz_loop service syntaxErrorMessage env prompt fileData ms e0 s =
      (Return (inr e), s') ->
    candidates_fail
      (generateQuiz_attempt service syntaxErrorMessage env prompt fileData)
      generateQuiz_report ms s e0 s' e.
Proof.
  intros ms s s' e0 e.
  exact (loop_exhausted_inv
           (generateQuiz_attempt service syntaxErrorMessage env prompt fileData)
           generateQuiz_report
           (generateQuiz_loop service syntaxErrorMessage env prompt fileData)
           (fun e1 s1 => eq_refl)
           (generateQuiz_loop_cons prompt fileData)
           ms s e0 s' e).
Qed.

Lemma generateFlashcards_loop_exhausted_inv prompt fileData :
  forall ms (s s' : Sys (Net St)) e0 e,
    generateFlashcards_loop service syntaxErrorMessage env prompt fileData ms
      e0 s = (Return (inr e), s') ->
    candidates_fail
      (generateFlashcards_attempt service syntaxErrorMessage env prompt
         fileData)
      generateFlashcards_report ms s e0 s' e.
Proof.
  intros ms s s' e0 e.
  exact (loop_exhausted_inv
           (generateFlashcards_attempt service syntaxErrorMessage env prompt
              fileData)
           generateFlashcards_report
           (generateFlashcards_loop service syntaxErrorMessage env prompt
              fileData)
           (fun e1 s1 => eq_refl)
           (generateFlashcards_loop_cons prompt fileData)
           ms s e0 s' e).
Qed.

End LoopEquations.

(** ** Requests sent by the wrapper and by the loops *)

Section RequestLog.

Context {St : Type}.
Variable service : Request -> St -> Outcome GenerateContentResult * St.

Lemma call_run (req : Request) (w : Net St) :
  call service req w =
  (fst (service req (service_state w)),
   {| service_state := snd (service req (service_state w));
      requests := requests w ++ [req] |}).
Proof. unfold call. destruct (service req (service_state w)); reflexivity. Qed.

(** Every invocation of the wrapped call sends the same request; the
    wrapper sends it at least once and at most [remaining] times. *)
Lemma withRetry_loop_requests (req : Request) (maxRetries initialDelay : Z) :
  forall (n : nat) (i : Z) (lastError : JsVal) (s : Sys (Net St)),
  exists k,
    (k <= n)%nat /\ (1 <= n -> 1 <= k)%nat /\
    requests (world (snd (withRetry_loop (call service req) maxRetries
                            initialDelay n i lastError s))) =
    (requests (world s) ++ repeat req k)%list.
Proof.
  induction n as [|n IH]; intros i lastError s.
  - exists 0%nat. cbn. rewrite app_nil_r. repeat split; lia.
  - cbn [withRetry_loop]. unfold try_catch.
    rewrite invoke_run, call_run. cbn [fst snd world].
    destruct (fst (service req (service_state (world s)))) as [a|e].
    + exists 1%nat. cbn. repeat split; lia.
    + destruct (retryable e).
      * unfold bind at 1, emit at 1. unfold bind at 1, emit at 1.
        match goal with
        | |- context [withRetry_loop _ _ _ n ?i' ?e' ?s'] =>
            destruct (IH i' e' s') as [k [Hle [_ Hreq]]]
        end.
        exists (S k). split; [lia|]. split; [lia|].
        rewrite Hreq. unfold log_event. cbn [world requests repeat].
        rewrite <- app_assoc. reflexivity.
      * exists 1%nat. cbn. repeat split; lia.
Qed.

Lemma withRetry_default_requests (req : Request) (s : Sys (Net St)) :
  exists k,
    (1 <= k <= 3)%nat /\
    requests (world (snd (withRetry_default (call service req) s))) =
    (requests (world s) ++ repeat req k)%list.
Proof.
  unfold withRetry_default, withRetry.
  destruct (withRetry_loop_requests req 3 1000 (Z.to_nat 3) 0 JsUndefined s)
    as [k [Hle [Hge Hreq]]].
  exists k. split; [|exact Hreq].
  change (Z.to_nat 3) with 3%nat in Hle, Hge. lia.
Qed.

End RequestLog.

Section LoopRequests.

Context {St A : Type}.
Variable attempt : string -> M (Net St) A.
Variable report : string -> JsVal -> Event.
Variable loop : list string -> JsVal -> M (Net St) (A + JsVal).
Variable req : string -> Request.

(** The least number of requests of an attempt. *)
Variable least : nat.

Hypothesis loop_nil :
  forall e s, loop [] e s = (Return (inr e), s).

Hypothesis loop_cons :
  forall m ms e0 s,
    loop (m :: ms) e0 s =
    match attempt m s with
    | (Return a, s1) => (Return (inl a), s1)
    | (Throw e, s1) => loop ms e (log_event (report m e) s1)
    end.

Hypothesis attempt_requests :
  forall m s, exists k,
    (least <= k <= 3)%nat /\
    requests (world (snd (attempt m s))) =
    (requests (world s) ++ repeat (req m) k)%list.

(** The requests of a run of the loop are grouped by candidate, in the
    order of the list, at most three per candidate attempted; all the
    candidates are attempted when the loop runs out. *)
Lemma loop_requests :
  forall ms e0 s, exists ks,
    (List.length ks <= List.length ms)%nat /\
    (ms <> [] -> ks <> []) /\
    Forall (fun k => least <= k <= 3)%nat ks /\
    (forall e, fst (loop ms e0 s) = Return (inr e) ->
               List.length ks = List.length ms) /\
    requests (world (snd (loop ms e0 s))) =
    (requests (world s) ++ requests_of_run req ms ks)%list.
Proof.
  induction ms as [|m ms IH]; intros e0 s.
  - exists []. rewrite loop_nil. cbn. rewrite app_nil_r.
    repeat split; auto; congruence.
  - rewrite loop_cons.
    destruct (attempt_requests m s) as [k [Hk Hreq]].
    destruct (attempt m s) as [[a|e] s1]; cbn [snd] in Hreq.
    + exists [k]. cbn [fst snd]. repeat split.
      * cbn. lia.
      * discriminate.
      * constructor; [exact Hk|constructor].
      * discriminate.
      * rewrite Hreq. unfold requests_of_run.
        destruct ms; cbn; rewrite app_nil_r; reflexivity.
    + destruct (IH e (log_event (report m e) s1))
        as [ks [Hlen [_ [Hall [Hex Hrun]]]]].
      exists (k :: ks). repeat split.
      * cbn. lia.
      * discriminate.
      * constructor; assumption.
      * intros e' He'. cbn. f_equal. exact (Hex e' He').
      * rewrite Hrun. unfold log_event. cbn [world].
        rewrite Hreq. unfold requests_of_run. cbn [combine map List.concat fst snd].
        rewrite <- app_assoc. reflexivity.
Qed.

End LoopRequests.

Section AttemptRequests.

Context {St : Type}.
Variable service : Request -> St -> Outcome GenerateContentResult * St.
Variable syntaxErrorMessage : string -> string.
Variable env : Env.

(** The body of the [try] block of [sendMessage], step by step: the
    session is built, or [startChat] throws before anything is sent; then
    the wrapped call; then [response.text()]. *)
Lemma sendMessage_attempt_run history currentMessage files genAI m
  (s : Sys (Net St)) :
  sendMessage_attempt service history currentMessage files genAI m s =
  let s0 := log_event (Log ("Attempting message with model: " ++ m)) s in
  match validateChatHistory (map to_content (apiHistory history)) with
  | Some e => (Throw e, s0)
  | None =>
      match withRetry_default
              (call service
                 (chat_request genAI m history currentMessage files)) s0 with
      | (Return result, s1) => (response_text result, s1)
      | (Throw e, s1) => (Throw e, s1)
      end
  end.
Proof.
  unfold sendMessage_attempt, startChat, chat_request.
  unfold bind at 1, emit. unfold bind at 1, of_outcome at 1.
  destruct (validateChatHistory _) as [e|]; [reflexivity|].
  unfold bind, of_outcome. cbv zeta.
  destruct (withRetry_default _ _) as [[result|e] s1]; reflexivity.
Qed.

(** The body of the [try] block of [generateQuiz]: the wrapped call, then
    [response.text()], then the cleaning and [JSON.parse]. *)
Lemma generateQuiz_attempt_run prompt fileData m (s : Sys (Net St)) :
  generateQuiz_attempt service syntaxErrorMessage env prompt fileData m s =
  match withRetry_default
          (call service (content_request env m prompt fileData))
          (log_event (Log ("Attempting quiz generation with model: " ++ m))
             s) with
  | (Return result, s1) =>
      match response_text result with
      | Return text =>
          match parse_response text with
          | Some v => (Return v, s1)
          | None =>
              (Throw (Error (syntaxErrorMessage (clean_response text))), s1)
          end
      | Throw e => (Throw e, s1)
      end
  | (Throw e, s1) => (Throw e, s1)
  end.
Proof.
  unfold generateQuiz_attempt. unfold bind at 1, emit. unfold bind at 1.
  destruct (withRetry_default _ _) as [[result|e] s1]; [|reflexivity].
  unfold bind, of_outcome.
  destruct (response_text result) as [text|e]; [|reflexivity].
  unfold JSON_parse_or_throw, parse_response.
  destruct (JSON_parse _); reflexivity.
Qed.

Lemma generateFlashcards_attempt_run prompt fileData m (s : Sys (Net St)) :
  generateFlashcards_attempt service syntaxErrorMessage env prompt fileData m
    s =
  match withRetry_default
          (call service (content_request env m prompt fileData))
          (log_event
             (Log ("Attempting flashcard generation with model: " ++ m)) s)
  with
  | (Return result, s1) =>
      match response_text result with
      | Return text =>
          match parse_response text with
          | Some v => (Return v, s1)
          | None =>
              (Throw (Error (syntaxErrorMessage (clean_response text))), s1)
          end
      | Throw e => (Throw e, s1)
      end
  | (Throw e, s1) => (Throw e, s1)
  end.
Proof.
  unfold generateFlashcards_attempt. unfold bind at 1, emit. unfold bind at 1.
  destruct (withRetry_default _ _) as [[result|e] s1]; [|reflexivity].
  unfold bind, of_outcome.
  destruct (response_text result) as [text|e]; [|reflexivity].
  unfold JSON_parse_or_throw, parse_response.
  destruct (JSON_parse _); reflexivity.
Qed.

Lemma sendMessage_attempt_requests history currentMessage files genAI :
  forall m (s : Sys (Net St)), exists k,
    (least_chat_requests history <= k <= 3)%nat /\
    requests (world (snd (sendMessage_attempt service history currentMessage
                            files genAI m s))) =
    (requests (world s) ++
     repeat (chat_request genAI m history currentMessage files) k)%list.
Proof.
  intros m s. rewrite sendMessage_attempt_run. cbv zeta.
  unfold least_chat_requests.
  destruct (validateChatHistory _) as [e|].
  - exists 0%nat. split; [lia|]. cbn. rewrite app_nil_r. reflexivity.
  - match goal with
    | |- context [withRetry_default (call service ?r) ?s'] =>
        destruct (withRetry_default_requests service r s') as [k [Hk Hreq]];
        destruct (withRetry_default (call service r) s') as [[a|e] s1]
    end; exists k; (split; [exact Hk|exact Hreq]).
Qed.

Lemma generateQuiz_attempt_requests prompt fileData :
  forall m (s : Sys (Net St)), exists k,
    (1 <= k <= 3)%nat /\
    requests (world (snd (generateQuiz_attempt service syntaxErrorMessage env
                            prompt fileData m s))) =
    (requests (world s) ++
     repeat (content_request env m prompt fileData) k)%list.
Proof.
  intros m s. rewrite generateQuiz_attempt_run.
  match goal with
  | |- context [withRetry_default (call service ?r) ?s'] =>
      destruct (withRetry_default_requests service r s') as [k [Hk Hreq]];
      destruct (withRetry_default (call service r) s') as [[a|e] s1]
  end; exists k; (split; [exact Hk|]); [|exact Hreq].
  destruct (response_text a) as [text|e]; [|exact Hreq].
  destruct (parse_response text); exact Hreq.
Qed.

Lemma generateFlashcards_attempt_requests prompt fileData :
  forall m (s : Sys (Net St)), exists k,
    (1 <= k <= 3)%nat /\
    requests (world (snd (generateFlashcards_attempt service
                            syntaxErrorMessage env prompt fileData m s))) =
    (requests (world s) ++
     repeat (content_request env m prompt fileData) k)%list.
Proof.
  intros m s. rewrite generateFlashcards_attempt_run.
  match goal with
  | |- context [withRetry_default (call service ?r) ?s'] =>
      destruct (withRetry_default_requests service r s') as [k [Hk Hreq]];
      destruct (withRetry_default (call service r) s') as [[a|e] s1]
  end; exists k; (split; [exact Hk|]); [|exact Hreq].
  destruct (response_text a) as [text|e]; [|exact Hreq].
  destruct (parse_response text); exact Hreq.
Qed.

End AttemptRequests.

Section CandidateRequests.

Context {St A : Type}.
Variable attempt : string -> M (Net St) A.
Variable report : string -> JsVal -> Event.
Variable req : string -> Request.
Variable least : nat.

Hypothesis attempt_requests :
  forall m s, exists k,
    (least <= k <= 3)%nat /\
    requests (world (snd (attempt m s))) =
    (requests (world s) ++ repeat (req m) k)%list.

(** The requests of a run of failing candidates, followed by whatever the
    remaining candidates [ms'] send. *)
Lemma candidates_fail_requests (ms' : list string) (ks' : list nat) :
  forall ms s e0 s' e,
    candidates_fail attempt report ms s e0 s' e ->
    exists ks,
      List.length ks = List.length ms /\
      Forall (fun k => least <= k <= 3)%nat ks /\
      (requests (world s') ++ requests_of_run req ms' ks')%list =
      (requests (world s) ++ requests_of_run req (ms ++ ms') (ks ++ ks'))%list.
Proof.
  intros ms s e0 s' e Hrun.
  induction Hrun as [s e0 | m ms s s1 s' e0 e1 e Hm _ IH].
  - exists []. repeat split; constructor.
  - destruct IH as [ks [Hlen [Hall Hreq]]].
    destruct (attempt_requests m s) as [k [Hk Hone]].
    rewrite Hm in Hone. cbn [snd] in Hone.
    exists (k :: ks). split; [cbn; lia|]. split; [constructor; assumption|].
    rewrite Hreq. unfold log_event. cbn [world]. rewrite Hone.
    unfold requests_of_run. cbn [app combine map List.concat fst snd].
    rewrite <- app_assoc. reflexivity.
Qed.

End CandidateRequests.

(** ** [sendMessage] *)

Section SendMessageFacts.

Context {St : Type}.
Variable service : Request -> St -> Outcome GenerateContentResult * St.
Variable env : Env.
Variable history : list ChatMessage.
Variable currentMessage : string.
Variable files : list FileData.

Lemma falsy_string_false (k : string) :
  k <> "" -> falsy_string k = false.
Proof. destruct k; [congruence|reflexivity]. Qed.

(** [sendMessage] in terms of its loop, when the key is present. *)
Lemma sendMessage_run (s : Sys (Net St)) :
  getApiKey env <> "" ->
  sendMessage service env history currentMessage files s =
  match sendMessage_loop service history currentMessage files (getGenAI env)
          MODELS JsUndefined s with
  | (Return (inl text), s1) => (Return text, s1)
  | (Return (inr lastError), s1) =>
      (Throw (sendMessage_failure lastError),
       log_event (LogError "All models failed in sendMessage:" lastError) s1)
  | (Throw e, s1) => (Throw e, s1)
  end.
Proof.
  intro Hkey. unfold sendMessage.
  rewrite (falsy_string_false _ Hkey). unfold bind at 1.
  destruct (sendMessage_loop _ _ _ _ _ _ _ s) as [[[text|lastError]|e] s1];
    reflexivity.
Qed.

(** Without a key [sendMessage] throws at once and touches nothing. *)
Lemma sendMessage_missing_key (s : Sys (Net St)) :
  getApiKey env = "" ->
  sendMessage service env history currentMessage files s =
  (Throw (Error MISSING_KEY_MESSAGE), s).
Proof. intro Hkey. unfold sendMessage. rewrite Hkey. reflexivity. Qed.

(** When every candidate has failed, [sendMessage] throws the failure
    synthesised from the last one. *)
Lemma sendMessage_exhausted (s s' : Sys (Net St)) (lastError : JsVal) :
  getApiKey env <> "" ->
  candidates_fail
    (sendMessage_attempt service history currentMessage files (getGenAI env))
    sendMessage_report MODELS s JsUndefined s' lastError ->
  sendMessage service env history currentMessage files s =
  (Throw (sendMessage_failure lastError),
   log_event (LogError "All models failed in sendMessage:" lastError) s').
Proof.
  intros Hkey Hrun. rewrite (sendMessage_run s Hkey).
  rewrite (loop_exhausted _ _ _ (fun e s0 => eq_refl)
             (sendMessage_loop_cons service history currentMessage files
                (getGenAI env)) _ _ _ _ _ Hrun).
  reflexivity.
Qed.

(** Once the session is built, a wrapped call that succeeds makes the
    attempt end as [response.text()] does. *)
Lemma sendMessage_attempt_success m (s1 s2 : Sys (Net St)) result :
  validateChatHistory (map to_content (apiHistory history)) = None ->
  withRetry_default
    (call service (chat_request (getGenAI env) m history currentMessage files))
    (log_event (Log ("Attempting message with model: " ++ m)) s1) =
  (Return result, s2) ->
  sendMessage_attempt service history currentMessage files (getGenAI env) m s1 =
  (response_text result, s2).
Proof.
  intros Hvalid Hcall. rewrite sendMessage_attempt_run. cbv zeta.
  rewrite Hvalid, Hcall. reflexivity.
Qed.

End SendMessageFacts.

(** C8, as the code has it.  With a key present and a history that
    [startChat] accepts, [sendMessage] walks the fixed list [MODELS] in
    order, each candidate through [withRetry] with its defaults: if the
    candidates before [m] fail one after the other, whatever their
    failures, the wrapped call for [m] succeeds and the text of its
    response can be read, then the reply is that text, the run stops in the
    state right after that call, so that no later candidate is attempted,
    and the requests sent are those of the candidates up to [m], grouped in
    list order, one to three per candidate.  A failure of any kind moves
    the loop to the next candidate; an attempt fails when [startChat]
    throws, when the wrapped call fails, or when [response.text()]
    throws. *)
Theorem sendMessage_fallback_order :
  forall (St : Type)
         (service : Request -> St -> Outcome GenerateContentResult * St)
         (env : Env) (history : list ChatMessage) (currentMessage : string)
         (files : list FileData) (s s1 s2 : Sys (Net St))
         (pre post : list string) (m : string) (e : JsVal)
         (result : GenerateContentResult) (reply : string),
    let genAI := getGenAI env in
    let attempt :=
      sendMessage_attempt service history currentMessage files genAI in
    let loop := sendMessage_loop service history currentMessage files genAI in
    let req := fun m' => chat_request genAI m' history currentMessage files in
    getApiKey env <> "" ->
    MODELS = (pre ++ m :: post)%list ->
    validateChatHistory (map to_content (apiHistory history)) = None ->
    candidates_fail attempt sendMessage_report pre s JsUndefined s1 e ->
    withRetry_default (call service (req m))
      (log_event (Log ("Attempting message with model: " ++ m)) s1) =
      (Return result, s2) ->
    response_text result = Return reply ->
    MODELS = ["gemini-flash-latest"; "gemini-2.0-flash";
              "gemini-2.0-flash-lite-preview-09-2025"; "gemini-1.5-pro"] /\
    sendMessage service env history currentMessage files s =
      (Return reply, s2) /\
    (exists ks,
        List.length ks = List.length (pre ++ [m])%list /\
        Forall (fun k => 1 <= k <= 3)%nat ks /\
        requests (world s2) =
        (requests (world s) ++ requests_of_run req (pre ++ [m]) ks)%list) /\
    (forall m' ms e0 s0 e' s0',
        attempt m' s0 = (Throw e', s0') ->
        loop (m' :: ms) e0 s0 =
        loop ms e' (log_event (sendMessage_report m' e') s0')) /\
    (forall m' s0 result' s0' e',
        withRetry_default (call service (req m'))
          (log_event (Log ("Attempting message with model: " ++ m')) s0) =
          (Return result', s0') ->
        response_text result' = Throw e' ->
        attempt m' s0 = (Throw e', s0')).
Proof.
  intros St service env history currentMessage files s s1 s2 pre post m e
         result reply genAI attempt loop req Hkey Hmodels Hvalid Hpre Hcall
         Htext.
  pose proof (sendMessage_attempt_success service env history currentMessage
                files m s1 s2 result Hvalid Hcall) as Hm.
  fold genAI in Hm. fold attempt in Hm. rewrite Htext in Hm.
  assert (Hleast : least_chat_requests history = 1%nat).
  { unfold least_chat_requests. rewrite Hvalid. reflexivity. }
  split; [reflexivity|]. split; [|split; [|split]].
  - rewrite (sendMessage_run service env history currentMessage files s Hkey).
    fold genAI. fold loop. rewrite Hmodels.
    rewrite (loop_first_success attempt sendMessage_report loop
               (sendMessage_loop_cons service history currentMessage files
                  genAI)
               pre m post s JsUndefined s1 e _ s2 Hpre Hm).
    reflexivity.
  - destruct (sendMessage_attempt_requests service history currentMessage
                files genAI m s1) as [k [Hk Hone]].
    fold attempt in Hone. rewrite Hm in Hone. cbn [snd] in Hone.
    destruct (candidates_fail_requests attempt sendMessage_report req
                (least_chat_requests history)
                (sendMessage_attempt_requests service history currentMessage
                   files genAI) [m] [k] pre s JsUndefined s1 e Hpre)
      as [ks' [Hlen' [Hall' Hreq']]].
    rewrite Hleast in Hk, Hall'.
    exists (ks' ++ [k])%list. split; [|split].
    + rewrite !length_app, Hlen'. reflexivity.
    + apply Forall_app. split; [exact Hall'|]. constructor; [exact Hk|constructor].
    + rewrite Hone, <- Hreq'. unfold requests_of_run.
      cbn [combine map List.concat fst snd]. rewrite app_nil_r. reflexivity.
  - intros m' ms e0 s0 e' s0' Hfail. unfold loop.
    rewrite sendMessage_loop_cons. fold attempt. rewrite Hfail. reflexivity.
  - intros m' s0 result' s0' e' Hcall' Htext'. unfold attempt, genAI.
    unfold req, genAI in Hcall'.
    rewrite (sendMessage_attempt_success service env history currentMessage
               files m' s0 s0' result' Hvalid Hcall').
    rewrite Htext'. reflexivity.
Qed.

Lemma sendMessage_fallback_order_witness :
  getApiKey keyed_env <> "" /\
  validateChatHistory (map to_content (apiHistory [greeting; question; answer]))
    = None /\
  fst (sendMessage patchy_service keyed_env [greeting; question; answer]
         "Explain osmosis" [] fresh_net) =
    Return "Osmosis is the movement of water." /\
  requested_models
    (requests (world (snd (sendMessage patchy_service keyed_env
                             [greeting; question; answer] "Explain osmosis" []
                             fresh_net)))) =
    ["gemini-flash-latest"; "gemini-2.0-flash"; "gemini-2.0-flash";
     "gemini-2.0-flash"; "gemini-2.0-flash-lite-preview-09-2025"].
Proof.
  assert (Hkey : getApiKey keyed_env <> "") by discriminate.
  pose (history := [greeting; question; answer]).
  pose (genAI := getGenAI keyed_env).
  pose (pre := ["gemini-flash-latest"; "gemini-2.0-flash"]).
  pose (m := "gemini-2.0-flash-lite-preview-09-2025").
  pose (after_pre :=
          sendMessage_loop patchy_service history "Explain osmosis" [] genAI
            pre JsUndefined fresh_net).
  pose (s1 := snd after_pre).
  pose (wrapped :=
          withRetry_default
            (call patchy_service
               (chat_request genAI m history "Explain osmosis" []))
            (log_event (Log ("Attempting message with model: " ++ m)) s1)).
  assert (Hpre : candidates_fail
                   (sendMessage_attempt patchy_service history
                      "Explain osmosis" [] genAI)
                   sendMessage_report pre fresh_net JsUndefined s1
                   quota_exhausted).
  { apply sendMessage_loop_exhausted_inv. vm_compute. reflexivity. }
  assert (Hcall : wrapped =
                  (Return {| response_text :=
                               Return "Osmosis is the movement of water." |},
                   snd wrapped)).
  { vm_compute. reflexivity. }
  destruct (sendMessage_fallback_order nat patchy_service keyed_env history
              "Explain osmosis" [] fresh_net s1 (snd wrapped) pre
              ["gemini-1.5-pro"] m quota_exhausted _ _ Hkey eq_refl eq_refl
              Hpre Hcall eq_refl)
    as [_ [Hsend _]].
  split; [exact Hkey|]. split; [reflexivity|]. fold history. rewrite Hsend.
  split; vm_compute; reflexivity.
Defined.

(** C8 fails as stated when the answer of a candidate is blocked: the
    wrapped call for the first candidate succeeds, but [response.text()]
    throws inside the [try] block, so the loop goes on and the reply is
    the text of the second candidate. *)
Lemma sendMessage_blocked_answer_goes_on :
  let req :=
    chat_request (getGenAI keyed_env) "gemini-flash-latest" [greeting]
      "Hello" [] in
  getApiKey keyed_env <> "" /\
  fst (withRetry_default (call blocking_first_service req)
         (log_event
            (Log "Attempting message with model: gemini-flash-latest")
            fresh_net)) =
    Return {| response_text := Throw blocked_answer |} /\
  fst (sendMessage blocking_first_service keyed_env [greeting] "Hello" []
         fresh_net) = Return "Hello! What are we studying today?" /\
  requested_models
    (requests (world (snd (sendMessage blocking_first_service keyed_env
                             [greeting] "Hello" [] fresh_net)))) =
    ["gemini-flash-latest"; "gemini-2.0-flash"].
Proof.
  cbv zeta. split; [discriminate|]. repeat split; vm_compute; reflexivity.
Qed.

(** ** Facts on [includes] *)

Lemma includes_cons (c : ascii) (s sub : string) :
  includes s sub = true -> includes (String c s) sub = true.
Proof. intro H. cbn [includes]. rewrite H. apply orb_true_r. Qed.

Lemma includes_app_r (p s sub : string) :
  includes s sub = true -> includes (p ++ s) sub = true.
Proof.
  intro H. induction p as [|c p IH]; [exact H|].
  cbn [append]. apply includes_cons. exact IH.
Qed.

(** A character that differs from the first one of [sub] cannot start an
    occurrence. *)
Lemma includes_skip (c a : ascii) (s sub : string) :
  c <> a ->
  includes (String c s) (String a sub) = includes s (String a sub).
Proof.
  intro Hneq. cbn [includes String.prefix].
  destruct (ascii_dec a c) as [->|_]; [congruence|reflexivity].
Qed.

Lemma message_includes_text (e : JsVal) (sub : string) :
  message_includes e sub = true ->
  exists text, get_message e = Some text /\ includes text sub = true.
Proof.
  unfold message_includes. destruct (get_message e) as [text|]; [|discriminate].
  intro H. exists text. split; [reflexivity|exact H].
Qed.

Lemma or_string_nonempty (text dflt sub : string) :
  includes text (String "q" sub) = true ->
  or_string (Some text) dflt = text.
Proof. destruct text; [discriminate|reflexivity]. Qed.

(** ** [generateQuiz] and [generateFlashcards] *)

Section GenerateFacts.

Context {St : Type}.
Variable service : Request -> St -> Outcome GenerateContentResult * St.
Variable syntaxErrorMessage : string -> string.
Variable env : Env.

Lemma generateQuiz_run topic fileData difficulty count (s : Sys (Net St)) :
  generateQuiz service syntaxErrorMessage env topic fileData difficulty count s =
  match generateQuiz_loop service syntaxErrorMessage env
          (quiz_prompt topic fileData difficulty count) fileData MODELS
          JsUndefined s with
  | (Return (inl v), s1) => (Return v, s1)
  | (Return (inr lastError), s1) =>
      (Throw (Error (GENERIC_QUIZ_PREFIX ++ or_string (get_message lastError) "")),
       log_event (LogError "All models failed in generateQuiz:" lastError) s1)
  | (Throw e, s1) => (Throw e, s1)
  end.
Proof.
  unfold generateQuiz, bind at 1.
  destruct (generateQuiz_loop _ _ _ _ _ _ _ s) as [[[v|lastError]|e] s1];
    reflexivity.
Qed.

Lemma generateFlashcards_run topic fileData count (s : Sys (Net St)) :
  generateFlashcards service syntaxErrorMessage env topic fileData count s =
  match generateFlashcards_loop service syntaxErrorMessage env
          (flashcards_prompt topic fileData count) fileData MODELS
          JsUndefined s with
  | (Return (inl v), s1) => (Return v, s1)
  | (Return (inr lastError), s1) =>
      (Throw (Error (GENERIC_FLASHCARDS_PREFIX ++
                     or_string (get_message lastError) "")),
       log_event (LogError "All models failed in generateFlashcards:"
                    lastError) s1)
  | (Throw e, s1) => (Throw e, s1)
  end.
Proof.
  unfold generateFlashcards, bind at 1.
  destruct (generateFlashcards_loop _ _ _ _ _ _ _ s) as [[[v|lastError]|e] s1];
    reflexivity.
Qed.

Lemma generateQuiz_exhausted topic fileData difficulty count
  (s s' : Sys (Net St)) (lastError : JsVal) :
  candidates_fail
    (generateQuiz_attempt service syntaxErrorMessage env
       (quiz_prompt topic fileData difficulty count) fileData)
    generateQuiz_report MODELS s JsUndefined s' lastError ->
  generateQuiz service syntaxErrorMessage env topic fileData difficulty count s =
  (Throw (Error (GENERIC_QUIZ_PREFIX ++ or_string (get_message lastError) "")),
   log_event (LogError "All models failed in generateQuiz:" lastError) s').
Proof.
  intro Hrun. rewrite generateQuiz_run.
  rewrite (loop_exhausted _ _ _ (fun e s0 => eq_refl)
             (generateQuiz_loop_cons service syntaxErrorMessage env _ fileData)
             _ _ _ _ _ Hrun).
  reflexivity.
Qed.

Lemma generateFlashcards_exhausted topic fileData count
  (s s' : Sys (Net St)) (lastError : JsVal) :
  candidates_fail
    (generateFlashcards_attempt service syntaxErrorMessage env
       (flashcards_prompt topic fileData count) fileData)
    generateFlashcards_report MODELS s JsUndefined s' lastError ->
  generateFlashcards service syntaxErrorMessage env topic fileData count s =
  (Throw (Error (GENERIC_FLASHCARDS_PREFIX ++
                 or_string (get_message lastError) "")),
   log_event (LogError "All models failed in generateFlashcards:" lastError)
     s').
Proof.
  intro Hrun. rewrite generateFlashcards_run.
  rewrite (loop_exhausted _ _ _ (fun e s0 => eq_refl)
             (generateFlashcards_loop_cons service syntaxErrorMessage env _
                fileData)
             _ _ _ _ _ Hrun).
  reflexivity.
Qed.

End GenerateFacts.

Lemma quiz_prefix_Quota (text : string) :
  includes (GENERIC_QUIZ_PREFIX ++ text) "Quota" = includes text "Quota".
Proof.
  unfold GENERIC_QUIZ_PREFIX. cbn [append].
  repeat (rewrite includes_skip by discriminate). reflexivity.
Qed.

Lemma flashcards_prefix_Quota (text : string) :
  includes (GENERIC_FLASHCARDS_PREFIX ++ text) "Quota" = includes text "Quota".
Proof.
  unfold GENERIC_FLASHCARDS_PREFIX. cbn [append].
  repeat (rewrite includes_skip by discriminate). reflexivity.
Qed.

(** C3, as the code has it.  When every candidate has failed and the
    message of the last failure contains [quota]: [sendMessage] throws the
    quota message, which contains the word [Quota]; [generateQuiz] and
    [generateFlashcards] throw their generic message followed by the text
    of the last failure, which therefore contains [quota] as that text
    spells it, and contains [Quota] exactly when that text does. *)
Theorem exhaustion_on_quota :
  forall (St : Type)
         (service : Request -> St -> Outcome GenerateContentResult * St)
         (syntaxErrorMessage : string -> string) (env : Env),
    (forall history currentMessage files (s s' : Sys (Net St)) lastError,
        getApiKey env <> "" ->
        candidates_fail
          (sendMessage_attempt service history currentMessage files
             (getGenAI env))
          sendMessage_report MODELS s JsUndefined s' lastError ->
        message_includes lastError "quota" = true ->
        fst (sendMessage service env history currentMessage files s) =
          Throw (Error QUOTA_MESSAGE) /\
        includes QUOTA_MESSAGE "Quota" = true) /\
    (forall topic fileData difficulty count (s s' : Sys (Net St)) lastError,
        candidates_fail
          (generateQuiz_attempt service syntaxErrorMessage env
             (quiz_prompt topic fileData difficulty count) fileData)
          generateQuiz_report MODELS s JsUndefined s' lastError ->
        message_includes lastError "quota" = true ->
        exists text,
          get_message lastError = Some text /\
          fst (generateQuiz service syntaxErrorMessage env topic fileData
                 difficulty count s) =
            Throw (Error (GENERIC_QUIZ_PREFIX ++ text)) /\
          includes (GENERIC_QUIZ_PREFIX ++ text) "quota" = true /\
          includes (GENERIC_QUIZ_PREFIX ++ text) "Quota" =
            includes text "Quota") /\
    (forall topic fileData count (s s' : Sys (Net St)) lastError,
        candidates_fail
          (generateFlashcards_attempt service syntaxErrorMessage env
             (flashcards_prompt topic fileData count) fileData)
          generateFlashcards_report MODELS s JsUndefined s' lastError ->
        message_includes lastError "quota" = true ->
        exists text,
          get_message lastError = Some text /\
          fst (generateFlashcards service syntaxErrorMessage env topic fileData
                 count s) =
            Throw (Error (GENERIC_FLASHCARDS_PREFIX ++ text)) /\
          includes (GENERIC_FLASHCARDS_PREFIX ++ text) "quota" = true /\
          includes (GENERIC_FLASHCARDS_PREFIX ++ text) "Quota" =
            includes text "Quota").
Proof.
  intros St service syntaxErrorMessage env. split; [|split].
  - intros history currentMessage files s s' lastError Hkey Hrun Hquota.
    rewrite (sendMessage_exhausted service env history currentMessage files
               s s' lastError Hkey Hrun).
    unfold sendMessage_failure. rewrite Hquota. split; reflexivity.
  - intros topic fileData difficulty count s s' lastError Hrun Hquota.
    destruct (message_includes_text _ _ Hquota) as [text [Hmsg Hin]].
    exists text. split; [exact Hmsg|].
    rewrite (generateQuiz_exhausted service syntaxErrorMessage env topic
               fileData difficulty count s s' lastError Hrun).
    rewrite Hmsg, (or_string_nonempty text "" _ Hin).
    split; [reflexivity|]. split.
    + apply includes_app_r. exact Hin.
    + apply quiz_prefix_Quota.
  - intros topic fileData count s s' lastError Hrun Hquota.
    destruct (message_includes_text _ _ Hquota) as [text [Hmsg Hin]].
    exists text. split; [exact Hmsg|].
    rewrite (generateFlashcards_exhausted service syntaxErrorMessage env topic
               fileData count s s' lastError Hrun).
    rewrite Hmsg, (or_string_nonempty text "" _ Hin).
    split; [reflexivity|]. split.
    + apply includes_app_r. exact Hin.
    + apply flashcards_prefix_Quota.
Qed.

Lemma exhaustion_on_quota_witness :
  getApiKey keyed_env <> "" /\
  message_includes quota_exhausted "quota" = true /\
  fst (sendMessage (failing_service quota_exhausted) keyed_env [] "Hello" []
         fresh_net) = Throw (Error QUOTA_MESSAGE) /\
  includes QUOTA_MESSAGE "Quota" = true.
Proof.
  assert (Hkey : getApiKey keyed_env <> "") by discriminate.
  pose (run := sendMessage_loop (failing_service quota_exhausted) [] "Hello" []
                 (getGenAI keyed_env) MODELS JsUndefined fresh_net).
  assert (Hrun : candidates_fail
                   (sendMessage_attempt (failing_service quota_exhausted) []
                      "Hello" [] (getGenAI keyed_env))
                   sendMessage_report MODELS fresh_net JsUndefined (snd run)
                   quota_exhausted).
  { apply sendMessage_loop_exhausted_inv. vm_compute. reflexivity. }
  split; [exact Hkey|]. split; [reflexivity|].
  exact (proj1 (exhaustion_on_quota nat (failing_service quota_exhausted)
                  engine_message keyed_env)
           [] "Hello" [] fresh_net (snd run) quota_exhausted Hkey Hrun
           eq_refl).
Defined.

(** C3 fails as stated for [generateQuiz]: with every candidate over quota
    the message thrown carries [quota] in lower case only. *)
Lemma generateQuiz_quota_message_lacks_Quota :
  (exists s',
      candidates_fail
        (generateQuiz_attempt (failing_service quota_exhausted) engine_message
           keyed_env (quiz_prompt "Photosynthesis" None "easy" 3) None)
        generateQuiz_report MODELS fresh_net JsUndefined s' quota_exhausted) /\
  message_includes quota_exhausted "quota" = true /\
  fst (generateQuiz (failing_service quota_exhausted) engine_message keyed_env
         "Photosynthesis" None "easy" 3 fresh_net) =
    Throw (Error "Failed to generate quiz after trying multiple models. You exceeded your current quota") /\
  includes "Failed to generate quiz after trying multiple models. You exceeded your current quota"
    "Quota" = false.
Proof.
  split; [|split; [|split]].
  - eexists. apply generateQuiz_loop_exhausted_inv. vm_compute. reflexivity.
  - reflexivity.
  - vm_compute. reflexivity.
  - vm_compute. reflexivity.
Qed.

(** C7, as the code has it.  When every candidate has failed in
    [sendMessage], the last failure has status 404 or a message containing
    [not found], and its message does not contain [quota], the failure
    thrown is the one asking to verify the key in Google AI Studio. *)
Theorem sendMessage_not_found_message :
  forall (St : Type)
         (service : Request -> St -> Outcome GenerateContentResult * St)
         (env : Env) (history : list ChatMessage) (currentMessage : string)
         (files : list FileData) (s s' : Sys (Net St)) (lastError : JsVal),
    getApiKey env <> "" ->
    candidates_fail
      (sendMessage_attempt service history currentMessage files (getGenAI env))
      sendMessage_report MODELS s JsUndefined s' lastError ->
    get_status lastError = Some 404 \/
      message_includes lastError "not found" = true ->
    message_includes lastError "quota" = false ->
    sendMessage service env history currentMessage files s =
      (Throw (Error NOT_FOUND_MESSAGE),
       log_event (LogError "All models failed in sendMessage:" lastError) s') /\
    includes NOT_FOUND_MESSAGE "verify your key in Google AI Studio" = true.
Proof.
  intros St service env history currentMessage files s s' lastError Hkey Hrun
         Hclass Hquota.
  rewrite (sendMessage_exhausted service env history currentMessage files
             s s' lastError Hkey Hrun).
  unfold sendMessage_failure. rewrite Hquota.
  assert (Hcond : status_is (get_status lastError) 404 ||
                  message_includes lastError "not found" = true).
  { apply orb_true_iff. destruct Hclass as [Hst | Hmsg].
    - left. apply status_is_true. exact Hst.
    - right. exact Hmsg. }
  rewrite Hcond. split; reflexivity.
Qed.

Lemma sendMessage_not_found_message_witness :
  getApiKey keyed_env <> "" /\
  (get_status model_missing = Some 404 \/
   message_includes model_missing "not found" = true) /\
  message_includes model_missing "quota" = false /\
  fst (sendMessage (failing_service model_missing) keyed_env [greeting]
         "Hello" [] fresh_net) = Throw (Error NOT_FOUND_MESSAGE).
Proof.
  assert (Hkey : getApiKey keyed_env <> "") by discriminate.
  pose (run := sendMessage_loop (failing_service model_missing) [greeting]
                 "Hello" [] (getGenAI keyed_env) MODELS JsUndefined fresh_net).
  assert (Hrun : candidates_fail
                   (sendMessage_attempt (failing_service model_missing)
                      [greeting] "Hello" [] (getGenAI keyed_env))
                   sendMessage_report MODELS fresh_net JsUndefined (snd run)
                   model_missing).
  { apply sendMessage_loop_exhausted_inv. vm_compute. reflexivity. }
  assert (Hclass : get_status model_missing = Some 404 \/
                   message_includes model_missing "not found" = true)
    by (left; reflexivity).
  split; [exact Hkey|]. split; [exact Hclass|]. split; [reflexivity|].
  rewrite (proj1 (sendMessage_not_found_message nat
                    (failing_service model_missing) keyed_env [greeting]
                    "Hello" [] fresh_net (snd run) model_missing Hkey Hrun
                    Hclass eq_refl)).
  reflexivity.
Defined.

(** C7 fails as stated on two kinds of 404-class last failures: one whose
    message also contains [quota] gets the quota message, and one that is
    404-class only by the text [404] in its message gets the generic
    message. *)
Lemma sendMessage_404_class_other_messages :
  (get_status quota_and_missing = Some 404 /\
   fst (sendMessage (failing_service quota_and_missing) keyed_env [] "Hello" []
          fresh_net) = Throw (Error QUOTA_MESSAGE) /\
   includes QUOTA_MESSAGE "key" = false) /\
  (message_includes missing_by_text "404" = true /\
   fst (sendMessage (failing_service missing_by_text) keyed_env [] "Hello" []
          fresh_net) =
     Throw (Error "Failed to get AI response after trying multiple models. [404] no such model") /\
   includes "Failed to get AI response after trying multiple models. [404] no such model"
     "key" = false).
Proof.
  repeat split; vm_compute; reflexivity.
Qed.

(** C2 at the failing input.  Whatever the service does, [generateQuiz]
    and [generateFlashcards] called without a key send a request for the
    first candidate, built with the empty key, and do not fail with the
    missing-key message. *)
Theorem generate_without_key_calls_network :
  forall (St : Type)
         (service : Request -> St -> Outcome GenerateContentResult * St)
         (syntaxErrorMessage : string -> string) (env : Env)
         (topic : string) (fileData : option FileData) (difficulty : string)
         (count : Z) (s : Sys (Net St)),
    getApiKey env = "" ->
    let quiz :=
      generateQuiz service syntaxErrorMessage env topic fileData difficulty
        count s in
    let cards :=
      generateFlashcards service syntaxErrorMessage env topic fileData count
        s in
    let quiz_req :=
      content_request env "gemini-flash-latest"
        (quiz_prompt topic fileData difficulty count) fileData in
    let cards_req :=
      content_request env "gemini-flash-latest"
        (flashcards_prompt topic fileData count) fileData in
    apiKey (model_client (request_model quiz_req)) = "" /\
    apiKey (model_client (request_model cards_req)) = "" /\
    (exists more,
        requests (world (snd quiz)) =
        (requests (world s) ++ quiz_req :: more)%list) /\
    (exists more,
        requests (world (snd cards)) =
        (requests (world s) ++ cards_req :: more)%list) /\
    fst quiz <> Throw (Error MISSING_KEY_MESSAGE) /\
    fst cards <> Throw (Error MISSING_KEY_MESSAGE).
Proof.
  intros St service syntaxErrorMessage env topic fileData difficulty count s
         Hkey quiz cards quiz_req cards_req.
  split; [exact Hkey|]. split; [exact Hkey|].
  assert (Hfirst : forall (req : string -> Request) ks,
             ks <> [] -> Forall (fun k => 1 <= k <= 3)%nat ks ->
             exists more,
               requests_of_run req MODELS ks =
               req "gemini-flash-latest" :: more).
  { intros req ks Hne Hall. destruct ks as [|k ks]; [congruence|].
    inversion Hall as [|k' ks' Hk _]; subst.
    destruct k as [|k]; [lia|].
    unfold requests_of_run, MODELS.
    cbn [combine map List.concat fst snd repeat app].
    eexists; reflexivity. }
  split; [|split; [|split]].
  - subst quiz. rewrite generateQuiz_run.
    destruct (loop_requests
                (generateQuiz_attempt service syntaxErrorMessage env
                   (quiz_prompt topic fileData difficulty count) fileData)
                generateQuiz_report
                (generateQuiz_loop service syntaxErrorMessage env
                   (quiz_prompt topic fileData difficulty count) fileData)
                (fun m => content_request env m
                            (quiz_prompt topic fileData difficulty count)
                            fileData)
                1%nat
                (fun e0 s0 => eq_refl)
                (generateQuiz_loop_cons service syntaxErrorMessage env _
                   fileData)
                (generateQuiz_attempt_requests service syntaxErrorMessage env
                   _ fileData)
                MODELS JsUndefined s)
      as [ks [_ [Hne [Hall [_ Hreq]]]]].
    destruct (Hfirst (fun m => content_request env m
                                 (quiz_prompt topic fileData difficulty count)
                                 fileData)
                ks (Hne ltac:(discriminate)) Hall) as [more Hmore].
    cbv beta in Hmore. exists more. subst quiz_req.
    rewrite <- Hmore, <- Hreq.
    destruct (generateQuiz_loop _ _ _ _ _ _ _ s) as [[[v|e]|e] s1];
      reflexivity.
  - subst cards. rewrite generateFlashcards_run.
    destruct (loop_requests
                (generateFlashcards_attempt service syntaxErrorMessage env
                   (flashcards_prompt topic fileData count) fileData)
                generateFlashcards_report
                (generateFlashcards_loop service syntaxErrorMessage env
                   (flashcards_prompt topic fileData count) fileData)
                (fun m => content_request env m
                            (flashcards_prompt topic fileData count) fileData)
                1%nat
                (fun e0 s0 => eq_refl)
                (generateFlashcards_loop_cons service syntaxErrorMessage env _
                   fileData)
                (generateFlashcards_attempt_requests service
                   syntaxErrorMessage env _ fileData)
                MODELS JsUndefined s)
      as [ks [_ [Hne [Hall [_ Hreq]]]]].
    destruct (Hfirst (fun m => content_request env m
                                 (flashcards_prompt topic fileData count)
                                 fileData)
                ks (Hne ltac:(discriminate)) Hall) as [more Hmore].
    cbv beta in Hmore. exists more. subst cards_req.
    rewrite <- Hmore, <- Hreq.
    destruct (generateFlashcards_loop _ _ _ _ _ _ _ s) as [[[v|e]|e] s1];
      reflexivity.
  - subst quiz. rewrite generateQuiz_run.
    destruct (generateQuiz_loop _ _ _ _ _ _ _ s) as [[[v|e]|e] s1] eqn:Hloop;
      cbn [fst]; try discriminate.
    pose proof (loop_returns _ _ _ (fun e0 s0 => eq_refl)
                  (generateQuiz_loop_cons service syntaxErrorMessage env
                     (quiz_prompt topic fileData difficulty count) fileData)
                  MODELS JsUndefined s) as [r Hr].
    rewrite Hloop in Hr. discriminate.
  - subst cards. rewrite generateFlashcards_run.
    destruct (generateFlashcards_loop _ _ _ _ _ _ _ s) as [[[v|e]|e] s1]
      eqn:Hloop; cbn [fst]; try discriminate.
    pose proof (loop_returns _ _ _ (fun e0 s0 => eq_refl)
                  (generateFlashcards_loop_cons service syntaxErrorMessage env
                     (flashcards_prompt topic fileData count) fileData)
                  MODELS JsUndefined s) as [r Hr].
    rewrite Hloop in Hr. discriminate.
Qed.

Lemma generate_without_key_calls_network_witness :
  getApiKey keyless_env = "" /\
  (exists more,
      requests (world (snd (generateQuiz (failing_service invalid_key)
                              engine_message keyless_env "Photosynthesis" None
                              "easy" 3 fresh_net))) =
      content_request keyless_env "gemini-flash-latest"
        (quiz_prompt "Photosynthesis" None "easy" 3) None :: more) /\
  fst (generateQuiz (failing_service invalid_key) engine_message keyless_env
         "Photosynthesis" None "easy" 3 fresh_net) <>
    Throw (Error MISSING_KEY_MESSAGE).
Proof.
  assert (Hkey : getApiKey keyless_env = "") by reflexivity.
  destruct (generate_without_key_calls_network nat
              (failing_service invalid_key) engine_message keyless_env
              "Photosynthesis" None "easy" 3 fresh_net Hkey)
    as [_ [_ [Hquiz [_ [Hne _]]]]].
  split; [exact Hkey|]. split; [exact Hquiz|exact Hne].
Defined.

Lemma requests_of_run_Forall (P : Request -> Prop) (req : string -> Request) :
  (forall m, P (req m)) ->
  forall ms ks, Forall P (requests_of_run req ms ks).
Proof.
  intros HP ms. induction ms as [|m ms IH]; intros [|k ks];
    try (constructor; fail).
  unfold requests_of_run. cbn [combine map List.concat fst snd].
  apply Forall_app. split; [|apply IH].
  clear IH. induction k as [|k IHk]; constructor; auto.
Qed.

(** C4.  The history sent upstream by [sendMessage]: a leading entry of
    role [model] is left out and the rest is kept in order; an empty
    transcript or one that starts with a [user] entry is passed whole, in
    order.  Every request that a call of [sendMessage] sends carries this
    history. *)
Theorem sendMessage_history_shaping :
  forall (St : Type)
         (service : Request -> St -> Outcome GenerateContentResult * St)
         (env : Env) (history : list ChatMessage) (currentMessage : string)
         (files : list FileData) (s : Sys (Net St)),
    let upstream := map to_content (apiHistory history) in
    (forall first rest,
        history = first :: rest -> role first = role_model ->
        upstream = map to_content rest) /\
    (history = [] \/
     (exists first rest, history = first :: rest /\ role first = role_user) ->
     upstream = map to_content history) /\
    (exists added,
        requests (world (snd (sendMessage service env history currentMessage
                                files s))) =
        (requests (world s) ++ added)%list /\
        Forall (fun req => request_history req = Some upstream) added).
Proof.
  intros St service env history currentMessage files s upstream.
  split; [|split].
  - intros first rest -> Hrole. subst upstream. unfold apiHistory.
    rewrite Hrole. reflexivity.
  - intros [-> | [first [rest [-> Hrole]]]]; subst upstream; unfold apiHistory;
      [reflexivity | rewrite Hrole; reflexivity].
  - destruct (getApiKey env) as [|c key] eqn:Hkey.
    + exists []. rewrite sendMessage_missing_key by exact Hkey.
      rewrite app_nil_r. split; [reflexivity|constructor].
    + assert (Hne : getApiKey env <> "") by (rewrite Hkey; discriminate).
      rewrite (sendMessage_run service env history currentMessage files s Hne).
      destruct (loop_requests
                  (sendMessage_attempt service history currentMessage files
                     (getGenAI env))
                  sendMessage_report
                  (sendMessage_loop service history currentMessage files
                     (getGenAI env))
                  (fun m => chat_request (getGenAI env) m history
                              currentMessage files)
                  (least_chat_requests history)
                  (fun e0 s0 => eq_refl)
                  (sendMessage_loop_cons service history currentMessage files
                     (getGenAI env))
                  (sendMessage_attempt_requests service history currentMessage
                     files (getGenAI env))
                  MODELS JsUndefined s)
        as [ks [_ [_ [_ [_ Hreq]]]]].
      eexists. split.
      * destruct (sendMessage_loop _ _ _ _ _ _ _ s) as [[[v|e]|e] s1];
          exact Hreq.
      * apply requests_of_run_Forall. intro m. reflexivity.
Qed.

Lemma sendMessage_history_shaping_witness :
  [greeting; question; answer] = greeting :: [question; answer] /\
  role greeting = role_model /\
  map to_content (apiHistory [greeting; question; answer]) =
    [ {| content_role := role_user;
         parts := [TextPart "What is diffusion?"] |};
      {| content_role := role_model;
         parts := [TextPart "Diffusion is the spreading of particles."] |} ].
Proof.
  split; [reflexivity|]. split; [reflexivity|].
  exact (proj1 (sendMessage_history_shaping nat patchy_service keyed_env
                  [greeting; question; answer] "Explain osmosis" [] fresh_net)
           greeting [question; answer] eq_refl eq_refl).
Defined.

(** ** Output parsing *)

Lemma strip_fences_keep (c : ascii) (r : string) :
  is_backtick c = false ->
  strip_fences (String c r) = String c (strip_fences r).
Proof.
  intro Hc. destruct r as [|c2 [|c3 r3]]; cbn [strip_fences];
    try reflexivity.
  rewrite Hc. reflexivity.
Qed.

Lemma strip_fences_keep2 (c1 c2 : ascii) (r : string) :
  is_backtick c2 = false ->
  strip_fences (String c1 (String c2 r)) =
  String c1 (strip_fences (String c2 r)).
Proof.
  intro Hc. destruct r as [|c3 r3]; [reflexivity|].
  change (strip_fences (String c1 (String c2 (String c3 r3))))
    with (if is_backtick c1 && is_backtick c2 && is_backtick c3
          then match r3 with
               | String c4 (String c5 (String c6 (String c7 r7))) =>
                   if Ascii.eqb c4 "j" && Ascii.eqb c5 "s" &&
                      Ascii.eqb c6 "o" && Ascii.eqb c7 "n"
                   then strip_fences r7 else strip_fences r3
               | _ => strip_fences r3
               end
          else String c1 (strip_fences (String c2 (String c3 r3)))).
  rewrite Hc, andb_false_r. reflexivity.
Qed.

Lemma strip_fences_keep3 (c1 c2 c3 : ascii) (r : string) :
  is_backtick c3 = false ->
  strip_fences (String c1 (String c2 (String c3 r))) =
  String c1 (strip_fences (String c2 (String c3 r))).
Proof.
  intro Hc.
  change (strip_fences (String c1 (String c2 (String c3 r))))
    with (if is_backtick c1 && is_backtick c2 && is_backtick c3
          then match r with
               | String c4 (String c5 (String c6 (String c7 r7))) =>
                   if Ascii.eqb c4 "j" && Ascii.eqb c5 "s" &&
                      Ascii.eqb c6 "o" && Ascii.eqb c7 "n"
                   then strip_fences r7 else strip_fences r
               | _ => strip_fences r
               end
          else String c1 (strip_fences (String c2 (String c3 r)))).
  rewrite Hc, andb_false_r. reflexivity.
Qed.

(** Unfolding at three characters. *)
Lemma strip_fences_three (c1 c2 c3 : ascii) (r : string) :
  strip_fences (String c1 (String c2 (String c3 r))) =
  if is_backtick c1 && is_backtick c2 && is_backtick c3
  then match r with
       | String c4 (String c5 (String c6 (String c7 r7))) =>
           if Ascii.eqb c4 "j" && Ascii.eqb c5 "s" &&
              Ascii.eqb c6 "o" && Ascii.eqb c7 "n"
           then strip_fences r7 else strip_fences r
       | _ => strip_fences r
       end
  else String c1 (strip_fences (String c2 (String c3 r))).
Proof. reflexivity. Qed.

(** A barrier character splits the text: fences are removed on either
    side independently. *)
Lemma strip_fences_barrier (c0 : ascii) (s : string) :
  barrier c0 ->
  forall (n : nat) (t : string),
    (String.length t < n)%nat ->
    strip_fences (t ++ String c0 s) =
    strip_fences t ++ String c0 (strip_fences s).
Proof.
  intros [Htick [Hj [Hs [Ho Hn]]]].
  induction n as [|n IH]; intros t Hlen; [lia|].
  destruct t as [|c1 [|c2 [|c3 r3]]]; cbn [append].
  - apply strip_fences_keep. exact Htick.
  - rewrite strip_fences_keep2 by exact Htick.
    rewrite strip_fences_keep by exact Htick. reflexivity.
  - rewrite strip_fences_keep3 by exact Htick.
    rewrite strip_fences_keep2 by exact Htick.
    rewrite strip_fences_keep by exact Htick. reflexivity.
  - rewrite !strip_fences_three.
    cbn [String.length] in Hlen.
    destruct (is_backtick c1 && is_backtick c2 && is_backtick c3).
    + destruct r3 as [|c4 [|c5 [|c6 [|c7 r7]]]]; cbn [append].
      * transitivity (strip_fences (String c0 s)).
        -- rewrite Hj. cbn [andb].
           destruct s as [|d5 [|d6 [|d7 r7]]]; reflexivity.
        -- apply strip_fences_keep. exact Htick.
      * transitivity (strip_fences (String c4 (String c0 s))).
        -- rewrite Hs, andb_false_r. cbn [andb].
           destruct s as [|d6 [|d7 r7]]; reflexivity.
        -- apply (IH (String c4 "")). cbn [String.length] in *. lia.
      * transitivity (strip_fences (String c4 (String c5 (String c0 s)))).
        -- rewrite Ho, andb_false_r. cbn [andb].
           destruct s as [|d7 r7]; reflexivity.
        -- apply (IH (String c4 (String c5 ""))). cbn [String.length] in *. lia.
      * rewrite Hn, andb_false_r.
        apply (IH (String c4 (String c5 (String c6 "")))). cbn [String.length] in *. lia.
      * destruct (Ascii.eqb c4 "j" && Ascii.eqb c5 "s" &&
                  Ascii.eqb c6 "o" && Ascii.eqb c7 "n").
        -- apply IH. cbn [String.length] in Hlen. lia.
        -- apply (IH (String c4 (String c5 (String c6 (String c7 r7))))).
           cbn [String.length] in *. lia.
    + cbn [append]. f_equal.
      apply (IH (String c2 (String c3 r3))). cbn [String.length]. lia.
Qed.

Lemma nl_barrier : barrier (ascii_of_nat 10).
Proof. repeat split. Qed.

Lemma strip_fences_fenced (t : string) :
  strip_fences (fenced t) = nl ++ strip_fences t ++ nl.
Proof.
  unfold fenced, nl. cbn [append].
  rewrite strip_fences_three. cbn [is_backtick Ascii.eqb Bool.eqb andb].
  rewrite strip_fences_keep by reflexivity.
  rewrite (strip_fences_barrier _ _ nl_barrier (S (String.length t)) t)
    by lia.
  reflexivity.
Qed.

Lemma trimEnd_app_nl (s : string) : trimEnd (s ++ nl) = trimEnd s.
Proof.
  induction s as [|c s IH]; [reflexivity|].
  cbn [append trimEnd]. rewrite IH. reflexivity.
Qed.

Lemma trim_between_newlines (s : string) : trim (nl ++ s ++ nl) = trim s.
Proof.
  unfold trim. change (trimStart (nl ++ s ++ nl)) with (trimStart (s ++ nl)).
  induction s as [|c s IH]; [reflexivity|].
  cbn [append trimStart]. destruct (is_trim_space c); [exact IH|].
  apply (trimEnd_app_nl (String c s)).
Qed.

Lemma clean_response_fenced (t : string) :
  clean_response (fenced t) = clean_response t.
Proof.
  unfold clean_response. rewrite strip_fences_fenced.
  apply trim_between_newlines.
Qed.

Section FencedAnswers.

Variable syntaxErrorMessage : string -> string.
Variable env : Env.
Variable t : string.

Lemma generateQuiz_attempt_fenced prompt fileData m (s : Sys (Net nat)) :
  generateQuiz_attempt (answering_service (fenced t)) syntaxErrorMessage env
    prompt fileData m s =
  generateQuiz_attempt (answering_service t) syntaxErrorMessage env prompt
    fileData m s.
Proof.
  unfold generateQuiz_attempt, withRetry_default, withRetry.
  change (Z.to_nat 3) with 3%nat. cbn [withRetry_loop].
  unfold bind, emit, try_catch, invoke, call, answering_service, of_outcome,
    JSON_parse_or_throw.
  cbn [world log_event service_state response_text requests trace].
  rewrite clean_response_fenced. reflexivity.
Qed.

Lemma generateFlashcards_attempt_fenced prompt fileData m (s : Sys (Net nat)) :
  generateFlashcards_attempt (answering_service (fenced t)) syntaxErrorMessage
    env prompt fileData m s =
  generateFlashcards_attempt (answering_service t) syntaxErrorMessage env
    prompt fileData m s.
Proof.
  unfold generateFlashcards_attempt, withRetry_default, withRetry.
  change (Z.to_nat 3) with 3%nat. cbn [withRetry_loop].
  unfold bind, emit, try_catch, invoke, call, answering_service, of_outcome,
    JSON_parse_or_throw.
  cbn [world log_event service_state response_text requests trace].
  rewrite clean_response_fenced. reflexivity.
Qed.

Lemma generateQuiz_loop_fenced prompt fileData :
  forall ms e0 (s : Sys (Net nat)),
    generateQuiz_loop (answering_service (fenced t)) syntaxErrorMessage env
      prompt fileData ms e0 s =
    generateQuiz_loop (answering_service t) syntaxErrorMessage env prompt
      fileData ms e0 s.
Proof.
  induction ms as [|m ms IH]; intros e0 s; [reflexivity|].
  rewrite !generateQuiz_loop_cons, generateQuiz_attempt_fenced.
  destruct (generateQuiz_attempt _ _ _ _ _ m s) as [[v|e] s1];
    [reflexivity|apply IH].
Qed.

Lemma generateFlashcards_loop_fenced prompt fileData :
  forall ms e0 (s : Sys (Net nat)),
    generateFlashcards_loop (answering_service (fenced t)) syntaxErrorMessage
      env prompt fileData ms e0 s =
    generateFlashcards_loop (answering_service t) syntaxErrorMessage env
      prompt fileData ms e0 s.
Proof.
  induction ms as [|m ms IH]; intros e0 s; [reflexivity|].
  rewrite !generateFlashcards_loop_cons, generateFlashcards_attempt_fenced.
  destruct (generateFlashcards_attempt _ _ _ _ _ m s) as [[v|e] s1];
    [reflexivity|apply IH].
Qed.

End FencedAnswers.

(** C6.  A response wrapped in a [json] code fence is cleaned to the same
    text as the bare response, so [JSON.parse] is given the same input and
    the parsing step of [generateQuiz] and [generateFlashcards] yields the
    same value, or fails alike; a service that answers with the wrapped
    text makes both operations behave as with the bare text. *)
Theorem fenced_response_parses_alike :
  forall (t : string),
    fenced t = "```json" ++ nl ++ t ++ nl ++ "```" /\
    clean_response (fenced t) = clean_response t /\
    parse_response (fenced t) = parse_response t /\
    (forall syntaxErrorMessage env topic fileData difficulty count
            (s : Sys (Net nat)),
        generateQuiz (answering_service (fenced t)) syntaxErrorMessage env
          topic fileData difficulty count s =
        generateQuiz (answering_service t) syntaxErrorMessage env topic
          fileData difficulty count s) /\
    (forall syntaxErrorMessage env topic fileData count (s : Sys (Net nat)),
        generateFlashcards (answering_service (fenced t)) syntaxErrorMessage
          env topic fileData count s =
        generateFlashcards (answering_service t) syntaxErrorMessage env topic
          fileData count s).
Proof.
  intro t.
  split; [reflexivity|]. split; [apply clean_response_fenced|].
  split; [|split].
  - unfold parse_response. rewrite clean_response_fenced. reflexivity.
  - intros syntaxErrorMessage env topic fileData difficulty count s.
    rewrite !generateQuiz_run, generateQuiz_loop_fenced. reflexivity.
  - intros syntaxErrorMessage env topic fileData count s.
    rewrite !generateFlashcards_run, generateFlashcards_loop_fenced.
    reflexivity.
Qed.

(** *** No fence survives the stripping *)

Lemma prefix_empty (u : string) : String.prefix "" u = true.
Proof. destruct u; reflexivity. Qed.

Lemma prefix_tick_cons (a : ascii) (rest u : string) :
  String.prefix (String "`" rest) (String a u) =
  is_backtick a && String.prefix rest u.
Proof.
  cbn [String.prefix]. unfold is_backtick.
  destruct (ascii_dec "`" a) as [<-|Hneq].
  - rewrite Ascii.eqb_refl. reflexivity.
  - destruct (Ascii.eqb_spec a "`") as [->|_]; [congruence|reflexivity].
Qed.

Lemma prefix_fence (u : string) :
  String.prefix "```" u =
  match u with
  | String a (String b (String c _)) =>
      is_backtick a && is_backtick b && is_backtick c
  | _ => false
  end.
Proof.
  destruct u as [|a [|b [|c u']]]; rewrite ?prefix_tick_cons.
  - reflexivity.
  - cbn [String.prefix]. apply andb_false_r.
  - cbn [String.prefix]. rewrite !andb_false_r. reflexivity.
  - rewrite prefix_empty, andb_true_r, andb_assoc. reflexivity.
Qed.

Lemma includes_fence_cons (a : ascii) (u : string) :
  includes (String a u) "```" =
  is_backtick a && starts_with_two_ticks u || includes u "```".
Proof.
  cbn [includes]. rewrite prefix_fence. f_equal.
  destruct u as [|b [|c u']]; cbn [starts_with_two_ticks starts_with_tick];
    rewrite ?andb_false_r; try reflexivity.
  rewrite andb_assoc. reflexivity.
Qed.

Lemma strip_fences_head (r : string) :
  starts_with_tick (strip_fences r) = true -> starts_with_tick r = true.
Proof.
  destruct r as [|c1 [|c2 [|c3 r3]]]; try (intro H; exact H).
  rewrite strip_fences_three. cbn [starts_with_tick].
  destruct (is_backtick c1) eqn:H1; [reflexivity|].
  cbn [andb starts_with_tick]. rewrite H1. intro H; exact H.
Qed.

Lemma strip_fences_head2 (r : string) :
  starts_with_two_ticks (strip_fences r) = true ->
  starts_with_two_ticks r = true.
Proof.
  destruct r as [|c1 [|c2 [|c3 r3]]]; try (intro H; exact H).
  rewrite strip_fences_three. cbn [starts_with_two_ticks starts_with_tick].
  destruct (is_backtick c1 && is_backtick c2 && is_backtick c3) eqn:Hfence.
  - intros _. apply andb_true_iff in Hfence. destruct Hfence as [H12 _].
    exact H12.
  - cbn [starts_with_two_ticks]. intro H. apply andb_true_iff in H.
    destruct H as [H1 Hrest]. apply strip_fences_head in Hrest.
    cbn [starts_with_tick] in Hrest. rewrite H1, Hrest. reflexivity.
Qed.

Lemma strip_fences_no_fence :
  forall (n : nat) (s : string),
    (String.length s < n)%nat ->
    includes (strip_fences s) "```" = false.
Proof.
  induction n as [|n IH]; intros s Hlen; [lia|].
  destruct s as [|c1 [|c2 [|c3 r3]]].
  - reflexivity.
  - cbn [strip_fences]. rewrite includes_fence_cons. cbn.
    rewrite andb_false_r. reflexivity.
  - cbn [strip_fences]. rewrite !includes_fence_cons. cbn.
    rewrite !andb_false_r. reflexivity.
  - rewrite strip_fences_three. cbn [String.length] in Hlen.
    destruct (is_backtick c1 && is_backtick c2 && is_backtick c3) eqn:Hfence.
    + destruct r3 as [|c4 [|c5 [|c6 [|c7 r7]]]];
        try (apply IH; cbn [String.length] in *; lia).
      destruct (Ascii.eqb c4 "j" && Ascii.eqb c5 "s" && Ascii.eqb c6 "o" &&
                Ascii.eqb c7 "n");
        apply IH; cbn [String.length] in *; lia.
    + rewrite includes_fence_cons.
      rewrite (IH (String c2 (String c3 r3)))
        by (cbn [String.length]; lia).
      rewrite orb_false_r.
      destruct (is_backtick c1) eqn:H1; [|reflexivity].
      destruct (starts_with_two_ticks (strip_fences (String c2 (String c3 r3))))
        eqn:H2; [|reflexivity].
      apply strip_fences_head2 in H2.
      cbn [starts_with_two_ticks starts_with_tick] in H2.
      apply andb_true_iff in H2. destruct H2 as [H2 H3].
      rewrite H2, H3 in Hfence. cbn [andb] in Hfence. congruence.
Qed.

(** C10.  The stripping removes the fences wherever they stand: no
    [```] is left in the cleaned text, also when it stood inside a JSON
    string.  For the response [markdown_quiz], whose strings contain
    [```], both operations return a value that differs from the direct
    parse of the response. *)
Theorem fence_stripping_is_global :
  (forall text, includes (strip_fences text) "```" = false) /\
  includes markdown_quiz "```" = true /\
  JSON_parse markdown_quiz = Some (markdown_quiz_parsed "```") /\
  (forall topic fileData difficulty count,
      fst (generateQuiz (answering_service markdown_quiz) engine_message
             keyed_env topic fileData difficulty count fresh_net) =
      Return (markdown_quiz_parsed "")) /\
  (forall topic fileData count,
      fst (generateFlashcards (answering_service markdown_quiz) engine_message
             keyed_env topic fileData count fresh_net) =
      Return (markdown_quiz_parsed "")) /\
  markdown_quiz_parsed "" <> markdown_quiz_parsed "```".
Proof.
  split; [|split; [|split; [|split; [|split]]]].
  - intro text.
    apply (strip_fences_no_fence (S (String.length text))). lia.
  - vm_compute. reflexivity.
  - vm_compute. reflexivity.
  - intros topic fileData difficulty count. vm_compute. reflexivity.
  - intros topic fileData count. vm_compute. reflexivity.
  - unfold markdown_quiz_parsed. intro H. inversion H.
Qed.


(** An escape [\uXXXX] denotes its code unit, whatever its number; an
    escaped pair of surrogates gives the two code units. *)
Example escaped_code_units :
  JSON_parse (String.concat ""
                ["{"; dq; "a"; dq; ":"; dq; backslash; "u2014"; dq; "}"]) =
    Some (JObject [(units "a", JString [8212%N])]) /\
  JSON_parse (String.concat ""
                [dq; backslash; "uD83D"; backslash; "ude00"; backslash; "n";
                 dq]) =
    Some (JString [55357%N; 56832%N; 10%N]) /\
  JSON_parse (String.concat "" [dq; backslash; "u20"; dq]) = None.
Proof. repeat split; vm_compute; reflexivity. Qed.

(** ** The quiz scenario *)

(** The first candidate answers with the fenced quiz: the operation
    returns the parsed object after a single request. *)
Example quiz_scenario :
  generateQuiz (answering_service (fenced photosynthesis_quiz)) engine_message
    keyed_env "Photosynthesis" None "easy" 3 fresh_net =
  (Return
     (JRecord
        [("questions",
          JArray
            [JRecord
               [("question", JText "What pigment absorbs light?");
                ("options",
                 JArray [JText "Chlorophyll"; JText "Keratin";
                         JText "Melanin"]);
                ("answer", JText "Chlorophyll")]])]),
   {| world :=
        {| service_state := 1%nat;
           requests :=
             [content_request keyed_env "gemini-flash-latest"
                (quiz_prompt "Photosynthesis" None "easy" 3) None] |};
      trace :=
        [Log "Attempting quiz generation with model: gemini-flash-latest";
         Invoke] |}).
Proof. vm_compute. reflexivity. Qed.

(** A response that is not JSON makes the candidate fail like any other
    failure: every candidate is asked once and the generic failure carries
    the text of the last [SyntaxError]. *)
Example unparsable_answers :
  fst (generateQuiz (answering_service "Sorry, I cannot help.") engine_message
         keyed_env "Photosynthesis" None "easy" 3 fresh_net) =
    Throw (Error (GENERIC_QUIZ_PREFIX ++ "Unexpected token in JSON")) /\
  requested_models
    (requests (world (snd (generateQuiz
                             (answering_service "Sorry, I cannot help.")
                             engine_message keyed_env "Photosynthesis" None
                             "easy" 3 fresh_net)))) = MODELS.
Proof. split; vm_compute; reflexivity. Qed.

(** * Further properties *)

(** ** [withRetry]: runs that end before the attempts are used up *)

Section WithRetryRuns.

Context {W T : Type}.
Variable fn : Op W T.
Variables maxRetries initialDelay : Z.

(** After [k] retryable failures the loop is where it would be had it
    been started at attempt [k0 + k]. *)
Lemma withRetry_loop_skip (w0 : W) :
  forall (k n k0 : nat) (lastError : JsVal) (s : Sys W),
    world s = world_after fn k0 w0 ->
    (forall j, (k0 <= j < k0 + k)%nat -> fails_retryably fn j w0) ->
    exists lastError',
      withRetry_loop fn maxRetries initialDelay (k + n) (Z.of_nat k0)
        lastError s =
      withRetry_loop fn maxRetries initialDelay n (Z.of_nat (k0 + k))
        lastError'
        {| world := world_after fn (k0 + k) w0;
           trace := trace s ++
                    flat_map
                      (failed_attempt_events fn w0 maxRetries initialDelay)
                      (seq k0 k) |}.
Proof.
  induction k as [|k IH]; intros n k0 lastError s Hw Hfail.
  - exists lastError. cbn [Nat.add seq flat_map].
    rewrite Nat.add_0_r, app_nil_r, <- Hw. destruct s; reflexivity.
  - destruct (Hfail k0 ltac:(lia)) as [e [Hout Hre]].
    assert (Hfa : failure_at fn k0 w0 = e)
      by (unfold failure_at; rewrite Hout; reflexivity).
    unfold outcome_at in Hout. rewrite <- Hw in Hout.
    cbn [Nat.add withRetry_loop]. unfold try_catch at 1.
    rewrite invoke_run, Hout, Hre.
    unfold bind at 1, emit at 1. unfold bind at 1, emit at 1.
    unfold log_event. cbn [world trace].
    replace (Z.of_nat k0 + 1) with (Z.of_nat (S k0)) by lia.
    match goal with
    | |- context [withRetry_loop _ _ _ (k + n) _ ?e' ?s'] =>
        destruct (IH n (S k0) e' s') as [lastError' Hloop]
    end.
    + cbn [world]. rewrite world_after_S, Hw. reflexivity.
    + intros j Hj. apply Hfail. lia.
    + exists lastError'. rewrite Hloop. f_equal.
      * f_equal. lia.
      * cbn [world trace seq flat_map]. f_equal; [f_equal; lia|].
        unfold failed_attempt_events at 2. rewrite Hfa.
        rewrite <- !app_assoc. cbn [app].
        replace (Z.of_nat k0 + 1) with (Z.of_nat (S k0)) by lia.
        reflexivity.
Qed.

End WithRetryRuns.

(** X1.  [withRetry] stops at the first attempt that succeeds or fails
    with a failure that is not retryable: when the attempts before the
    attempt number [k] (below [maxRetries]) fail retryably and that one is
    decisive, the outcome of [withRetry] is the outcome of that attempt,
    the operation has been invoked [k + 1] times, and the waits are the
    [k] backoff delays of the failed attempts. *)
Theorem withRetry_stops_at_first_decisive :
  forall (W T : Type) (fn : Op W T) (maxRetries initialDelay : Z) (s : Sys W)
         (k : nat),
    (k < Z.to_nat maxRetries)%nat ->
    (forall j, (j < k)%nat -> fails_retryably fn j (world s)) ->
    decisive (outcome_at fn k (world s)) ->
    let rounds :=
      flat_map (failed_attempt_events fn (world s) maxRetries initialDelay)
               (seq 0 k) in
    withRetry fn maxRetries initialDelay s =
      (outcome_at fn k (world s),
       {| world := world_after fn (S k) (world s);
          trace := trace s ++ rounds ++ [Invoke] |}) /\
    invocations (rounds ++ [Invoke]) = S k /\
    delays (rounds ++ [Invoke]) = map (backoff initialDelay) (seq 0 k).
Proof.
  intros W T fn maxRetries initialDelay s k Hk Hfail Hdec rounds.
  split; [|split].
  - unfold withRetry.
    replace (Z.to_nat maxRetries)
      with (k + S (Z.to_nat maxRetries - S k))%nat by lia.
    destruct (withRetry_loop_skip fn maxRetries initialDelay (world s) k
                (S (Z.to_nat maxRetries - S k)) 0 JsUndefined s eq_refl)
      as [lastError' Hloop].
    { intros j Hj. apply Hfail. lia. }
    cbn [Z.of_nat] in Hloop. rewrite Hloop.
    cbn [withRetry_loop Nat.add]. unfold try_catch.
    rewrite invoke_run. cbn [world trace].
    rewrite world_after_S. fold (outcome_at fn k (world s)).
    destruct (outcome_at fn k (world s)) as [a|e].
    + rewrite <- app_assoc. reflexivity.
    + cbn [decisive] in Hdec. rewrite Hdec. rewrite <- app_assoc. reflexivity.
  - subst rounds. rewrite invocations_app, failed_attempts_invocations.
    cbn. lia.
  - subst rounds. rewrite delays_app, failed_attempts_delays.
    cbn [delays]. rewrite app_nil_r. reflexivity.
Qed.

Lemma withRetry_stops_at_first_decisive_witness :
  (1 < Z.to_nat 3)%nat /\
  (forall j, (j < 1)%nat ->
             fails_retryably (scripted [Throw rate_limited] (Return "ok")) j
               0%nat) /\
  withRetry (scripted [Throw rate_limited] (Return "ok")) 3 1000 (start 0%nat) =
    (Return "ok",
     {| world := 2%nat;
        trace := [Invoke; Warn 1 3 1000 (Some "Too Many Requests"); Sleep 1000;
                  Invoke] |}).
Proof.
  assert (Hk : (1 < Z.to_nat 3)%nat) by (cbn; lia).
  assert (Hfail : forall j, (j < 1)%nat ->
                    fails_retryably (scripted [Throw rate_limited] (Return "ok"))
                      j (world (start 0%nat))).
  { intros j Hj. replace j with 0%nat by lia. eexists; split; reflexivity. }
  split; [exact Hk|]. split; [exact Hfail|].
  exact (proj1 (withRetry_stops_at_first_decisive nat string
                  (scripted [Throw rate_limited] (Return "ok")) 3 1000
                  (start 0%nat) 1 Hk Hfail I)).
Defined.

(** ** [withRetry]: bounds that hold in every run *)

Lemma backoff_sum (initialDelay : Z) :
  forall k i0,
    fold_right Z.add 0 (map (backoff initialDelay) (seq i0 k)) =
    initialDelay * 2 ^ Z.of_nat i0 * (2 ^ Z.of_nat k - 1).
Proof.
  induction k as [|k IH]; intro i0.
  - cbn. ring.
  - cbn [seq map fold_right]. rewrite IH. unfold backoff.
    rewrite !Nat2Z.inj_succ, !Z.pow_succ_r by lia. ring.
Qed.

Section WithRetryBounds.

Context {W T : Type}.
Variable fn : Op W T.
Variables maxRetries initialDelay : Z.

Lemma withRetry_loop_bounded :
  forall (n i0 : nat) (lastError : JsVal) (s : Sys W),
  exists added k,
    trace (snd (withRetry_loop fn maxRetries initialDelay n (Z.of_nat i0)
                  lastError s)) = (trace s ++ added)%list /\
    (k <= n)%nat /\
    delays added = map (backoff initialDelay) (seq i0 k) /\
    (k <= invocations added <= n)%nat /\
    (invocations added <= S k)%nat.
Proof.
  induction n as [|n IH]; intros i0 lastError s.
  - exists [], 0%nat. cbn. rewrite app_nil_r. repeat split; lia.
  - cbn [withRetry_loop]. unfold try_catch. rewrite invoke_run.
    destruct (fst (fn (world s))) as [a|e].
    + exists [Invoke], 0%nat. cbn. repeat split; lia.
    + destruct (retryable e).
      * unfold bind at 1, emit at 1. unfold bind at 1, emit at 1.
        unfold log_event. cbn [world trace].
        replace (Z.of_nat i0 + 1) with (Z.of_nat (S i0)) by lia.
        match goal with
        | |- context [withRetry_loop _ _ _ n _ ?e' ?s'] =>
            destruct (IH (S i0) e' s')
              as [added [k [Htr [Hle [Hdel [Hinv Hinv']]]]]]
        end.
        exists ([Invoke;
                 Warn (Z.of_nat (S i0)) maxRetries
                   (initialDelay * 2 ^ Z.of_nat i0) (get_message e);
                 Sleep (initialDelay * 2 ^ Z.of_nat i0)] ++ added)%list,
               (S k).
        rewrite Htr. cbn [trace]. rewrite <- !app_assoc.
        split; [reflexivity|]. split; [lia|]. split.
        -- cbn [app delays sleep_of seq map]. rewrite Hdel. reflexivity.
        -- rewrite invocations_app.
           change (invocations [Invoke; Warn _ _ _ _; Sleep _]) with 1%nat.
           lia.
      * exists [Invoke], 0%nat. cbn. repeat split; lia.
Qed.

End WithRetryBounds.

(** X2.  In every run, whatever the operation does: [withRetry] invokes
    the operation at most [maxRetries] times, awaits only after a failed
    invocation, the delays awaited are the first [k] backoff delays
    [initialDelay * 2 ^ i] for some [k] not above [maxRetries], and the
    time spent waiting is [initialDelay * (2 ^ k - 1)]. *)
Theorem withRetry_bounded :
  forall (W T : Type) (fn : Op W T) (maxRetries initialDelay : Z) (s : Sys W),
  exists added k,
    trace (snd (withRetry fn maxRetries initialDelay s)) =
      (trace s ++ added)%list /\
    (k <= Z.to_nat maxRetries)%nat /\
    (k <= invocations added <= Z.to_nat maxRetries)%nat /\
    (invocations added <= S k)%nat /\
    delays added = map (backoff initialDelay) (seq 0 k) /\
    total_delay added = initialDelay * (2 ^ Z.of_nat k - 1).
Proof.
  intros W T fn maxRetries initialDelay s. unfold withRetry.
  destruct (withRetry_loop_bounded fn maxRetries initialDelay
              (Z.to_nat maxRetries) 0 JsUndefined s)
    as [added [k [Htr [Hle [Hdel [Hinv Hinv']]]]]].
  exists added, k. cbn [Z.of_nat] in Htr.
  repeat split; try assumption; try lia.
  unfold total_delay. rewrite Hdel, backoff_sum. cbn [Z.of_nat]. ring.
Qed.

(** ** What the three operations throw *)

Lemma sendMessage_failure_is_Error (lastError : JsVal) :
  exists msg,
    sendMessage_failure lastError = Error msg /\ chat_failure_message msg.
Proof.
  unfold sendMessage_failure, chat_failure_message.
  destruct (message_includes lastError "quota").
  - eexists; split; [reflexivity|]. left; reflexivity.
  - destruct (status_is (get_status lastError) 404 ||
              message_includes lastError "not found").
    + eexists; split; [reflexivity|]. right; left; reflexivity.
    + eexists; split; [reflexivity|]. right; right. eexists; reflexivity.
Qed.

Lemma chat_failure_not_missing_key (msg : string) :
  chat_failure_message msg -> msg <> MISSING_KEY_MESSAGE.
Proof.
  intros [-> | [-> | [text ->]]]; discriminate.
Qed.

(** The history that [sendMessage] hands to [startChat] is rejected
    exactly when the transcript starts with two turns of the model. *)
Lemma upstream_history_cases (history : list ChatMessage) :
  let upstream := map to_content (apiHistory history) in
  (validateChatHistory upstream = None /\
   forall first second rest,
     history = first :: second :: rest ->
     role first = role_user \/ role second = role_user) \/
  (validateChatHistory upstream = Some (Error FIRST_CONTENT_MESSAGE) /\
   exists first second rest,
     history = first :: second :: rest /\
     role first = role_model /\ role second = role_model).
Proof.
  cbv zeta. destruct history as [|first [|second rest]].
  - left. split; [reflexivity|]. intros ? ? ? H; discriminate.
  - left. split; [|intros ? ? ? H; discriminate].
    unfold apiHistory. destruct (role first) eqn:Hfirst; cbn;
      [rewrite Hfirst|]; reflexivity.
  - unfold apiHistory. destruct (role first) eqn:Hfirst.
    + left. split; [cbn; rewrite Hfirst; reflexivity|].
      intros a b r H. injection H as <- <- <-. left. exact Hfirst.
    + destruct (role second) eqn:Hsecond.
      * left. split; [cbn; rewrite Hsecond; reflexivity|].
        intros a b r H. injection H as <- <- <-. right. exact Hsecond.
      * right. split; [cbn; rewrite Hsecond; reflexivity|].
        exists first, second, rest. repeat split; assumption.
Qed.

Section RejectedHistory.

Context {St : Type}.
Variable service : Request -> St -> Outcome GenerateContentResult * St.
Variable env : Env.
Variable history : list ChatMessage.
Variable currentMessage : string.
Variable files : list FileData.

(** When [startChat] rejects the history every candidate fails before
    anything is sent. *)
Lemma sendMessage_loop_rejected (e : JsVal) :
  validateChatHistory (map to_content (apiHistory history)) = Some e ->
  forall ms e0 (s : Sys (Net St)),
    fst (sendMessage_loop service history currentMessage files (getGenAI env)
           ms e0 s) =
      Return (inr match ms with [] => e0 | _ :: _ => e end) /\
    world (snd (sendMessage_loop service history currentMessage files
                  (getGenAI env) ms e0 s)) = world s.
Proof.
  intro Hrejected. induction ms as [|m ms IH]; intros e0 s.
  - split; reflexivity.
  - rewrite sendMessage_loop_cons, sendMessage_attempt_run. cbv zeta.
    rewrite Hrejected.
    destruct (IH e (log_event (sendMessage_report m e)
                      (log_event
                         (Log ("Attempting message with model: " ++ m)) s)))
      as [Hout Hworld].
    split.
    + rewrite Hout. destruct ms; reflexivity.
    + rewrite Hworld. reflexivity.
Qed.

Lemma sendMessage_rejected (e : JsVal) (s : Sys (Net St)) :
  getApiKey env <> "" ->
  validateChatHistory (map to_content (apiHistory history)) = Some e ->
  fst (sendMessage service env history currentMessage files s) =
    Throw (sendMessage_failure e) /\
  world (snd (sendMessage service env history currentMessage files s)) =
    world s.
Proof.
  intros Hkey Hrejected.
  rewrite (sendMessage_run service env history currentMessage files s Hkey).
  destruct (sendMessage_loop_rejected e Hrejected MODELS JsUndefined s)
    as [Hout Hworld].
  destruct (sendMessage_loop _ _ _ _ _ _ _ s) as [[[text|lastError]|e'] s1];
    cbn [fst snd] in *; try discriminate.
  injection Hout as ->. split; [reflexivity|exact Hworld].
Qed.

End RejectedHistory.

(** X3.  [sendMessage] fails with the missing-key message exactly when no
    key is configured, and then it has sent nothing and logged nothing.
    With a key, it sends at least the request for the first candidate,
    unless [startChat] rejects the history: this happens exactly when the
    transcript starts with two turns of the model, and then no request is
    sent and the failure is the generic one carrying the message of the
    SDK. *)
Theorem sendMessage_missing_key_iff :
  forall (St : Type)
         (service : Request -> St -> Outcome GenerateContentResult * St)
         (env : Env) (history : list ChatMessage) (currentMessage : string)
         (files : list FileData) (s : Sys (Net St)),
    let run := sendMessage service env history currentMessage files s in
    let upstream := map to_content (apiHistory history) in
    (fst run = Throw (Error MISSING_KEY_MESSAGE) <-> getApiKey env = "") /\
    (getApiKey env = "" -> snd run = s) /\
    (getApiKey env <> "" ->
     (forall first second rest,
         history = first :: second :: rest ->
         role first = role_user \/ role second = role_user) ->
     validateChatHistory upstream = None /\
     exists more,
       requests (world (snd run)) =
       (requests (world s) ++
        chat_request (getGenAI env) "gemini-flash-latest" history
          currentMessage files :: more)%list) /\
    (getApiKey env <> "" ->
     forall first second rest,
       history = first :: second :: rest ->
       role first = role_model -> role second = role_model ->
       validateChatHistory upstream = Some (Error FIRST_CONTENT_MESSAGE) /\
       fst run = Throw (Error (GENERIC_CHAT_PREFIX ++ FIRST_CONTENT_MESSAGE)) /\
       world (snd run) = world s).
Proof.
  intros St service env history currentMessage files s run upstream.
  assert (Hwith : getApiKey env <> "" ->
                  fst run <> Throw (Error MISSING_KEY_MESSAGE)).
  { intros Hkey. subst run.
    rewrite (sendMessage_run service env history currentMessage files s Hkey).
    destruct (loop_returns _ _ _ (fun e0 s0 => eq_refl)
                (sendMessage_loop_cons service history currentMessage files
                   (getGenAI env)) MODELS JsUndefined s) as [r Hr].
    destruct (sendMessage_loop _ _ _ _ _ _ _ s) as [[[text|lastError]|e] s1];
      cbn [fst] in *; try discriminate.
    destruct (sendMessage_failure_is_Error lastError) as [msg [-> Hmsg]].
    intro Heq. apply (chat_failure_not_missing_key msg Hmsg).
    injection Heq as Heq. exact Heq. }
  split; [|split; [|split]].
  - split.
    + intro Hthrow. destruct (string_dec (getApiKey env) "") as [Hk|Hk];
        [exact Hk|]. exfalso. exact (Hwith Hk Hthrow).
    + intro Hkey. subst run.
      rewrite (sendMessage_missing_key service env history currentMessage
                 files s Hkey). reflexivity.
  - intro Hkey. subst run.
    rewrite (sendMessage_missing_key service env history currentMessage files
               s Hkey). reflexivity.
  - intros Hkey Hshape.
    assert (Hvalid : validateChatHistory upstream = None).
    { destruct (upstream_history_cases history)
        as [[Hv _] | [_ [a [b [r [Hh [Ha Hb]]]]]]]; [exact Hv|].
      destruct (Hshape a b r Hh) as [H|H]; congruence. }
    split; [exact Hvalid|]. subst run.
    assert (Hleast : least_chat_requests history = 1%nat).
    { unfold least_chat_requests. fold upstream. rewrite Hvalid.
      reflexivity. }
    rewrite (sendMessage_run service env history currentMessage files s Hkey).
    destruct (loop_requests
                (sendMessage_attempt service history currentMessage files
                   (getGenAI env))
                sendMessage_report
                (sendMessage_loop service history currentMessage files
                   (getGenAI env))
                (fun m => chat_request (getGenAI env) m history
                            currentMessage files)
                (least_chat_requests history)
                (fun e0 s0 => eq_refl)
                (sendMessage_loop_cons service history currentMessage files
                   (getGenAI env))
                (sendMessage_attempt_requests service history currentMessage
                   files (getGenAI env))
                MODELS JsUndefined s)
      as [ks [_ [Hne [Hall [_ Hreq]]]]].
    rewrite Hleast in Hall.
    destruct ks as [|k ks]; [exfalso; apply Hne; [discriminate|reflexivity]|].
    inversion Hall as [|k' ks' Hk _]; subst.
    destruct k as [|k]; [lia|].
    eexists.
    replace (requests (world (snd _)))
      with (requests
              (world (snd (sendMessage_loop service history currentMessage
                             files (getGenAI env) MODELS JsUndefined s)))).
    + rewrite Hreq. unfold requests_of_run, MODELS.
      cbn [combine map List.concat fst snd repeat app]. reflexivity.
    + destruct (sendMessage_loop _ _ _ _ _ _ _ s) as [[[v|e]|e] s1];
        reflexivity.
  - intros Hkey first second rest Hh Hfirst Hsecond.
    assert (Hrejected :
              validateChatHistory upstream = Some (Error FIRST_CONTENT_MESSAGE)).
    { destruct (upstream_history_cases history)
        as [[_ Hshape] | [Hv _]]; [|exact Hv].
      destruct (Hshape first second rest Hh) as [H|H]; congruence. }
    split; [exact Hrejected|]. subst run.
    destruct (sendMessage_rejected service env history currentMessage files
                (Error FIRST_CONTENT_MESSAGE) s Hkey Hrejected)
      as [Hout Hworld].
    split; [|exact Hworld]. rewrite Hout. reflexivity.
Qed.

Lemma sendMessage_missing_key_iff_witness :
  getApiKey keyless_env = "" /\
  sendMessage patchy_service keyless_env [greeting] "Hello" [] fresh_net =
    (Throw (Error MISSING_KEY_MESSAGE), fresh_net) /\
  getApiKey keyed_env <> "" /\
  fst (sendMessage (answering_service "ok") keyed_env
         [greeting; answer; question] "Hello" [] fresh_net) =
    Throw (Error "Failed to get AI response after trying multiple models. [GoogleGenerativeAI Error]: First content should be with role 'user', got model") /\
  requests (world (snd (sendMessage (answering_service "ok") keyed_env
                          [greeting; answer; question] "Hello" [] fresh_net)))
    = [].
Proof.
  assert (Hkey : getApiKey keyless_env = "") by reflexivity.
  assert (Hkeyed : getApiKey keyed_env <> "") by discriminate.
  destruct (sendMessage_missing_key_iff nat patchy_service keyless_env
              [greeting] "Hello" [] fresh_net) as [[_ Hthrow] [Hstate _]].
  destruct (sendMessage_missing_key_iff nat (answering_service "ok") keyed_env
              [greeting; answer; question] "Hello" [] fresh_net)
    as [_ [_ [_ Hrejected]]].
  destruct (Hrejected Hkeyed greeting answer [question] eq_refl eq_refl
              eq_refl) as [_ [Hout Hworld]].
  split; [exact Hkey|]. split; [|split; [exact Hkeyed|split]].
  - rewrite (surjective_pairing (sendMessage _ _ _ _ _ _)).
    rewrite (Hthrow Hkey), (Hstate Hkey). reflexivity.
  - rewrite Hout. reflexivity.
  - rewrite Hworld. reflexivity.
Defined.

(** X4.  What a caller can catch.  [sendMessage] only throws errors that
    it has built itself: the missing-key message, the quota message, the
    not-found message, or the generic message followed by some text.
    [generateQuiz] and [generateFlashcards] only throw their generic
    message followed by some text, also when the answer was not JSON.
    The failure of the service itself never reaches the caller. *)
Theorem operations_throw_their_own_errors :
  forall (St : Type)
         (service : Request -> St -> Outcome GenerateContentResult * St)
         (syntaxErrorMessage : string -> string) (env : Env),
    (forall history currentMessage files (s : Sys (Net St)),
        thrown_satisfies
          (fun v => exists msg,
               v = Error msg /\
               (msg = MISSING_KEY_MESSAGE \/ chat_failure_message msg))
          (fst (sendMessage service env history currentMessage files s))) /\
    (forall topic fileData difficulty count (s : Sys (Net St)),
        thrown_satisfies
          (fun v => exists text, v = Error (GENERIC_QUIZ_PREFIX ++ text))
          (fst (generateQuiz service syntaxErrorMessage env topic fileData
                  difficulty count s))) /\
    (forall topic fileData count (s : Sys (Net St)),
        thrown_satisfies
          (fun v => exists text, v = Error (GENERIC_FLASHCARDS_PREFIX ++ text))
          (fst (generateFlashcards service syntaxErrorMessage env topic
                  fileData count s))).
Proof.
  intros St service syntaxErrorMessage env. split; [|split].
  - intros history currentMessage files s.
    destruct (string_dec (getApiKey env) "") as [Hkey|Hkey].
    + rewrite (sendMessage_missing_key service env history currentMessage
                 files s Hkey).
      cbn. eexists; split; [reflexivity|]. left; reflexivity.
    + rewrite (sendMessage_run service env history currentMessage files s
                 Hkey).
      destruct (loop_returns _ _ _ (fun e0 s0 => eq_refl)
                  (sendMessage_loop_cons service history currentMessage files
                     (getGenAI env)) MODELS JsUndefined s) as [r Hr].
      destruct (sendMessage_loop _ _ _ _ _ _ _ s)
        as [[[text|lastError]|e] s1]; cbn [fst] in *; try discriminate.
      * exact I.
      * cbn. destruct (sendMessage_failure_is_Error lastError)
          as [msg [-> Hmsg]].
        exists msg. split; [reflexivity|]. right. exact Hmsg.
  - intros topic fileData difficulty count s. rewrite generateQuiz_run.
    destruct (loop_returns _ _ _ (fun e0 s0 => eq_refl)
                (generateQuiz_loop_cons service syntaxErrorMessage env
                   (quiz_prompt topic fileData difficulty count) fileData)
                MODELS JsUndefined s) as [r Hr].
    destruct (generateQuiz_loop _ _ _ _ _ _ _ s) as [[[v|lastError]|e] s1];
      cbn [fst] in *; try discriminate.
    + exact I.
    + cbn. eexists; reflexivity.
  - intros topic fileData count s. rewrite generateFlashcards_run.
    destruct (loop_returns _ _ _ (fun e0 s0 => eq_refl)
                (generateFlashcards_loop_cons service syntaxErrorMessage env
                   (flashcards_prompt topic fileData count) fileData)
                MODELS JsUndefined s) as [r Hr].
    destruct (generateFlashcards_loop _ _ _ _ _ _ _ s)
      as [[[v|lastError]|e] s1]; cbn [fst] in *; try discriminate.
    + exact I.
    + cbn. eexists; reflexivity.
Qed.

(** ** Requests and waiting time of the three operations *)

Lemma total_delay_app (a b : list Event) :
  total_delay (a ++ b) = total_delay a + total_delay b.
Proof.
  unfold total_delay. rewrite delays_app.
  induction (delays a) as [|d ds IH]; [reflexivity|].
  cbn [app fold_right]. rewrite IH. ring.
Qed.

Section CallEffects.

Context {St : Type}.
Variable service : Request -> St -> Outcome GenerateContentResult * St.

(** The wrapper around one network call: every invocation is one request,
    and the waits are backoff delays. *)
Lemma withRetry_loop_call_effects (req : Request)
  (maxRetries initialDelay : Z) :
  forall (n i0 : nat) (lastError : JsVal) (s : Sys (Net St)),
  exists added k,
    trace (snd (withRetry_loop (call service req) maxRetries initialDelay n
                  (Z.of_nat i0) lastError s)) = (trace s ++ added)%list /\
    requests (world (snd (withRetry_loop (call service req) maxRetries
                            initialDelay n (Z.of_nat i0) lastError s))) =
      (requests (world s) ++ repeat req (invocations added))%list /\
    (k <= n)%nat /\
    delays added = map (backoff initialDelay) (seq i0 k) /\
    (k <= invocations added <= n)%nat /\
    (1 <= n -> 1 <= invocations added)%nat.
Proof.
  induction n as [|n IH]; intros i0 lastError s.
  - exists [], 0%nat. cbn. rewrite !app_nil_r. repeat split; lia.
  - cbn [withRetry_loop]. unfold try_catch.
    rewrite invoke_run, call_run. cbn [fst snd world].
    destruct (fst (service req (service_state (world s)))) as [a|e].
    + exists [Invoke], 0%nat. cbn. repeat split; lia.
    + destruct (retryable e).
      * unfold bind, emit, log_event. cbn [world trace].
        replace (Z.of_nat i0 + 1) with (Z.of_nat (S i0)) by lia.
        match goal with
        | |- context [withRetry_loop _ _ _ n _ ?e' ?s'] =>
            destruct (IH (S i0) e' s')
              as [added [k [Htr [Hreq [Hle [Hdel [Hinv Hone]]]]]]]
        end.
        exists ([Invoke;
                 Warn (Z.of_nat (S i0)) maxRetries
                   (initialDelay * 2 ^ Z.of_nat i0) (get_message e);
                 Sleep (initialDelay * 2 ^ Z.of_nat i0)] ++ added)%list,
               (S k).
        rewrite Htr, Hreq. cbn [trace world requests].
        rewrite <- !app_assoc. rewrite invocations_app.
        change (invocations [Invoke; Warn _ _ _ _; Sleep _]) with 1%nat.
        split; [reflexivity|]. split; [reflexivity|]. split; [lia|]. split.
        -- cbn [app delays sleep_of seq map]. rewrite Hdel. reflexivity.
        -- split; lia.
      * exists [Invoke], 0%nat. cbn. repeat split; lia.
Qed.

(** With the defaults: one to three requests and at most 7000 time units
    of waiting. *)
Lemma withRetry_default_call_effects (req : Request) (s : Sys (Net St)) :
  exists added,
    trace (snd (withRetry_default (call service req) s)) =
      (trace s ++ added)%list /\
    requests (world (snd (withRetry_default (call service req) s))) =
      (requests (world s) ++ repeat req (invocations added))%list /\
    (1 <= invocations added <= 3)%nat /\
    0 <= total_delay added <= 7000.
Proof.
  unfold withRetry_default, withRetry.
  destruct (withRetry_loop_call_effects req 3 1000 (Z.to_nat 3) 0 JsUndefined
              s) as [added [k [Htr [Hreq [Hle [Hdel [Hinv Hone]]]]]]].
  cbn [Z.of_nat] in Htr, Hreq. change (Z.to_nat 3) with 3%nat in *.
  exists added. split; [exact Htr|]. split; [exact Hreq|].
  split; [lia|].
  unfold total_delay. rewrite Hdel, backoff_sum. cbn [Z.of_nat].
  assert (Hk : (k = 0 \/ k = 1 \/ k = 2 \/ k = 3)%nat) by lia.
  destruct Hk as [-> | [-> | [-> | ->]]]; cbn; lia.
Qed.

End CallEffects.

Section LoopEffects.

Context {St A : Type}.
Variable attempt : string -> M (Net St) A.
Variable report : string -> JsVal -> Event.
Variable loop : list string -> JsVal -> M (Net St) (A + JsVal).

(** The least number of invocations of an attempt. *)
Variable least : nat.

Hypothesis loop_nil :
  forall e s, loop [] e s = (Return (inr e), s).

Hypothesis loop_cons :
  forall m ms e0 s,
    loop (m :: ms) e0 s =
    match attempt m s with
    | (Return a, s1) => (Return (inl a), s1)
    | (Throw e, s1) => loop ms e (log_event (report m e) s1)
    end.

Hypothesis report_is_log :
  forall m e, is_invoke (report m e) = false /\ sleep_of (report m e) = None.

Hypothesis attempt_effects :
  forall m s, exists added,
    trace (snd (attempt m s)) = (trace s ++ added)%list /\
    List.length (requests (world (snd (attempt m s)))) =
      (List.length (requests (world s)) + invocations added)%nat /\
    (least <= invocations added <= 3)%nat /\
    0 <= total_delay added <= 7000.

Lemma loop_effects :
  forall ms e0 s, exists added,
    trace (snd (loop ms e0 s)) = (trace s ++ added)%list /\
    List.length (requests (world (snd (loop ms e0 s)))) =
      (List.length (requests (world s)) + invocations added)%nat /\
    (invocations added <= 3 * List.length ms)%nat /\
    (ms <> [] -> least <= invocations added)%nat /\
    0 <= total_delay added <= 7000 * Z.of_nat (List.length ms).
Proof.
  induction ms as [|m ms IH]; intros e0 s.
  - exists []. rewrite loop_nil. cbn. rewrite app_nil_r.
    repeat split; try lia. congruence.
  - rewrite loop_cons.
    destruct (attempt_effects m s) as [added [Htr [Hreq [Hinv Hdel]]]].
    destruct (attempt m s) as [[a|e] s1]; cbn [snd] in Htr, Hreq.
    + exists added. cbn [snd List.length].
      split; [exact Htr|]. split; [exact Hreq|].
      split; [lia|]. split; [lia|]. lia.
    + destruct (IH e (log_event (report m e) s1))
        as [added' [Htr' [Hreq' [Hinv' [_ Hdel']]]]].
      destruct (report_is_log m e) as [Hni Hns].
      exists (added ++ [report m e] ++ added')%list.
      rewrite Htr', Hreq'. unfold log_event. cbn [trace world].
      rewrite Htr, Hreq, <- !app_assoc.
      rewrite !invocations_app, !total_delay_app.
      assert (Hr1 : invocations [report m e] = 0%nat)
        by (unfold invocations; cbn; rewrite Hni; reflexivity).
      assert (Hr2 : total_delay [report m e] = 0)
        by (unfold total_delay; cbn; rewrite Hns; reflexivity).
      rewrite Hr1, Hr2. cbn [List.length].
      split; [reflexivity|]. split; [lia|]. split; [lia|].
      split; [lia|]. lia.
Qed.

End LoopEffects.

Section AttemptEffects.

Context {St : Type}.
Variable service : Request -> St -> Outcome GenerateContentResult * St.
Variable syntaxErrorMessage : string -> string.
Variable env : Env.

(** The wrapped call preceded by a [console.log]. *)
Lemma logged_call_effects (text : string) (req : Request) (s : Sys (Net St)) :
  exists added,
    trace (snd (withRetry_default (call service req)
                  (log_event (Log text) s))) = (trace s ++ added)%list /\
    List.length
      (requests (world (snd (withRetry_default (call service req)
                               (log_event (Log text) s))))) =
      (List.length (requests (world s)) + invocations added)%nat /\
    (1 <= invocations added <= 3)%nat /\
    0 <= total_delay added <= 7000.
Proof.
  destruct (withRetry_default_call_effects service req
              (log_event (Log text) s)) as [added [Htr [Hreq [Hinv Hdel]]]].
  exists (Log text :: added). rewrite Htr, Hreq.
  unfold log_event. cbn [trace world].
  rewrite <- app_assoc, length_app, repeat_length.
  split; [reflexivity|]. split; [reflexivity|].
  split; [exact Hinv|exact Hdel].
Qed.

Lemma sendMessage_attempt_effects history currentMessage files genAI :
  forall m (s : Sys (Net St)), exists added,
    trace (snd (sendMessage_attempt service history currentMessage files
                  genAI m s)) = (trace s ++ added)%list /\
    List.length
      (requests (world (snd (sendMessage_attempt service history
                               currentMessage files genAI m s)))) =
      (List.length (requests (world s)) + invocations added)%nat /\
    (0 <= invocations added <= 3)%nat /\
    0 <= total_delay added <= 7000.
Proof.
  intros m s. rewrite sendMessage_attempt_run. cbv zeta.
  destruct (validateChatHistory _) as [e|].
  - exists [Log ("Attempting message with model: " ++ m)].
    unfold log_event. cbn. repeat split; lia.
  - match goal with
    | |- context [withRetry_default (call service ?r)
                    (log_event (Log ?t) s)] =>
        destruct (logged_call_effects t r s) as [added [H1 [H2 [H3 H4]]]];
        destruct (withRetry_default (call service r) (log_event (Log t) s))
          as [[a|e] s1]
    end; exists added; repeat split; try assumption; lia.
Qed.

Lemma generateQuiz_attempt_effects prompt fileData :
  forall m (s : Sys (Net St)), exists added,
    trace (snd (generateQuiz_attempt service syntaxErrorMessage env prompt
                  fileData m s)) = (trace s ++ added)%list /\
    List.length
      (requests (world (snd (generateQuiz_attempt service syntaxErrorMessage
                               env prompt fileData m s)))) =
      (List.length (requests (world s)) + invocations added)%nat /\
    (1 <= invocations added <= 3)%nat /\
    0 <= total_delay added <= 7000.
Proof.
  intros m s. rewrite generateQuiz_attempt_run.
  match goal with
  | |- context [withRetry_default (call service ?r) (log_event (Log ?t) s)] =>
      destruct (logged_call_effects t r s) as [added H];
      destruct (withRetry_default (call service r) (log_event (Log t) s))
        as [[a|e] s1]
  end; exists added; [|exact H].
  destruct (response_text a) as [text|e]; [|exact H].
  destruct (parse_response text); exact H.
Qed.

Lemma generateFlashcards_attempt_effects prompt fileData :
  forall m (s : Sys (Net St)), exists added,
    trace (snd (generateFlashcards_attempt service syntaxErrorMessage env
                  prompt fileData m s)) = (trace s ++ added)%list /\
    List.length
      (requests (world (snd (generateFlashcards_attempt service
                               syntaxErrorMessage env prompt fileData m s)))) =
      (List.length (requests (world s)) + invocations added)%nat /\
    (1 <= invocations added <= 3)%nat /\
    0 <= total_delay added <= 7000.
Proof.
  intros m s. rewrite generateFlashcards_attempt_run.
  match goal with
  | |- context [withRetry_default (call service ?r) (log_event (Log ?t) s)] =>
      destruct (logged_call_effects t r s) as [added H];
      destruct (withRetry_default (call service r) (log_event (Log t) s))
        as [[a|e] s1]
  end; exists added; [|exact H].
  destruct (response_text a) as [text|e]; [|exact H].
  destruct (parse_response text); exact H.
Qed.

End AttemptEffects.

(** An event that is neither an invocation nor a wait changes neither
    count. *)
Lemma log_only_effects (added : list Event) (ev : Event) :
  is_invoke ev = false -> sleep_of ev = None ->
  invocations (added ++ [ev]) = invocations added /\
  total_delay (added ++ [ev]) = total_delay added.
Proof.
  intros Hni Hns. rewrite invocations_app, total_delay_app.
  unfold invocations at 2, total_delay at 2. cbn. rewrite Hni, Hns. cbn.
  split; lia.
Qed.

(** X5.  Bounds that hold in every run, whatever the service does.  Each
    operation sends exactly one request per invocation of its wrapped call,
    at most 12 in all (four candidates, three attempts each), and spends at
    most 28000 time units waiting; [generateQuiz] and [generateFlashcards]
    always send at least one request. *)
Theorem operations_bounded :
  forall (St : Type)
         (service : Request -> St -> Outcome GenerateContentResult * St)
         (syntaxErrorMessage : string -> string) (env : Env),
    (forall history currentMessage files (s : Sys (Net St)),
        let run := sendMessage service env history currentMessage files s in
        exists added,
          trace (snd run) = (trace s ++ added)%list /\
          List.length (requests (world (snd run))) =
            (List.length (requests (world s)) + invocations added)%nat /\
          (invocations added <= 12)%nat /\
          0 <= total_delay added <= 28000) /\
    (forall topic fileData difficulty count (s : Sys (Net St)),
        let run := generateQuiz service syntaxErrorMessage env topic fileData
                     difficulty count s in
        exists added,
          trace (snd run) = (trace s ++ added)%list /\
          List.length (requests (world (snd run))) =
            (List.length (requests (world s)) + invocations added)%nat /\
          (1 <= invocations added <= 12)%nat /\
          0 <= total_delay added <= 28000) /\
    (forall topic fileData count (s : Sys (Net St)),
        let run := generateFlashcards service syntaxErrorMessage env topic
                     fileData count s in
        exists added,
          trace (snd run) = (trace s ++ added)%list /\
          List.length (requests (world (snd run))) =
            (List.length (requests (world s)) + invocations added)%nat /\
          (1 <= invocations added <= 12)%nat /\
          0 <= total_delay added <= 28000).
Proof.
  intros St service syntaxErrorMessage env. split; [|split].
  - intros history currentMessage files s run. subst run.
    destruct (string_dec (getApiKey env) "") as [Hkey|Hkey].
    + rewrite (sendMessage_missing_key service env history currentMessage
                 files s Hkey).
      exists []. cbn. rewrite app_nil_r. repeat split; lia.
    + rewrite (sendMessage_run service env history currentMessage files s
                 Hkey).
      destruct (loop_effects
                  (sendMessage_attempt service history currentMessage files
                     (getGenAI env))
                  sendMessage_report
                  (sendMessage_loop service history currentMessage files
                     (getGenAI env))
                  0%nat
                  (fun e0 s0 => eq_refl)
                  (sendMessage_loop_cons service history currentMessage files
                     (getGenAI env))
                  (fun m e => conj eq_refl eq_refl)
                  (sendMessage_attempt_effects service history currentMessage
                     files (getGenAI env))
                  MODELS JsUndefined s)
        as [added [Htr [Hreq [Hinv [_ Hdel]]]]].
      change (List.length MODELS) with 4%nat in Hinv, Hdel.
      destruct (sendMessage_loop _ _ _ _ _ _ _ s)
        as [[[text|lastError]|e] s1]; cbn [snd] in *.
      * exists added. repeat split; try assumption; lia.
      * destruct (log_only_effects added
                    (LogError "All models failed in sendMessage:" lastError)
                    eq_refl eq_refl) as [Hi Hd].
        eexists. unfold log_event. cbn [trace world].
        rewrite Htr, <- app_assoc. split; [reflexivity|].
        rewrite Hi, Hd. repeat split; try assumption; lia.
      * exists added. repeat split; try assumption; lia.
  - intros topic fileData difficulty count s run. subst run.
    rewrite generateQuiz_run.
    destruct (loop_effects
                (generateQuiz_attempt service syntaxErrorMessage env
                   (quiz_prompt topic fileData difficulty count) fileData)
                generateQuiz_report
                (generateQuiz_loop service syntaxErrorMessage env
                   (quiz_prompt topic fileData difficulty count) fileData)
                1%nat
                (fun e0 s0 => eq_refl)
                (generateQuiz_loop_cons service syntaxErrorMessage env _
                   fileData)
                (fun m e => conj eq_refl eq_refl)
                (generateQuiz_attempt_effects service syntaxErrorMessage env _
                   fileData)
                MODELS JsUndefined s)
      as [added [Htr [Hreq [Hinv [Hone Hdel]]]]].
    change (List.length MODELS) with 4%nat in Hinv, Hdel.
    specialize (Hone ltac:(discriminate)).
    destruct (generateQuiz_loop _ _ _ _ _ _ _ s)
      as [[[v|lastError]|e] s1]; cbn [snd] in *.
    + exists added. repeat split; try assumption; lia.
    + destruct (log_only_effects added
                  (LogError "All models failed in generateQuiz:" lastError)
                  eq_refl eq_refl) as [Hi Hd].
      eexists. unfold log_event. cbn [trace world].
      rewrite Htr, <- app_assoc. split; [reflexivity|].
      rewrite Hi, Hd. repeat split; try assumption; lia.
    + exists added. repeat split; try assumption; lia.
  - intros topic fileData count s run. subst run.
    rewrite generateFlashcards_run.
    destruct (loop_effects
                (generateFlashcards_attempt service syntaxErrorMessage env
                   (flashcards_prompt topic fileData count) fileData)
                generateFlashcards_report
                (generateFlashcards_loop service syntaxErrorMessage env
                   (flashcards_prompt topic fileData count) fileData)
                1%nat
                (fun e0 s0 => eq_refl)
                (generateFlashcards_loop_cons service syntaxErrorMessage env _
                   fileData)
                (fun m e => conj eq_refl eq_refl)
                (generateFlashcards_attempt_effects service syntaxErrorMessage
                   env _ fileData)
                MODELS JsUndefined s)
      as [added [Htr [Hreq [Hinv [Hone Hdel]]]]].
    change (List.length MODELS) with 4%nat in Hinv, Hdel.
    specialize (Hone ltac:(discriminate)).
    destruct (generateFlashcards_loop _ _ _ _ _ _ _ s)
      as [[[v|lastError]|e] s1]; cbn [snd] in *.
    + exists added. repeat split; try assumption; lia.
    + destruct (log_only_effects added
                  (LogError "All models failed in generateFlashcards:"
                     lastError)
                  eq_refl eq_refl) as [Hi Hd].
      eexists. unfold log_event. cbn [trace world].
      rewrite Htr, <- app_assoc. split; [reflexivity|].
      rewrite Hi, Hd. repeat split; try assumption; lia.
    + exists added. repeat split; try assumption; lia.
Qed.

Example worst_case_run :
  let run := generateQuiz (failing_service rate_limited) engine_message
               keyed_env "Photosynthesis" None "easy" 3 fresh_net in
  List.length (requests (world (snd run))) = 12%nat /\
  invocations (trace (snd run)) = 12%nat /\
  total_delay (trace (snd run)) = 28000.
Proof. repeat split; vm_compute; reflexivity. Qed.

(** ** Fallback in [generateQuiz] and [generateFlashcards] *)

(** X6.  [generateQuiz] walks [MODELS] in order: when the candidates
    before [m] fail one after the other, whatever their failures, and the
    wrapped call for [m] succeeds with a response whose text can be read
    and parses after cleaning, the operation returns the parsed value in
    the state right after that call, and the requests sent are those of the
    candidates up to [m], grouped in list order, one to three per
    candidate. *)
Theorem generateQuiz_fallback_order :
  forall (St : Type)
         (service : Request -> St -> Outcome GenerateContentResult * St)
         (syntaxErrorMessage : string -> string) (env : Env)
         (topic : string) (fileData : option FileData) (difficulty : string)
         (count : Z) (s s1 s2 : Sys (Net St)) (pre post : list string)
         (m : string) (e : JsVal) (result : GenerateContentResult)
         (text : string) (v : JSON),
    let prompt := quiz_prompt topic fileData difficulty count in
    let req := fun m' => content_request env m' prompt fileData in
    MODELS = (pre ++ m :: post)%list ->
    candidates_fail
      (generateQuiz_attempt service syntaxErrorMessage env prompt fileData)
      generateQuiz_report pre s JsUndefined s1 e ->
    withRetry_default (call service (req m))
      (log_event (Log ("Attempting quiz generation with model: " ++ m)) s1) =
      (Return result, s2) ->
    response_text result = Return text ->
    parse_response text = Some v ->
    generateQuiz service syntaxErrorMessage env topic fileData difficulty
      count s = (Return v, s2) /\
    exists ks,
      List.length ks = List.length (pre ++ [m])%list /\
      Forall (fun k => 1 <= k <= 3)%nat ks /\
      requests (world s2) =
      (requests (world s) ++ requests_of_run req (pre ++ [m]) ks)%list.
Proof.
  intros St service syntaxErrorMessage env topic fileData difficulty count
         s s1 s2 pre post m e result text v prompt req Hmodels Hpre Hcall
         Htext Hparse.
  pose proof (generateQuiz_attempt_run service syntaxErrorMessage env
                prompt fileData m s1) as Hm.
  fold (req m) in Hm. rewrite Hcall, Htext, Hparse in Hm.
  split.
  - rewrite generateQuiz_run. fold prompt. rewrite Hmodels.
    rewrite (loop_first_success
               (generateQuiz_attempt service syntaxErrorMessage env prompt
                  fileData)
               generateQuiz_report
               (generateQuiz_loop service syntaxErrorMessage env prompt
                  fileData)
               (generateQuiz_loop_cons service syntaxErrorMessage env prompt
                  fileData)
               pre m post s JsUndefined s1 e v s2 Hpre Hm).
    reflexivity.
  - destruct (generateQuiz_attempt_requests service syntaxErrorMessage env
                prompt fileData m s1) as [k [Hk Hone]].
    rewrite Hm in Hone. cbn [snd] in Hone.
    destruct (candidates_fail_requests
                (generateQuiz_attempt service syntaxErrorMessage env prompt
                   fileData)
                generateQuiz_report req
                1%nat
                (generateQuiz_attempt_requests service syntaxErrorMessage env
                   prompt fileData)
                [m] [k] pre s JsUndefined s1 e Hpre)
      as [ks [Hlen [Hall Hreq]]].
    exists (ks ++ [k])%list. split; [|split].
    + rewrite !length_app, Hlen. reflexivity.
    + apply Forall_app. split; [exact Hall|].
      constructor; [exact Hk|constructor].
    + rewrite Hone, <- Hreq. unfold requests_of_run.
      cbn [combine map List.concat fst snd]. rewrite app_nil_r. reflexivity.
Qed.

Lemma generateQuiz_fallback_order_witness :
  MODELS = (["gemini-flash-latest"; "gemini-2.0-flash"] ++
            "gemini-2.0-flash-lite-preview-09-2025" ::
            ["gemini-1.5-pro"])%list /\
  parse_response (fenced photosynthesis_quiz) =
    Some (JRecord
            [("questions",
              JArray
                [JRecord
                   [("question", JText "What pigment absorbs light?");
                    ("options",
                     JArray [JText "Chlorophyll"; JText "Keratin";
                             JText "Melanin"]);
                    ("answer", JText "Chlorophyll")]])]) /\
  fst (generateQuiz (reluctant_service (fenced photosynthesis_quiz))
         engine_message keyed_env "Photosynthesis" None "easy" 3 fresh_net) =
    Return (JRecord
              [("questions",
                JArray
                  [JRecord
                     [("question", JText "What pigment absorbs light?");
                      ("options",
                       JArray [JText "Chlorophyll"; JText "Keratin";
                               JText "Melanin"]);
                      ("answer", JText "Chlorophyll")]])]) /\
  requested_models
    (requests (world (snd (generateQuiz
                             (reluctant_service (fenced photosynthesis_quiz))
                             engine_message keyed_env "Photosynthesis" None
                             "easy" 3 fresh_net)))) =
    ["gemini-flash-latest"; "gemini-2.0-flash";
     "gemini-2.0-flash-lite-preview-09-2025"].
Proof.
  assert (Hparse : parse_response (fenced photosynthesis_quiz) =
                   Some (JRecord
                           [("questions",
                             JArray
                               [JRecord
                                  [("question",
                                    JText "What pigment absorbs light?");
                                   ("options",
                                    JArray [JText "Chlorophyll";
                                            JText "Keratin";
                                            JText "Melanin"]);
                                   ("answer", JText "Chlorophyll")]])]))
    by (vm_compute; reflexivity).
  pose (service := reluctant_service (fenced photosynthesis_quiz)).
  pose (prompt := quiz_prompt "Photosynthesis" None "easy" 3).
  pose (pre := ["gemini-flash-latest"; "gemini-2.0-flash"]).
  pose (m := "gemini-2.0-flash-lite-preview-09-2025").
  pose (after_pre :=
          generateQuiz_loop service engine_message keyed_env prompt None pre
            JsUndefined fresh_net).
  pose (s1 := snd after_pre).
  pose (wrapped :=
          withRetry_default
            (call service (content_request keyed_env m prompt None))
            (log_event
               (Log ("Attempting quiz generation with model: " ++ m)) s1)).
  assert (Hpre : candidates_fail
                   (generateQuiz_attempt service engine_message keyed_env
                      prompt None)
                   generateQuiz_report pre fresh_net JsUndefined s1
                   blocked_answer).
  { apply generateQuiz_loop_exhausted_inv. vm_compute. reflexivity. }
  assert (Hcall : wrapped =
                  (Return {| response_text :=
                               Return (fenced photosynthesis_quiz) |},
                   snd wrapped))
    by (vm_compute; reflexivity).
  destruct (generateQuiz_fallback_order nat service engine_message keyed_env
              "Photosynthesis" None "easy" 3 fresh_net s1 (snd wrapped)
              pre ["gemini-1.5-pro"] m _ _ _ _ eq_refl Hpre Hcall eq_refl
              Hparse)
    as [Hrun _].
  split; [reflexivity|]. split; [exact Hparse|].
  fold service. rewrite Hrun. split; [reflexivity|]. vm_compute. reflexivity.
Defined.

(** X7.  [generateFlashcards] walks [MODELS] in the same way: the first
    candidate whose wrapped call succeeds with a response whose text can be
    read and parses after cleaning decides the value returned, after the
    candidates before it have failed in order; the requests sent are those
    of the candidates up to it, grouped in list order, one to three per
    candidate. *)
Theorem generateFlashcards_fallback_order :
  forall (St : Type)
         (service : Request -> St -> Outcome GenerateContentResult * St)
         (syntaxErrorMessage : string -> string) (env : Env)
         (topic : string) (fileData : option FileData) (count : Z)
         (s s1 s2 : Sys (Net St)) (pre post : list string)
         (m : string) (e : JsVal) (result : GenerateContentResult)
         (text : string) (v : JSON),
    let prompt := flashcards_prompt topic fileData count in
    let req := fun m' => content_request env m' prompt fileData in
    MODELS = (pre ++ m :: post)%list ->
    candidates_fail
      (generateFlashcards_attempt service syntaxErrorMessage env prompt
         fileData)
      generateFlashcards_report pre s JsUndefined s1 e ->
    withRetry_default (call service (req m))
      (log_event (Log ("Attempting flashcard generation with model: " ++ m))
         s1) =
      (Return result, s2) ->
    response_text result = Return text ->
    parse_response text = Some v ->
    generateFlashcards service syntaxErrorMessage env topic fileData count s =
      (Return v, s2) /\
    exists ks,
      List.length ks = List.length (pre ++ [m])%list /\
      Forall (fun k => 1 <= k <= 3)%nat ks /\
      requests (world s2) =
      (requests (world s) ++ requests_of_run req (pre ++ [m]) ks)%list.
Proof.
  intros St service syntaxErrorMessage env topic fileData count
         s s1 s2 pre post m e result text v prompt req Hmodels Hpre Hcall
         Htext Hparse.
  pose proof (generateFlashcards_attempt_run service syntaxErrorMessage
                env prompt fileData m s1) as Hm.
  fold (req m) in Hm. rewrite Hcall, Htext, Hparse in Hm.
  split.
  - rewrite generateFlashcards_run. fold prompt. rewrite Hmodels.
    rewrite (loop_first_success
               (generateFlashcards_attempt service syntaxErrorMessage env
                  prompt fileData)
               generateFlashcards_report
               (generateFlashcards_loop service syntaxErrorMessage env prompt
                  fileData)
               (generateFlashcards_loop_cons service syntaxErrorMessage env
                  prompt fileData)
               pre m post s JsUndefined s1 e v s2 Hpre Hm).
    reflexivity.
  - destruct (generateFlashcards_attempt_requests service syntaxErrorMessage
                env prompt fileData m s1) as [k [Hk Hone]].
    rewrite Hm in Hone. cbn [snd] in Hone.
    destruct (candidates_fail_requests
                (generateFlashcards_attempt service syntaxErrorMessage env
                   prompt fileData)
                generateFlashcards_report req
                1%nat
                (generateFlashcards_attempt_requests service
                   syntaxErrorMessage env prompt fileData)
                [m] [k] pre s JsUndefined s1 e Hpre)
      as [ks [Hlen [Hall Hreq]]].
    exists (ks ++ [k])%list. split; [|split].
    + rewrite !length_app, Hlen. reflexivity.
    + apply Forall_app. split; [exact Hall|].
      constructor; [exact Hk|constructor].
    + rewrite Hone, <- Hreq. unfold requests_of_run.
      cbn [combine map List.concat fst snd]. rewrite app_nil_r. reflexivity.
Qed.

Lemma generateFlashcards_fallback_order_witness :
  MODELS = (["gemini-flash-latest"] ++ "gemini-2.0-flash" ::
            ["gemini-2.0-flash-lite-preview-09-2025"; "gemini-1.5-pro"])%list /\
  parse_response osmosis_cards =
    Some (JRecord
            [("flashcards",
              JArray
                [JRecord
                   [("front", JText "Osmosis");
                    ("back", JText "Movement of water across a membrane")]])]) /\
  fst (generateFlashcards (chatty_first_service osmosis_cards) engine_message
         keyed_env "Osmosis" None 1 fresh_net) =
    Return (JRecord
              [("flashcards",
                JArray
                  [JRecord
                     [("front", JText "Osmosis");
                      ("back",
                       JText "Movement of water across a membrane")]])]) /\
  requested_models
    (requests (world (snd (generateFlashcards
                             (chatty_first_service osmosis_cards)
                             engine_message keyed_env "Osmosis" None 1
                             fresh_net)))) =
    ["gemini-flash-latest"; "gemini-2.0-flash"].
Proof.
  assert (Hparse : parse_response osmosis_cards =
                   Some (JRecord
                           [("flashcards",
                             JArray
                               [JRecord
                                  [("front", JText "Osmosis");
                                   ("back",
                                    JText
                                      "Movement of water across a membrane")]])]))
    by (vm_compute; reflexivity).
  pose (prompt := flashcards_prompt "Osmosis" None 1).
  pose (after_pre :=
          generateFlashcards_loop (chatty_first_service osmosis_cards)
            engine_message keyed_env prompt None ["gemini-flash-latest"]
            JsUndefined fresh_net).
  pose (s1 := snd after_pre).
  pose (wrapped :=
          withRetry_default
            (call (chatty_first_service osmosis_cards)
               (content_request keyed_env "gemini-2.0-flash" prompt None))
            (log_event
               (Log ("Attempting flashcard generation with model: "
                       ++ "gemini-2.0-flash")) s1)).
  assert (Hpre : candidates_fail
                   (generateFlashcards_attempt
                      (chatty_first_service osmosis_cards) engine_message
                      keyed_env prompt None)
                   generateFlashcards_report ["gemini-flash-latest"] fresh_net
                   JsUndefined s1 (Error "Unexpected token in JSON")).
  { apply generateFlashcards_loop_exhausted_inv. vm_compute. reflexivity. }
  assert (Hcall : wrapped =
                  (Return {| response_text := Return osmosis_cards |},
                   snd wrapped))
    by (vm_compute; reflexivity).
  destruct (generateFlashcards_fallback_order nat
              (chatty_first_service osmosis_cards) engine_message keyed_env
              "Osmosis" None 1 fresh_net s1 (snd wrapped)
              ["gemini-flash-latest"]
              ["gemini-2.0-flash-lite-preview-09-2025"; "gemini-1.5-pro"]
              "gemini-2.0-flash" _ _ _ _ eq_refl Hpre Hcall eq_refl Hparse)
    as [Hrun _].
  split; [reflexivity|]. split; [exact Hparse|].
  rewrite Hrun. split; [reflexivity|]. vm_compute. reflexivity.
Defined.

(** X8.  An answer that is not JSON after cleaning counts as a failure of
    its candidate: the attempt throws the [SyntaxError] of [JSON.parse],
    and the loop goes on with the next candidate as after any other
    failure, in [generateQuiz] as in [generateFlashcards]. *)
Theorem unparsable_answer_advances :
  forall (St : Type)
         (service : Request -> St -> Outcome GenerateContentResult * St)
         (syntaxErrorMessage : string -> string) (env : Env)
         (prompt : string) (fileData : option FileData)
         (m : string) (ms : list string) (e0 : JsVal)
         (s s2 s2' : Sys (Net St)) (result result' : GenerateContentResult)
         (text text' : string),
    let req := content_request env m prompt fileData in
    withRetry_default (call service req)
      (log_event (Log ("Attempting quiz generation with model: " ++ m)) s) =
      (Return result, s2) ->
    withRetry_default (call service req)
      (log_event (Log ("Attempting flashcard generation with model: " ++ m))
         s) = (Return result', s2') ->
    response_text result = Return text ->
    response_text result' = Return text' ->
    parse_response text = None ->
    parse_response text' = None ->
    let failure := Error (syntaxErrorMessage (clean_response text)) in
    let failure' := Error (syntaxErrorMessage (clean_response text')) in
    generateQuiz_loop service syntaxErrorMessage env prompt fileData
      (m :: ms) e0 s =
    generateQuiz_loop service syntaxErrorMessage env prompt fileData ms
      failure (log_event (generateQuiz_report m failure) s2) /\
    generateFlashcards_loop service syntaxErrorMessage env prompt fileData
      (m :: ms) e0 s =
    generateFlashcards_loop service syntaxErrorMessage env prompt fileData ms
      failure' (log_event (generateFlashcards_report m failure') s2').
Proof.
  intros St service syntaxErrorMessage env prompt fileData m ms e0 s s2 s2'
         result result' text text' req Hquiz Hcards Htext Htext' Hparse
         Hparse' failure failure'.
  split.
  - rewrite generateQuiz_loop_cons, generateQuiz_attempt_run.
    fold req. rewrite Hquiz, Htext, Hparse. reflexivity.
  - rewrite generateFlashcards_loop_cons, generateFlashcards_attempt_run.
    fold req. rewrite Hcards, Htext', Hparse'. reflexivity.
Qed.

Lemma unparsable_answer_advances_witness :
  parse_response "Sorry, I cannot help." = None /\
  generateQuiz_loop (answering_service "Sorry, I cannot help.") engine_message
    keyed_env "prompt" None ["gemini-flash-latest"; "gemini-2.0-flash"]
    JsUndefined fresh_net =
  generateQuiz_loop (answering_service "Sorry, I cannot help.") engine_message
    keyed_env "prompt" None ["gemini-2.0-flash"]
    (Error "Unexpected token in JSON")
    {| world :=
         {| service_state := 1%nat;
            requests :=
              [content_request keyed_env "gemini-flash-latest" "prompt" None]
         |};
       trace :=
         [Log "Attempting quiz generation with model: gemini-flash-latest";
          Invoke;
          LogError "Error with model gemini-flash-latest in generateQuiz:"
            (Error "Unexpected token in JSON")] |}.
Proof.
  assert (Hparse : parse_response "Sorry, I cannot help." = None)
    by (vm_compute; reflexivity).
  split; [exact Hparse|].
  exact (proj1 (unparsable_answer_advances nat
                  (answering_service "Sorry, I cannot help.") engine_message
                  keyed_env "prompt" None "gemini-flash-latest"
                  ["gemini-2.0-flash"] JsUndefined fresh_net _ _
                  {| response_text := Return "Sorry, I cannot help." |}
                  {| response_text := Return "Sorry, I cannot help." |}
                  _ _ eq_refl eq_refl eq_refl eq_refl Hparse Hparse)).
Defined.

(** ** Cleaning a response that has no fence *)

Lemma strip_fences_identity :
  forall (n : nat) (s : string),
    (String.length s < n)%nat ->
    includes s "```" = false ->
    strip_fences s = s.
Proof.
  induction n as [|n IH]; intros s Hlen Hno; [lia|].
  destruct s as [|c1 [|c2 [|c3 r3]]]; try reflexivity.
  rewrite includes_fence_cons in Hno.
  apply orb_false_iff in Hno. destruct Hno as [Hhead Hrest].
  cbn [starts_with_two_ticks starts_with_tick] in Hhead.
  rewrite strip_fences_three, <- andb_assoc, Hhead.
  f_equal. apply IH; [cbn [String.length] in *; lia|exact Hrest].
Qed.

(** X9.  A response without any [```] is left as it is by the fence
    stripping, so cleaning it only trims it; and stripping a second time
    changes nothing, whatever the text. *)
Theorem strip_fences_without_fence :
  forall (t : string),
    (includes t "```" = false ->
     strip_fences t = t /\ clean_response t = trim t) /\
    strip_fences (strip_fences t) = strip_fences t.
Proof.
  intro t. split.
  - intro Hno.
    assert (Hid : strip_fences t = t)
      by (apply (strip_fences_identity (S (String.length t))); [lia|exact Hno]).
    split; [exact Hid|]. unfold clean_response. rewrite Hid. reflexivity.
  - apply (strip_fences_identity (S (String.length (strip_fences t))));
      [lia|].
    apply (strip_fences_no_fence (S (String.length t))). lia.
Qed.

Lemma strip_fences_without_fence_witness :
  includes photosynthesis_quiz "```" = false /\
  strip_fences photosynthesis_quiz = photosynthesis_quiz.
Proof.
  assert (Hno : includes photosynthesis_quiz "```" = false)
    by (vm_compute; reflexivity).
  split; [exact Hno|].
  exact (proj1 (proj1 (strip_fences_without_fence photosynthesis_quiz) Hno)).
Defined.

(** * The components *)

(** ** [QuizGenerator]: answering and scoring *)

Lemma at_index_app_head {A : Type} (done : list A) (x : A) (todo : list A) :
  at_index (done ++ x :: todo) (Z.of_nat (List.length done)) = Some x.
Proof.
  unfold at_index.
  destruct (Z.ltb_spec (Z.of_nat (List.length done)) 0) as [Hneg|_]; [lia|].
  rewrite Nat2Z.id, nth_error_app2 by lia.
  rewrite Nat.sub_diag. reflexivity.
Qed.

Lemma click_options_locked (clicks : list JsString) (st : QuizGenerator.State) :
  QuizGenerator.selectedOption st <> None ->
  QuizGenerator.click_options clicks st = Some st.
Proof.
  intro Hsel. induction clicks as [|o clicks IH]; [reflexivity|].
  cbn [QuizGenerator.click_options].
  unfold QuizGenerator.handleOptionSelect.
  destruct (QuizGenerator.selectedOption st); [exact IH|congruence].
Qed.

(** The clicks on one question: the first one is recorded and scored,
    the others are ignored. *)
Lemma click_options_fresh (clicks : list JsString) (st : QuizGenerator.State)
  (q : QuizGenerator.Question) :
  QuizGenerator.selectedOption st = None ->
  at_index (QuizGenerator.questions st)
    (QuizGenerator.currentQuestionIndex st) = Some q ->
  QuizGenerator.click_options clicks st =
  Some match clicks with
       | [] => st
       | o :: _ =>
           QuizGenerator.setScore
             (QuizGenerator.score st +
              if QuizGenerator.first_click_correct q clicks then 1 else 0)
             (QuizGenerator.setSelectedOption (Some o) st)
       end.
Proof.
  intros Hsel Hq. destruct clicks as [|o clicks]; [reflexivity|].
  cbn [QuizGenerator.click_options QuizGenerator.first_click_correct].
  unfold QuizGenerator.handleOptionSelect. rewrite Hsel, Hq.
  destruct (units_eqb o (QuizGenerator.answer q)).
  - apply click_options_locked. discriminate.
  - rewrite click_options_locked by discriminate.
    f_equal. unfold QuizGenerator.setScore, QuizGenerator.setSelectedOption.
    cbn. rewrite Z.add_0_r. reflexivity.
Qed.

Lemma play_from (rounds : list (list JsString)) :
  forall (done todo : list QuizGenerator.Question) (st : QuizGenerator.State),
    QuizGenerator.questions st = (done ++ todo)%list ->
    QuizGenerator.currentQuestionIndex st = Z.of_nat (List.length done) ->
    QuizGenerator.selectedOption st = None ->
    List.length rounds = List.length todo ->
    rounds <> [] ->
    exists st',
      QuizGenerator.play rounds st = Some st' /\
      QuizGenerator.score st' =
        QuizGenerator.score st + QuizGenerator.correct_answers todo rounds /\
      QuizGenerator.isFinished st' = true /\
      QuizGenerator.questions st' = QuizGenerator.questions st /\
      QuizGenerator.selectedOption st' = List.hd_error (List.last rounds []).
Proof.
  induction rounds as [|clicks rounds IH];
    intros done todo st Hqs Hidx Hsel Hlen Hne; [congruence|].
  destruct todo as [|q todo]; [discriminate|].
  cbn [QuizGenerator.play].
  rewrite (click_options_fresh clicks st q Hsel)
    by (rewrite Hqs, Hidx; apply at_index_app_head).
  set (st1 := match clicks with
              | [] => st
              | o :: _ => _
              end).
  assert (Hst1 : QuizGenerator.questions st1 = QuizGenerator.questions st /\
                 QuizGenerator.currentQuestionIndex st1 =
                   QuizGenerator.currentQuestionIndex st /\
                 QuizGenerator.score st1 =
                   QuizGenerator.score st +
                   (if QuizGenerator.first_click_correct q clicks
                    then 1 else 0) /\
                 QuizGenerator.selectedOption st1 = List.hd_error clicks /\
                 QuizGenerator.isFinished st1 = QuizGenerator.isFinished st).
  { subst st1. destruct clicks as [|o clicks]; cbn.
    - rewrite Z.add_0_r. repeat split; assumption.
    - repeat split. }
  destruct Hst1 as [Hq1 [Hi1 [Hs1 [Hsel1 Hfin1]]]].
  cbn [List.length] in Hlen.
  destruct rounds as [|clicks' rounds].
  - (* the last question *)
    destruct todo; [|discriminate].
    exists (QuizGenerator.handleNext st1).
    split; [reflexivity|].
    unfold QuizGenerator.handleNext.
    rewrite Hq1, Hi1, Hqs, Hidx, length_app. cbn [List.length].
    destruct (Z.ltb_spec (Z.of_nat (List.length done))
                (Z.of_nat (List.length done + 1) - 1)) as [Hlt|_]; [lia|].
    cbn. rewrite Hs1, Hq1, Hsel1, Hqs. cbn.
    repeat split. lia.
  - (* more questions follow *)
    assert (Hnext : QuizGenerator.handleNext st1 =
                    QuizGenerator.setSelectedOption None
                      (QuizGenerator.setCurrentQuestionIndex
                         (QuizGenerator.currentQuestionIndex st1 + 1) st1)).
    { unfold QuizGenerator.handleNext.
      rewrite Hq1, Hi1, Hqs, Hidx, length_app.
      destruct todo as [|q' todo]; [discriminate|]. cbn [List.length].
      destruct (Z.ltb_spec (Z.of_nat (List.length done))
                  (Z.of_nat (List.length done + S (S (List.length todo))) - 1))
        as [_|Hge]; [reflexivity|lia]. }
    rewrite Hnext.
    destruct (IH (done ++ [q])%list todo
                (QuizGenerator.setSelectedOption None
                   (QuizGenerator.setCurrentQuestionIndex
                      (QuizGenerator.currentQuestionIndex st1 + 1) st1)))
      as [st' [Hplay [Hscore [Hfin [Hqs' Hsel']]]]].
    + cbn. rewrite Hq1, Hqs, <- app_assoc. reflexivity.
    + cbn. rewrite Hi1, Hidx, length_app. cbn. lia.
    + reflexivity.
    + lia.
    + discriminate.
    + exists st'. split; [exact Hplay|].
      cbn in Hscore, Hqs'. rewrite Hscore, Hs1, Hqs', Hq1.
      cbn [QuizGenerator.correct_answers]. split; [ring|].
      split; [exact Hfin|]. split; [reflexivity|exact Hsel'].
Qed.

Lemma correct_answers_bounds (qs : list QuizGenerator.Question) :
  forall rounds,
    0 <= QuizGenerator.correct_answers qs rounds <= Z.of_nat (List.length qs).
Proof.
  induction qs as [|q qs IH]; intros [|clicks rounds];
    cbn [QuizGenerator.correct_answers List.length]; try lia.
  specialize (IH rounds).
  destruct (QuizGenerator.first_click_correct q clicks); lia.
Qed.

(** X10.  Going through a quiz.  From the start of a quiz with at least
    one question, when the user clicks some options on each question and
    then goes on, the quiz ends finished, and the score is the number of
    questions whose first click was the answer: later clicks on the same
    question are ignored, a question left without click counts as wrong,
    and the score lies between 0 and the number of questions. *)
Theorem quiz_score_counts_first_clicks :
  forall (qs : list QuizGenerator.Question) (rounds : list (list JsString))
         (st : QuizGenerator.State),
    QuizGenerator.questions st = qs ->
    QuizGenerator.currentQuestionIndex st = 0 ->
    QuizGenerator.score st = 0 ->
    QuizGenerator.selectedOption st = None ->
    List.length rounds = List.length qs ->
    qs <> [] ->
    exists st',
      QuizGenerator.play rounds st = Some st' /\
      QuizGenerator.isFinished st' = true /\
      QuizGenerator.score st' = QuizGenerator.correct_answers qs rounds /\
      0 <= QuizGenerator.score st' <= Z.of_nat (List.length qs) /\
      QuizGenerator.questions st' = qs /\
      QuizGenerator.selectedOption st' = List.hd_error (List.last rounds []).
Proof.
  intros qs rounds st Hqs Hidx Hscore Hsel Hlen Hne.
  destruct (play_from rounds [] qs st Hqs Hidx Hsel Hlen)
    as [st' [Hplay [Hsc [Hfin [Hqs' Hsel']]]]].
  { destruct rounds; [destruct qs; [congruence|discriminate]|discriminate]. }
  exists st'. rewrite Hscore, Z.add_0_l in Hsc.
  split; [exact Hplay|]. split; [exact Hfin|]. split; [exact Hsc|].
  split; [rewrite Hsc; apply correct_answers_bounds|].
  split; [rewrite Hqs'; exact Hqs|exact Hsel'].
Qed.

Lemma quiz_score_counts_first_clicks_witness :
  List.length [[units "Chlorophyll"; units "Keratin"];
       [units "Nitrogen"; units "Oxygen"]] =
    List.length [pigment_question; gas_question] /\
  exists st',
    QuizGenerator.play [[units "Chlorophyll"; units "Keratin"];
       [units "Nitrogen"; units "Oxygen"]]
      (QuizGenerator.setQuestions [pigment_question; gas_question]
         QuizGenerator.initial) = Some st' /\
    QuizGenerator.isFinished st' = true /\
    QuizGenerator.score st' = 1.
Proof.
  split; [reflexivity|].
  destruct (quiz_score_counts_first_clicks [pigment_question; gas_question]
              [[units "Chlorophyll"; units "Keratin"];
       [units "Nitrogen"; units "Oxygen"]]
              (QuizGenerator.setQuestions [pigment_question; gas_question]
                 QuizGenerator.initial)
              eq_refl eq_refl eq_refl eq_refl eq_refl
              ltac:(discriminate))
    as [st' [Hplay [Hfin [Hscore _]]]].
  exists st'. split; [exact Hplay|]. split; [exact Hfin|exact Hscore].
Defined.

(** ** [QuizGenerator]: what every handler keeps *)

Section QuizHandlers.

Context {St : Type}.
Variable service : Request -> St -> Outcome GenerateContentResult * St.
Variable syntaxErrorMessage : string -> string.
Variable env : Env.
Variable nullAccessError : JsVal.

(** The ways in which [handleGenerate] can end: it never throws. *)
Lemma handleGenerate_outcomes (st : QuizGenerator.State) (s : Sys (Net St)) :
  exists r,
    fst (QuizGenerator.handleGenerate service syntaxErrorMessage env
           nullAccessError st s) = Return r /\
    (r = Done st \/
     (exists qs,
         r = Done (QuizGenerator.setIsLoading false
                     (QuizGenerator.setQuestions qs
                        (QuizGenerator.reset st)))) \/
     (exists v,
         r = StoredUnchecked v
               (QuizGenerator.setIsLoading false (QuizGenerator.reset st)) /\
         match v with
         | Some j => as_array QuizGenerator.as_question j = None
         | None => True
         end) \/
     (r = UntypedAttachment /\
      exists a,
        QuizGenerator.attachedFile st = Some a /\
        toFileData (file a) (preview a) = None)).
Proof.
  unfold QuizGenerator.handleGenerate.
  destruct (blank (QuizGenerator.topic st) &&
            match QuizGenerator.attachedFile st with
            | Some _ => false
            | None => true
            end).
  { eexists; split; [reflexivity|]. left; reflexivity. }
  destruct (QuizGenerator.isLoading st).
  { eexists; split; [reflexivity|]. left; reflexivity. }
  destruct (QuizGenerator.fileData_of (QuizGenerator.attachedFile st))
    as [fileData|] eqn:Hfile.
  2: { eexists; split; [reflexivity|]. right; right; right.
       split; [reflexivity|].
       unfold QuizGenerator.fileData_of in Hfile.
       destruct (QuizGenerator.attachedFile st) as [a|]; [|discriminate].
       exists a. split; [reflexivity|].
       destruct (toFileData (file a) (preview a)); [discriminate|reflexivity]. }
  unfold try_catch, bind at 1.
  destruct (generateQuiz _ _ _ _ _ _ _ s) as [[data|e] s1].
  - unfold decode_member.
    destruct data as [|b|n|str|items|members];
      try (eexists; split; [reflexivity|]; right; right; left;
           exists None; split; [reflexivity|exact I]).
    + eexists; split; [reflexivity|]. right; left. exists []. reflexivity.
    + destruct (member "questions" (JObject members)) as [v|].
      * destruct (as_array QuizGenerator.as_question v) as [qs|] eqn:Hqs.
        -- eexists; split; [reflexivity|]. right; left. exists qs.
           reflexivity.
        -- eexists; split; [reflexivity|]. right; right; left.
           exists (Some v). split; [reflexivity|exact Hqs].
      * eexists; split; [reflexivity|]. right; right; left.
        exists None. split; [reflexivity|exact I].
  - eexists; split; [reflexivity|]. right; left. exists []. reflexivity.
Qed.

End QuizHandlers.

Lemma quiz_reset_consistent (qs : list QuizGenerator.Question)
  (st : QuizGenerator.State) :
  QuizGenerator.consistent
    (QuizGenerator.setIsLoading false
       (QuizGenerator.setQuestions qs (QuizGenerator.reset st))).
Proof.
  unfold QuizGenerator.consistent. cbn. split.
  - intro Hne. destruct qs; [congruence|]. cbn [List.length]. lia.
  - destruct (QuizGenerator.selectedOption st); lia.
Qed.

(** X11.  As long as the state holds a list of questions, every handler of
    the quiz keeps it consistent: while there are questions the current
    index points at one of them, so that a click on an option never reads
    a missing question, and the score lies between 0 and the number of
    questions.  The initial state is consistent.  [handleGenerate] never
    throws and ends in one of three ways: in a consistent state; having
    stored as the questions a member [questions] of the response that is
    not a list of questions, which the code does not check; or, for an
    attachment whose data URL has no comma, outside [FileData]. *)
Theorem quiz_state_stays_consistent :
  forall (St : Type)
         (service : Request -> St -> Outcome GenerateContentResult * St)
         (syntaxErrorMessage : string -> string) (env : Env)
         (nullAccessError : JsVal) (st : QuizGenerator.State),
    QuizGenerator.consistent st ->
    QuizGenerator.consistent QuizGenerator.initial /\
    (QuizGenerator.questions st <> [] ->
     forall o, exists st',
       QuizGenerator.handleOptionSelect o st = Some st' /\
       QuizGenerator.consistent st') /\
    QuizGenerator.consistent (QuizGenerator.handleNext st) /\
    QuizGenerator.consistent (QuizGenerator.tryAnotherTopic st) /\
    (forall chosen,
        QuizGenerator.consistent (QuizGenerator.handleFileUpload chosen st)) /\
    QuizGenerator.consistent (QuizGenerator.removeFile st) /\
    (forall (s : Sys (Net St)),
        match fst (QuizGenerator.handleGenerate service syntaxErrorMessage
                     env nullAccessError st s) with
        | Return (Done st') => QuizGenerator.consistent st'
        | Return (StoredUnchecked v st') =>
            match v with
            | Some j => as_array QuizGenerator.as_question j = None
            | None => True
            end /\
            st' = QuizGenerator.setIsLoading false (QuizGenerator.reset st)
        | Return UntypedAttachment =>
            exists a,
              QuizGenerator.attachedFile st = Some a /\
              toFileData (file a) (preview a) = None
        | Throw _ => False
        end) /\
    (QuizGenerator.questions st <> [] ->
     0 <= QuizGenerator.score st <=
       Z.of_nat (List.length (QuizGenerator.questions st))).
Proof.
  intros St service syntaxErrorMessage env nullAccessError st [Hidx Hscore].
  split; [|split; [|split; [|split; [|split; [|split; [|split]]]]]].
  - unfold QuizGenerator.consistent. cbn. split; [congruence|lia].
  - intros Hne o. specialize (Hidx Hne).
    unfold QuizGenerator.handleOptionSelect.
    destruct (QuizGenerator.selectedOption st) as [x|] eqn:Hsel.
    + exists st. split; [reflexivity|]. split; [intros _; exact Hidx|].
      rewrite Hsel. exact Hscore.
    + unfold at_index.
      destruct (Z.ltb_spec (QuizGenerator.currentQuestionIndex st) 0)
        as [Hneg|_]; [lia|].
      destruct (nth_error (QuizGenerator.questions st)
                  (Z.to_nat (QuizGenerator.currentQuestionIndex st)))
        as [q|] eqn:Hq.
      2: { apply nth_error_None in Hq. lia. }
      destruct (units_eqb o (QuizGenerator.answer q));
        eexists; (split; [reflexivity|]);
        unfold QuizGenerator.consistent; cbn; (split; [intros _; exact Hidx|lia]).
  - unfold QuizGenerator.handleNext.
    destruct (Z.ltb_spec (QuizGenerator.currentQuestionIndex st)
                (Z.of_nat (List.length (QuizGenerator.questions st)) - 1))
      as [Hlt|Hge].
    + unfold QuizGenerator.consistent. cbn.
      destruct (QuizGenerator.selectedOption st); split; intros; lia.
    + unfold QuizGenerator.consistent. cbn. split; assumption.
  - unfold QuizGenerator.consistent, QuizGenerator.tryAnotherTopic. cbn.
    split; [congruence|exact Hscore].
  - intros [|f chosen]; unfold QuizGenerator.consistent; cbn;
      split; assumption.
  - unfold QuizGenerator.consistent. cbn. split; assumption.
  - intro s.
    destruct (handleGenerate_outcomes service syntaxErrorMessage env
                nullAccessError st s) as [r [Hr Hcases]].
    rewrite Hr.
    destruct Hcases as [-> | [[qs ->] | [[v [-> Hv]] | [-> Ha]]]].
    + split; assumption.
    + apply quiz_reset_consistent.
    + split; [exact Hv|reflexivity].
    + exact Ha.
  - intro Hne. specialize (Hidx Hne).
    destruct (QuizGenerator.selectedOption st); lia.
Qed.

Lemma quiz_state_stays_consistent_witness :
  QuizGenerator.consistent finished_quiz /\
  QuizGenerator.consistent (QuizGenerator.handleNext finished_quiz) /\
  0 <= QuizGenerator.score finished_quiz <= 1 /\
  (exists st',
      fst (QuizGenerator.handleGenerate
             (answering_service (fenced photosynthesis_quiz)) engine_message
             keyed_env null_access finished_quiz fresh_net) =
        Return (Done st') /\
      QuizGenerator.questions st' = [pigment_question] /\
      QuizGenerator.consistent st').
Proof.
  assert (Hc : QuizGenerator.consistent finished_quiz).
  { unfold QuizGenerator.consistent. cbn. split; intros; lia. }
  destruct (quiz_state_stays_consistent nat
              (answering_service (fenced photosynthesis_quiz)) engine_message
              keyed_env null_access finished_quiz Hc)
    as [_ [_ [Hnext [_ [_ [_ [Hgen Hscore]]]]]]].
  split; [exact Hc|]. split; [exact Hnext|].
  split; [apply Hscore; discriminate|].
  specialize (Hgen fresh_net).
  destruct (fst (QuizGenerator.handleGenerate
                   (answering_service (fenced photosynthesis_quiz))
                   engine_message keyed_env null_access finished_quiz
                   fresh_net)) as [[st'|v st'|]|e] eqn:Hrun;
    vm_compute in Hrun; try discriminate.
  exists st'. split; [reflexivity|]. split; [|exact Hgen].
  injection Hrun as <-. reflexivity.
Defined.

(** The code stores the member [questions] of the response without
    checking it: for the answer [{}] it stores [undefined], and for an
    answer whose [questions] is a string it stores that string. *)
Example handleGenerate_stores_unchecked :
  let asked := QuizGenerator.setTopic "Photosynthesis" QuizGenerator.initial in
  let left_state :=
    QuizGenerator.setIsLoading false (QuizGenerator.reset asked) in
  fst (QuizGenerator.handleGenerate (answering_service "{}") engine_message
         keyed_env null_access asked fresh_net) =
    Return (StoredUnchecked None left_state) /\
  fst (QuizGenerator.handleGenerate
         (answering_service
            (String.concat "" ["{"; dq; "questions"; dq; ":"; dq; "none"; dq;
                               "}"]))
         engine_message keyed_env null_access asked fresh_net) =
    Return (StoredUnchecked (Some (JText "none")) left_state).
Proof. split; vm_compute; reflexivity. Qed.

(** X12.  [handleGenerate] resets the questions, the index, the score and
    the finished flag, but not the selected option.  When it is run while
    an option is selected, as it is after a quiz whose last question has
    been answered, the new quiz starts with that option still selected:
    clicks on the options of its first question are ignored, and that
    question cannot add to the score. *)
Theorem quiz_regenerated_keeps_selection :
  forall (St : Type)
         (service : Request -> St -> Outcome GenerateContentResult * St)
         (syntaxErrorMessage : string -> string) (env : Env)
         (nullAccessError : JsVal) (st st' : QuizGenerator.State)
         (s : Sys (Net St)) (x : JsString),
    QuizGenerator.selectedOption st = Some x ->
    fst (QuizGenerator.handleGenerate service syntaxErrorMessage env
           nullAccessError st s) = Return (Done st') ->
    QuizGenerator.selectedOption st' = Some x /\
    (forall o, QuizGenerator.handleOptionSelect o st' = Some st') /\
    (forall clicks rounds,
        QuizGenerator.play (clicks :: rounds) st' =
        QuizGenerator.play rounds (QuizGenerator.handleNext st')).
Proof.
  intros St service syntaxErrorMessage env nullAccessError st st' s x Hsel
         Hrun.
  assert (Hsel' : QuizGenerator.selectedOption st' = Some x).
  { destruct (handleGenerate_outcomes service syntaxErrorMessage env
                nullAccessError st s) as [r [Hr Hcases]].
    rewrite Hr in Hrun. injection Hrun as ->.
    destruct Hcases as [Hsame | [[qs Hqs] | [[v [Hv _]] | [Hu _]]]];
      try discriminate.
    - injection Hsame as <-. exact Hsel.
    - injection Hqs as ->. cbn. exact Hsel. }
  split; [exact Hsel'|]. split.
  - intro o. unfold QuizGenerator.handleOptionSelect. rewrite Hsel'.
    reflexivity.
  - intros clicks rounds. cbn [QuizGenerator.play].
    rewrite click_options_locked by (rewrite Hsel'; discriminate).
    reflexivity.
Qed.

Lemma quiz_regenerated_keeps_selection_witness :
  QuizGenerator.selectedOption finished_quiz = Some (units "Keratin") /\
  (exists st',
      fst (QuizGenerator.handleGenerate
             (answering_service (fenced photosynthesis_quiz)) engine_message
             keyed_env null_access finished_quiz fresh_net) =
        Return (Done st') /\
      QuizGenerator.questions st' = [pigment_question] /\
      QuizGenerator.score st' = 0 /\
      QuizGenerator.isFinished st' = false /\
      QuizGenerator.handleOptionSelect (units "Chlorophyll") st' = Some st').
Proof.
  split; [reflexivity|].
  eexists. split; [vm_compute; reflexivity|].
  split; [reflexivity|]. split; [reflexivity|]. split; [reflexivity|].
  match goal with
  | |- QuizGenerator.handleOptionSelect _ ?st' = _ =>
      exact (proj1 (proj2 (quiz_regenerated_keeps_selection nat
                             (answering_service (fenced photosynthesis_quiz))
                             engine_message keyed_env null_access
                             finished_quiz st' fresh_net (units "Keratin")
                             eq_refl ltac:(vm_compute; reflexivity)))
               (units "Chlorophyll"))
  end.
Defined.

(** ** [Flashcards]: moving through the deck *)

Section FlashcardHandlers.

Context {St : Type}.
Variable service : Request -> St -> Outcome GenerateContentResult * St.
Variable syntaxErrorMessage : string -> string.
Variable env : Env.
Variable nullAccessError : JsVal.

(** The ways in which [handleGenerate] can end: it never throws. *)
Lemma flashcards_handleGenerate_outcomes (st : Flashcards.State)
  (s : Sys (Net St)) :
  exists r,
    fst (Flashcards.handleGenerate service syntaxErrorMessage env
           nullAccessError st s) = Return r /\
    (r = Done st \/
     (exists cs,
         r = Done (Flashcards.setIsLoading false
                     (Flashcards.setCards cs (Flashcards.reset st)))) \/
     (exists v,
         r = StoredUnchecked v
               (Flashcards.setIsLoading false (Flashcards.reset st)) /\
         match v with
         | Some j => as_array Flashcards.as_flashcard j = None
         | None => True
         end) \/
     (r = UntypedAttachment /\
      exists a,
        Flashcards.attachedFile st = Some a /\
        toFileData (file a) (preview a) = None)).
Proof.
  unfold Flashcards.handleGenerate.
  destruct (blank (Flashcards.topic st) &&
            match Flashcards.attachedFile st with
            | Some _ => false
            | None => true
            end).
  { eexists; split; [reflexivity|]. left; reflexivity. }
  destruct (Flashcards.isLoading st).
  { eexists; split; [reflexivity|]. left; reflexivity. }
  destruct (QuizGenerator.fileData_of (Flashcards.attachedFile st))
    as [fileData|] eqn:Hfile.
  2: { eexists; split; [reflexivity|]. right; right; right.
       split; [reflexivity|].
       unfold QuizGenerator.fileData_of in Hfile.
       destruct (Flashcards.attachedFile st) as [a|]; [|discriminate].
       exists a. split; [reflexivity|].
       destruct (toFileData (file a) (preview a)); [discriminate|reflexivity]. }
  unfold try_catch, bind at 1.
  destruct (generateFlashcards _ _ _ _ _ _ s) as [[data|e] s1].
  - unfold decode_member.
    destruct data as [|b|n|str|items|members];
      try (eexists; split; [reflexivity|]; right; right; left;
           exists None; split; [reflexivity|exact I]).
    + eexists; split; [reflexivity|]. right; left. exists []. reflexivity.
    + destruct (member "flashcards" (JObject members)) as [v|].
      * destruct (as_array Flashcards.as_flashcard v) as [cs|] eqn:Hcs.
        -- eexists; split; [reflexivity|]. right; left. exists cs.
           reflexivity.
        -- eexists; split; [reflexivity|]. right; right; left.
           exists (Some v). split; [reflexivity|exact Hcs].
      * eexists; split; [reflexivity|]. right; right; left.
        exists None. split; [reflexivity|exact I].
  - eexists; split; [reflexivity|]. right; left. exists []. reflexivity.
Qed.

End FlashcardHandlers.

(** X13.  Moving through the deck.  As long as the state holds a list of
    cards, every handler keeps the current index on a card of the deck
    while there is a deck, so that the card on display exists.  [nextCard]
    and [prevCard] undo each other wherever they move, leaving the card on
    its front; at the last card [nextCard] and at the first card
    [prevCard] change nothing.  [handleGenerate] never throws and ends in
    one of three ways: with the index on a card of the new deck (or no
    deck); having stored as the cards a member [flashcards] of the
    response that is not a list of cards, which the code does not check;
    or, for an attachment whose data URL has no comma, outside
    [FileData]. *)
Theorem flashcards_navigation :
  forall (St : Type)
         (service : Request -> St -> Outcome GenerateContentResult * St)
         (syntaxErrorMessage : string -> string) (env : Env)
         (nullAccessError : JsVal) (st : Flashcards.State),
    Flashcards.in_range st ->
    let last := Z.of_nat (List.length (Flashcards.cards st)) - 1 in
    Flashcards.in_range (Flashcards.nextCard st) /\
    Flashcards.in_range (Flashcards.prevCard st) /\
    Flashcards.in_range (Flashcards.flip st) /\
    Flashcards.in_range (Flashcards.clear st) /\
    (forall chosen,
        Flashcards.in_range (Flashcards.handleFileUpload chosen st)) /\
    Flashcards.in_range (Flashcards.removeFile st) /\
    (forall (s : Sys (Net St)),
        match fst (Flashcards.handleGenerate service syntaxErrorMessage env
                     nullAccessError st s) with
        | Return (Done st') => Flashcards.in_range st'
        | Return (StoredUnchecked v st') =>
            match v with
            | Some j => as_array Flashcards.as_flashcard j = None
            | None => True
            end /\
            st' = Flashcards.setIsLoading false (Flashcards.reset st)
        | Return UntypedAttachment =>
            exists a,
              Flashcards.attachedFile st = Some a /\
              toFileData (file a) (preview a) = None
        | Throw _ => False
        end) /\
    (Flashcards.cards st <> [] ->
     at_index (Flashcards.cards st) (Flashcards.currentCardIndex st) <> None) /\
    (Flashcards.cards st <> [] -> Flashcards.currentCardIndex st < last ->
     Flashcards.prevCard (Flashcards.nextCard st) =
     Flashcards.setIsFlipped false st) /\
    (Flashcards.cards st <> [] -> 0 < Flashcards.currentCardIndex st ->
     Flashcards.nextCard (Flashcards.prevCard st) =
     Flashcards.setIsFlipped false st) /\
    (last <= Flashcards.currentCardIndex st -> Flashcards.nextCard st = st) /\
    (Flashcards.currentCardIndex st <= 0 -> Flashcards.prevCard st = st).
Proof.
  intros St service syntaxErrorMessage env nullAccessError st Hin last.
  unfold Flashcards.in_range in Hin.
  split; [|split; [|split; [|split; [|split; [|split; [|split; [|split;
    [|split; [|split; [|split]]]]]]]]]].
  - unfold Flashcards.nextCard. fold last.
    destruct (Z.ltb_spec (Flashcards.currentCardIndex st) last) as [Hlt|Hge];
      [|exact Hin].
    unfold Flashcards.in_range. cbn. intro Hne. specialize (Hin Hne).
    subst last. lia.
  - unfold Flashcards.prevCard.
    destruct (Z.ltb_spec 0 (Flashcards.currentCardIndex st)) as [Hlt|Hge];
      [|exact Hin].
    unfold Flashcards.in_range. cbn. intro Hne. specialize (Hin Hne). lia.
  - exact Hin.
  - unfold Flashcards.in_range. cbn. congruence.
  - intros [|f chosen]; exact Hin.
  - exact Hin.
  - intro s.
    destruct (flashcards_handleGenerate_outcomes service syntaxErrorMessage
                env nullAccessError st s) as [r [Hr Hcases]].
    rewrite Hr.
    destruct Hcases as [-> | [[cs ->] | [[v [-> Hv]] | [-> Ha]]]].
    + exact Hin.
    + unfold Flashcards.in_range. cbn.
      intro Hne. destruct cs; [congruence|]. cbn [List.length]. lia.
    + split; [exact Hv|reflexivity].
    + exact Ha.
  - intros Hne Hnone. specialize (Hin Hne). unfold at_index in Hnone.
    destruct (Z.ltb_spec (Flashcards.currentCardIndex st) 0) as [Hneg|_];
      [lia|].
    apply nth_error_None in Hnone. lia.
  - intros Hne Hlt. specialize (Hin Hne).
    unfold Flashcards.nextCard. fold last.
    destruct (Z.ltb_spec (Flashcards.currentCardIndex st) last) as [_|Hge];
      [|lia].
    unfold Flashcards.prevCard. cbn.
    destruct (Z.ltb_spec 0 (Flashcards.currentCardIndex st + 1)) as [_|Hle];
      [|lia].
    unfold Flashcards.setIsFlipped, Flashcards.setCurrentCardIndex. cbn.
    f_equal. lia.
  - intros Hne Hpos. specialize (Hin Hne). unfold Flashcards.prevCard.
    destruct (Z.ltb_spec 0 (Flashcards.currentCardIndex st)) as [_|Hle];
      [|lia].
    unfold Flashcards.nextCard. cbn.
    destruct (Z.ltb_spec (Flashcards.currentCardIndex st - 1)
                (Z.of_nat (List.length (Flashcards.cards st)) - 1))
      as [_|Hge]; [|lia].
    unfold Flashcards.setIsFlipped, Flashcards.setCurrentCardIndex. cbn.
    f_equal. lia.
  - intro Hge. unfold Flashcards.nextCard. fold last.
    destruct (Z.ltb_spec (Flashcards.currentCardIndex st) last) as [Hlt|_];
      [lia|reflexivity].
  - intro Hle. unfold Flashcards.prevCard.
    destruct (Z.ltb_spec 0 (Flashcards.currentCardIndex st)) as [Hlt|_];
      [lia|reflexivity].
Qed.

Lemma flashcards_navigation_witness :
  Flashcards.in_range sample_deck /\
  Flashcards.prevCard (Flashcards.nextCard sample_deck) =
    Flashcards.setIsFlipped false sample_deck /\
  Flashcards.nextCard (Flashcards.nextCard sample_deck) =
    Flashcards.nextCard sample_deck.
Proof.
  assert (Hin : Flashcards.in_range sample_deck).
  { unfold Flashcards.in_range. cbn. intros _. lia. }
  destruct (flashcards_navigation nat patchy_service engine_message keyed_env
              null_access sample_deck Hin)
    as [_ [_ [_ [_ [_ [_ [_ [_ [Hback [_ _]]]]]]]]]].
  destruct (flashcards_navigation nat patchy_service engine_message keyed_env
              null_access (Flashcards.nextCard sample_deck))
    as [_ [_ [_ [_ [_ [_ [_ [_ [_ [_ [Hlast _]]]]]]]]]]].
  { unfold Flashcards.in_range. cbn. intros _. lia. }
  split; [exact Hin|]. split.
  - apply Hback; [discriminate|cbn; lia].
  - apply Hlast. cbn. lia.
Defined.

(** The code stores the member [flashcards] of the response without
    checking it: for an answer that is a list, not an object, it stores
    [undefined]. *)
Example flashcards_handleGenerate_stores_unchecked :
  let asked := Flashcards.setTopic "Osmosis" Flashcards.initial in
  fst (Flashcards.handleGenerate (answering_service "[]") engine_message
         keyed_env null_access asked fresh_net) =
    Return (StoredUnchecked None
              (Flashcards.setIsLoading false (Flashcards.reset asked))).
Proof. vm_compute. reflexivity. Qed.

(** ** Attachments *)

Lemma until_comma_app (header rest : string) :
  comma_free header = true ->
  until_comma (header ++ String "," rest) = header.
Proof.
  induction header as [|c header IH]; intro Hfree; [reflexivity|].
  cbn [comma_free] in Hfree. apply andb_true_iff in Hfree.
  destruct Hfree as [Hc Hfree]. apply negb_true_iff in Hc.
  cbn [append until_comma]. rewrite Hc, IH by exact Hfree. reflexivity.
Qed.

Lemma after_comma_app (header rest : string) :
  comma_free header = true ->
  after_comma (header ++ String "," rest) = Some rest.
Proof.
  induction header as [|c header IH]; intro Hfree; [reflexivity|].
  cbn [comma_free] in Hfree. apply andb_true_iff in Hfree.
  destruct Hfree as [Hc Hfree]. apply negb_true_iff in Hc.
  cbn [append after_comma]. rewrite Hc. apply IH. exact Hfree.
Qed.

Lemma until_comma_free (s : string) :
  comma_free s = true -> until_comma s = s.
Proof.
  induction s as [|c s IH]; intro Hfree; [reflexivity|].
  cbn [comma_free] in Hfree. apply andb_true_iff in Hfree.
  destruct Hfree as [Hc Hfree]. apply negb_true_iff in Hc.
  cbn [until_comma]. rewrite Hc, IH by exact Hfree. reflexivity.
Qed.

Lemma after_comma_none (s : string) :
  after_comma s = None <-> comma_free s = true.
Proof.
  induction s as [|c s IH]; [split; reflexivity|].
  cbn [after_comma comma_free]. destruct (is_comma c); cbn [negb andb].
  - split; discriminate.
  - exact IH.
Qed.

(** X14.  The attachment built from a data URL.  When the part of the URL
    before its first comma is [header], the attachment carries the text
    between that comma and the next one as its data (all of the rest when
    the rest has no comma), together with the type and the name of the
    file; a URL without comma gives no attachment of the declared type. *)
Theorem toFileData_payload :
  forall (f : File) (header payload url : string),
    (comma_free header = true ->
     toFileData f (header ++ "," ++ payload) =
     Some {| inlineData := {| data := until_comma payload;
                              mimeType := file_type f |};
             name := Some (file_name f) |}) /\
    (comma_free payload = true -> until_comma payload = payload) /\
    (toFileData f url = None <-> comma_free url = true).
Proof.
  intros f header payload url. split; [|split].
  - intro Hfree. unfold toFileData, second_segment.
    cbn [append]. rewrite (after_comma_app header payload Hfree).
    reflexivity.
  - apply until_comma_free.
  - unfold toFileData, second_segment. rewrite <- after_comma_none.
    destruct (after_comma url); cbn; split; congruence.
Qed.

Lemma toFileData_payload_witness :
  comma_free "data:application/pdf;base64" = true /\
  comma_free "JVBERi0xLjQK" = true /\
  toFileData notes_pdf (file_dataURL notes_pdf) =
    Some {| inlineData := {| data := "JVBERi0xLjQK";
                             mimeType := "application/pdf" |};
            name := Some "notes.pdf" |}.
Proof.
  assert (Hh : comma_free "data:application/pdf;base64" = true)
    by reflexivity.
  assert (Hp : comma_free "JVBERi0xLjQK" = true) by reflexivity.
  split; [exact Hh|]. split; [exact Hp|].
  destruct (toFileData_payload notes_pdf "data:application/pdf;base64"
              "JVBERi0xLjQK" "") as [Hdata [Hwhole _]].
  rewrite <- (Hwhole Hp) at 1. exact (Hdata Hh).
Defined.

(** ** [ChatInterface]: removing an attachment *)

Lemma filter_by_index_all {A : Type} (index : Z) (xs : list A) :
  forall start,
    index < start ->
    ChatInterface.filter_by_index (fun i => negb (i =? index)) start xs = xs.
Proof.
  induction xs as [|x xs IH]; intros start Hlt; [reflexivity|].
  cbn [ChatInterface.filter_by_index].
  destruct (Z.eqb_spec start index) as [Heq|_]; [lia|].
  cbn [negb]. rewrite IH by lia. reflexivity.
Qed.

Lemma filter_by_index_at {A : Type} (xs : list A) :
  forall (k : nat) (start : Z),
    ChatInterface.filter_by_index
      (fun i => negb (i =? start + Z.of_nat k)) start xs =
    (firstn k xs ++ skipn (S k) xs)%list.
Proof.
  induction xs as [|x xs IH]; intros k start.
  - destruct k; reflexivity.
  - cbn [ChatInterface.filter_by_index]. destruct k as [|k].
    + rewrite Z.add_0_r, Z.eqb_refl. cbn [negb firstn skipn app].
      apply filter_by_index_all. lia.
    + destruct (Z.eqb_spec start (start + Z.of_nat (S k))) as [Heq|_]; [lia|].
      cbn [negb firstn skipn app]. f_equal.
      replace (start + Z.of_nat (S k)) with (start + 1 + Z.of_nat k) by lia.
      apply IH.
Qed.

(** X15.  [removeFile] takes out exactly the attachment at the given
    position and keeps the others in their order; a position outside the
    list changes nothing.  The transcript, the input and the loading flag
    are left alone. *)
Theorem chat_removeFile_position :
  forall (st : ChatInterface.State) (index : Z),
    let attached := ChatInterface.attachedFiles st in
    let removed := ChatInterface.removeFile index st in
    (0 <= index < Z.of_nat (List.length attached) ->
     ChatInterface.attachedFiles removed =
       (firstn (Z.to_nat index) attached ++
        skipn (S (Z.to_nat index)) attached)%list /\
     S (List.length (ChatInterface.attachedFiles removed)) =
       List.length attached) /\
    (index < 0 \/ Z.of_nat (List.length attached) <= index ->
     removed = st) /\
    ChatInterface.messages removed = ChatInterface.messages st /\
    ChatInterface.input removed = ChatInterface.input st /\
    ChatInterface.isLoading removed = ChatInterface.isLoading st.
Proof.
  intros st index attached removed.
  split; [|split; [|repeat split]].
  - intro Hin. subst removed. cbn. fold attached.
    pose proof (filter_by_index_at attached (Z.to_nat index) 0) as Hat.
    rewrite Z.add_0_l, Z2Nat.id in Hat by lia.
    rewrite Hat. split; [reflexivity|].
    rewrite length_app, length_firstn, length_skipn. lia.
  - intro Hout. subst removed. unfold ChatInterface.removeFile.
    fold attached.
    assert (Hsame : ChatInterface.filter_by_index
                      (fun i => negb (i =? index)) 0 attached = attached).
    { destruct Hout as [Hneg|Hbig].
      - apply filter_by_index_all. exact Hneg.
      - pose proof (filter_by_index_at attached (Z.to_nat index) 0) as Hat.
        rewrite Z.add_0_l, Z2Nat.id in Hat by lia.
        rewrite Hat, firstn_all2, skipn_all2 by lia. apply app_nil_r. }
    rewrite Hsame. subst attached. destruct st; reflexivity.
Qed.

Lemma chat_removeFile_position_witness :
  0 <= 0 < Z.of_nat (List.length [attach notes_pdf; attach diagram_png]) /\
  ChatInterface.attachedFiles
    (ChatInterface.removeFile 0
       {| ChatInterface.messages := [ChatInterface.welcome];
          ChatInterface.input := "";
          ChatInterface.isLoading := false;
          ChatInterface.attachedFiles :=
            [attach notes_pdf; attach diagram_png] |}) =
    [attach diagram_png].
Proof.
  assert (Hin : 0 <= 0 <
                Z.of_nat (List.length [attach notes_pdf; attach diagram_png]))
    by (cbn; lia).
  split; [exact Hin|].
  exact (proj1 (proj1 (chat_removeFile_position
                         {| ChatInterface.messages := [ChatInterface.welcome];
                            ChatInterface.input := "";
                            ChatInterface.isLoading := false;
                            ChatInterface.attachedFiles :=
                              [attach notes_pdf; attach diagram_png] |} 0)
                  Hin)).
Defined.

(** ** [ChatInterface]: the transcript and what is sent upstream *)




Section ChatHandlers.

Context {St : Type}.
Variable service : Request -> St -> Outcome GenerateContentResult * St.
Variable env : Env.




End ChatHandlers.



Example chat_initial_well_formed :
  ChatInterface.well_formed ChatInterface.initial.
Proof. split; reflexivity. Qed.

(** When every candidate is over quota the chat shows the quota message
    of [sendMessage] after [Error: ]. *)
Example chat_error_reply :
  fst (ChatInterface.handleSend (failing_service quota_exhausted) keyed_env
         JsUndefined
         {| ChatInterface.messages := [ChatInterface.welcome];
            ChatInterface.input := "Explain osmosis";
            ChatInterface.isLoading := false;
            ChatInterface.attachedFiles := [] |}
         fresh_net) =
  Return
    (Some {| ChatInterface.messages :=
               [ChatInterface.welcome;
                ChatInterface.userMessage_of "Explain osmosis";
                ChatInterface.modelMessage_of
                  "Error: API Quota Exceeded across all available models. Please check your Google AI Studio billing or wait a few minutes."];
             ChatInterface.input := "";
             ChatInterface.isLoading := false;
             ChatInterface.attachedFiles := [] |}).
Proof. vm_compute. reflexivity. Qed.

(** ** What the requests carry *)

Section RequestContents.

Context {St : Type}.
Variable service : Request -> St -> Outcome GenerateContentResult * St.
Variable syntaxErrorMessage : string -> string.
Variable env : Env.
Variable P : Request -> Prop.

Lemma sendMessage_requests_all history currentMessage files
  (s : Sys (Net St)) :
  (forall m, P (chat_request (getGenAI env) m history currentMessage files)) ->
  exists added,
    requests (world (snd (sendMessage service env history currentMessage
                            files s))) =
    (requests (world s) ++ added)%list /\
    Forall P added.
Proof.
  intro HP. destruct (string_dec (getApiKey env) "") as [Hkey|Hkey].
  - exists []. rewrite sendMessage_missing_key by exact Hkey.
    rewrite app_nil_r. split; [reflexivity|constructor].
  - rewrite (sendMessage_run service env history currentMessage files s Hkey).
    destruct (loop_requests
                (sendMessage_attempt service history currentMessage files
                   (getGenAI env))
                sendMessage_report
                (sendMessage_loop service history currentMessage files
                   (getGenAI env))
                (fun m => chat_request (getGenAI env) m history
                            currentMessage files)
                (least_chat_requests history)
                (fun e0 s0 => eq_refl)
                (sendMessage_loop_cons service history currentMessage files
                   (getGenAI env))
                (sendMessage_attempt_requests service history currentMessage
                   files (getGenAI env))
                MODELS JsUndefined s)
      as [ks [_ [_ [_ [_ Hreq]]]]].
    eexists. split.
    + destruct (sendMessage_loop _ _ _ _ _ _ _ s) as [[[v|e]|e] s1];
        exact Hreq.
    + apply requests_of_run_Forall. exact HP.
Qed.



End RequestContents.

Lemma inline_parts_chat (currentMessage : string) (files : list FileData) :
  inline_parts (chat_promptParts currentMessage files) = map inlineData files.
Proof.
  unfold chat_promptParts. cbn [inline_parts].
  induction files as [|f files IH]; [reflexivity|].
  cbn [map inline_parts]. rewrite IH. reflexivity.
Qed.

(** X17.  What every request carries, whatever the service does.  All
    requests are made with the configured key and name a candidate of
    [MODELS].  Those of [sendMessage] carry the persona text as system
    instruction, the message as first part and the payload of each file
    after it, in order.  Those of [generateQuiz] and [generateFlashcards]
    carry no system instruction, the prompt as first part and the payload
    of the file, when there is one, after it. *)
Theorem requests_carry :
  forall (St : Type)
         (service : Request -> St -> Outcome GenerateContentResult * St)
         (syntaxErrorMessage : string -> string) (env : Env),
    (forall history currentMessage files (s : Sys (Net St)),
        exists added,
          requests (world (snd (sendMessage service env history currentMessage
                                  files s))) =
            (requests (world s) ++ added)%list /\
          Forall (fun req =>
                    request_key req = getApiKey env /\
                    In (model_name (request_model req)) MODELS /\
                    request_instruction req = Some SYSTEM_PROMPT /\
                    List.hd_error (request_parts req) =
                      Some (PromptString currentMessage) /\
                    inline_parts (request_parts req) = map inlineData files)
                 added) /\
    (forall topic fileData difficulty count (s : Sys (Net St)),
        exists added,
          requests (world (snd (generateQuiz service syntaxErrorMessage env
                                  topic fileData difficulty count s))) =
            (requests (world s) ++ added)%list /\
          Forall (fun req =>
                    request_key req = getApiKey env /\
                    In (model_name (request_model req)) MODELS /\
                    request_instruction req = None /\
                    request_history req = None /\
                    List.hd_error (request_parts req) =
                      Some (PromptString
                              (quiz_prompt topic fileData difficulty count)) /\
                    inline_parts (request_parts req) =
                      match fileData with
                      | Some f => [inlineData f]
                      | None => []
                      end)
                 added) /\
    (forall topic fileData count (s : Sys (Net St)),
        exists added,
          requests (world (snd (generateFlashcards service syntaxErrorMessage
                                  env topic fileData count s))) =
            (requests (world s) ++ added)%list /\
          Forall (fun req =>
                    request_key req = getApiKey env /\
                    In (model_name (request_model req)) MODELS /\
                    request_instruction req = None /\
                    request_history req = None /\
                    List.hd_error (request_parts req) =
                      Some (PromptString
                              (flashcards_prompt topic fileData count)) /\
                    inline_parts (request_parts req) =
                      match fileData with
                      | Some f => [inlineData f]
                      | None => []
                      end)
                 added).
Proof.
  intros St service syntaxErrorMessage env. split; [|split].
  - intros history currentMessage files s.
    destruct (string_dec (getApiKey env) "") as [Hkey|Hkey].
    + exists []. rewrite sendMessage_missing_key by exact Hkey.
      rewrite app_nil_r. split; [reflexivity|constructor].
    + rewrite (sendMessage_run service env history currentMessage files s
                 Hkey).
      destruct (loop_requests
                  (sendMessage_attempt service history currentMessage files
                     (getGenAI env))
                  sendMessage_report
                  (sendMessage_loop service history currentMessage files
                     (getGenAI env))
                  (fun m => chat_request (getGenAI env) m history
                              currentMessage files)
                  (least_chat_requests history)
                  (fun e0 s0 => eq_refl)
                  (sendMessage_loop_cons service history currentMessage files
                     (getGenAI env))
                  (sendMessage_attempt_requests service history currentMessage
                     files (getGenAI env))
                  MODELS JsUndefined s)
        as [ks [_ [_ [_ [_ Hreq]]]]].
      eexists. split.
      * destruct (sendMessage_loop _ _ _ _ _ _ _ s) as [[[v|e]|e] s1];
          exact Hreq.
      * clear Hreq. unfold requests_of_run.
        apply Forall_concat. apply Forall_map.
        apply Forall_forall. intros [m k] Hin.
        apply in_combine_l in Hin. cbn [fst snd].
        apply Forall_forall. intros req Hreq.
        apply repeat_spec in Hreq. subst req.
        repeat split; try exact Hin. apply inline_parts_chat.
  - intros topic fileData difficulty count s. rewrite generateQuiz_run.
    destruct (loop_requests
                (generateQuiz_attempt service syntaxErrorMessage env
                   (quiz_prompt topic fileData difficulty count) fileData)
                generateQuiz_report
                (generateQuiz_loop service syntaxErrorMessage env
                   (quiz_prompt topic fileData difficulty count) fileData)
                (fun m => content_request env m
                            (quiz_prompt topic fileData difficulty count)
                            fileData)
                1%nat
                (fun e0 s0 => eq_refl)
                (generateQuiz_loop_cons service syntaxErrorMessage env _
                   fileData)
                (generateQuiz_attempt_requests service syntaxErrorMessage env
                   _ fileData)
                MODELS JsUndefined s)
      as [ks [_ [_ [_ [_ Hreq]]]]].
    eexists. split.
    + destruct (generateQuiz_loop _ _ _ _ _ _ _ s) as [[[v|e]|e] s1];
        exact Hreq.
    + clear Hreq. unfold requests_of_run.
      apply Forall_concat. apply Forall_map.
      apply Forall_forall. intros [m k] Hin.
      apply in_combine_l in Hin. cbn [fst snd].
      apply Forall_forall. intros req Hreq.
      apply repeat_spec in Hreq. subst req.
      repeat split; try exact Hin. destruct fileData; reflexivity.
  - intros topic fileData count s. rewrite generateFlashcards_run.
    destruct (loop_requests
                (generateFlashcards_attempt service syntaxErrorMessage env
                   (flashcards_prompt topic fileData count) fileData)
                generateFlashcards_report
                (generateFlashcards_loop service syntaxErrorMessage env
                   (flashcards_prompt topic fileData count) fileData)
                (fun m => content_request env m
                            (flashcards_prompt topic fileData count) fileData)
                1%nat
                (fun e0 s0 => eq_refl)
                (generateFlashcards_loop_cons service syntaxErrorMessage env _
                   fileData)
                (generateFlashcards_attempt_requests service
                   syntaxErrorMessage env _ fileData)
                MODELS JsUndefined s)
      as [ks [_ [_ [_ [_ Hreq]]]]].
    eexists. split.
    + destruct (generateFlashcards_loop _ _ _ _ _ _ _ s) as [[[v|e]|e] s1];
        exact Hreq.
    + clear Hreq. unfold requests_of_run.
      apply Forall_concat. apply Forall_map.
      apply Forall_forall. intros [m k] Hin.
      apply in_combine_l in Hin. cbn [fst snd].
      apply Forall_forall. intros req Hreq.
      apply repeat_spec in Hreq. subst req.
      repeat split; try exact Hin. destruct fileData; reflexivity.
Qed.

(** ** What the components ask for *)


Section ComponentRequests.

Context {St : Type}.
Variable service : Request -> St -> Outcome GenerateContentResult * St.
Variable syntaxErrorMessage : string -> string.
Variable env : Env.
Variable nullAccessError : JsVal.



End ComponentRequests.

